(** * pyscraper: the normalisation core of [scrape.py]

    A shallow embedding of the functions of [src/pyscraper/scrape.py] that
    turn a raw downloaded table into a date-indexed frame ([from_ONS] and its
    helpers), coerce cells to floats ([float_convert]), narrow a panel
    ([from_IMF]), build the request of the Bank of England importer
    ([_get_initial_date], [from_BoE]) and keep and coerce the columns of the
    WEO table (the first and the last steps of [_get_weo_data]), together
    with the parts of Python and pandas they call.

    Conventions of the model:
    - a Python [str] is a Rocq [string]; character classes, case mapping and
      white space are those of ASCII text, which is what the agencies' files
      and the constants of the program are made of;
    - a Python [float] is an IEEE binary64 value, [spec_float] of the
      Standard Library with precision 53 and maximal exponent 1024;
    - a computation is a pair of the lines it printed and its outcome, a
      returned value or a raised exception;
    - a frame holds its cells as Python values; the type pandas gives a
      column is read off them where the program depends on it (the text
      methods of the label column, the float columns [applymap] makes);
    - what the network returns ([pd.read_csv], the two IMF downloads) and
      the one point on which pandas releases differ ([.loc] with a partly
      unknown list of labels) are parameters.

    The program comes first, then the vocabulary of the properties, then
    the properties and their proofs. *)

From Stdlib Require Import ZArith Ascii String List Bool Lia DecimalString.
From Stdlib Require Import Floats.SpecFloat.
From stdpp Require Import base option list strings gmap.

Local Open Scope string_scope.
Local Open Scope list_scope.
Local Open Scope Z_scope.

(** ** Python text *)

Module Py.

Definition code (c : ascii) : N := N_of_ascii c.

Definition between (lo hi : N) (c : ascii) : bool :=
  ((lo <=? code c) && (code c <=? hi))%N.

(** ['0'..'9'], the class [\d] and the digits [int] accepts. *)
Definition is_digit (c : ascii) : bool := between 48 57 c.

(** ['A'..'Z'], the class [[A-Z]]. *)
Definition is_upper (c : ascii) : bool := between 65 90 c.

Definition is_lower (c : ascii) : bool := between 97 122 c.

(** White space as [str.split], [str.strip] and the class [\s] see it:
    tab, line feed, vertical tab, form feed, carriage return, the four
    separators 0x1c..0x1f and the space. *)
Definition is_space (c : ascii) : bool :=
  between 9 13 c || between 28 31 c || (code c =? 32)%N.

Definition digit_val (c : ascii) : Z := Z.of_N (code c) - 48.

Definition to_upper (c : ascii) : ascii :=
  if is_lower c then ascii_of_N (code c - 32) else c.

Definition to_lower (c : ascii) : ascii :=
  if is_upper c then ascii_of_N (code c + 32) else c.

Fixpoint map_chars (f : ascii -> ascii) (s : string) : string :=
  match s with
  | EmptyString => EmptyString
  | String c s' => String (f c) (map_chars f s')
  end.

(** [s.upper()] and [s.lower()]. *)
Definition upper (s : string) : string := map_chars to_upper s.
Definition lower (s : string) : string := map_chars to_lower s.

Fixpoint lstrip (s : string) : string :=
  match s with
  | String c s' => if is_space c then lstrip s' else s
  | EmptyString => EmptyString
  end.

Fixpoint rstrip (s : string) : string :=
  match s with
  | EmptyString => EmptyString
  | String c s' =>
      match rstrip s' with
      | EmptyString => if is_space c then EmptyString else String c EmptyString
      | r => String c r
      end
  end.

(** [s.strip()]. *)
Definition strip (s : string) : string := rstrip (lstrip s).

(** [s.replace(old, new)] for a one-character [old]. *)
Fixpoint replace (old : ascii) (new : string) (s : string) : string :=
  match s with
  | EmptyString => EmptyString
  | String c s' =>
      if Ascii.eqb c old then new +:+ replace old new s'
      else String c (replace old new s')
  end.

(** [s.split()]: the maximal runs of characters that are not white space.
    [cur] is the run being read, in reverse. *)
Definition flush (cur : list ascii) (acc : list string) : list string :=
  match cur with
  | [] => acc
  | _ => string_of_list_ascii (rev cur) :: acc
  end.

Fixpoint split_go (s : string) (cur : list ascii) : list string :=
  match s with
  | EmptyString => flush cur []
  | String c s' =>
      if is_space c then flush cur (split_go s' [])
      else split_go s' (c :: cur)
  end.

Definition split (s : string) : list string := split_go s [].

(** [sep.join(parts)]. *)
Fixpoint join (sep : string) (parts : list string) : string :=
  match parts with
  | [] => ""
  | [p] => p
  | p :: rest => p +:+ sep +:+ join sep rest
  end.

(** [s[-1]], the last character, when there is one. *)
Fixpoint last_char (s : string) : option ascii :=
  match s with
  | EmptyString => None
  | String c EmptyString => Some c
  | String _ s' => last_char s'
  end.

Fixpoint all_chars (p : ascii -> bool) (s : string) : bool :=
  match s with
  | EmptyString => true
  | String c s' => p c && all_chars p s'
  end.

(** The value of a run of decimal digits, read left to right from [acc]. *)
Fixpoint digits_val (acc : Z) (s : string) : Z :=
  match s with
  | EmptyString => acc
  | String c s' => digits_val (10 * acc + digit_val c) s'
  end.

(** [str(n)] for an integer. *)
Definition str_of_Z (n : Z) : string :=
  DecimalString.NilZero.string_of_int (Z.to_int n).

End Py.

(** ** Python values and computations *)

(** The binary64 format. *)
Definition prec : Z := 53.
Definition emax : Z := 1024.
Abbreviation float := spec_float.

(** The objects a table cell or an argument of [float_convert] can be. *)
Inductive pyobj :=
  | PStr (s : string)
  | PFloat (f : float)
  | PInt (z : Z)
  | PBool (b : bool)
  | PNone.

(** [type(o)], as [print] shows it. *)
Definition type_repr (o : pyobj) : string :=
  match o with
  | PStr _ => "<class 'str'>"
  | PFloat _ => "<class 'float'>"
  | PInt _ => "<class 'int'>"
  | PBool _ => "<class 'bool'>"
  | PNone => "<class 'NoneType'>"
  end.

(** The exceptions the modelled code can raise. The retrieval of a file can
    fail with [TransportError]. *)
Inductive exn :=
  | KeyError (key : string)
  | IndexError
  | ValueError (what : string)
  | TypeError
  | AttributeError
  | OutOfBoundsDatetime
  | OverflowError
  | TransportError.

Inductive outcome (A : Type) :=
  | Return (a : A)
  | Raise (e : exn).
Arguments Return {A} a.
Arguments Raise {A} e.

(** A computation: the lines printed, in order, and the outcome. *)
Definition M (A : Type) : Type := list string * outcome A.

Definition ret {A} (a : A) : M A := ([], Return a).
Definition raise {A} (e : exn) : M A := ([], Raise e).
Definition print (line : string) : M unit := ([line], Return tt).

Definition bind {A B} (m : M A) (k : A -> M B) : M B :=
  match m with
  | (out, Return a) => let '(out', r) := k a in (out ++ out', r)
  | (out, Raise e) => (out, Raise e)
  end.

Notation "'do' x <- m ; k" := (bind m (fun x => k))
  (at level 10, x name, m at level 100, k at level 200).
Notation "'run' m ; k" := (bind m (fun _ => k))
  (at level 10, m at level 100, k at level 200).

(** A lookup that raises when it finds nothing. *)
Definition lookup_or {A} (e : exn) (o : option A) : M A :=
  match o with
  | Some a => ret a
  | None => raise e
  end.

(** Apply [f] to every element, left to right, stopping at the first
    exception. *)
Fixpoint mapM {A B} (f : A -> M B) (l : list A) : M (list B) :=
  match l with
  | [] => ret []
  | x :: l' => do y <- f x; do ys <- mapM f l'; ret (y :: ys)
  end.

(** ** [float(text)]

    The builtin accepts, between optional white space, an optional sign
    followed by [inf], [infinity] or [nan] in any case, or by a decimal
    number: digits with single underscores between them, an optional
    fraction and an optional exponent. The value is rounded to the nearest
    binary64, ties to even. *)

Module PyFloat.
Import Py.

(** The white space [float] skips at both ends: tab, line feed, vertical
    tab, form feed, carriage return and the space. The separators
    0x1c..0x1f, which [str.strip] removes, are not among them:
    [float] refuses a text that starts or ends with one. *)
Definition float_space (c : ascii) : bool :=
  between 9 13 c || (code c =? 32)%N.

Fixpoint float_lstrip (s : string) : string :=
  match s with
  | String c s' => if float_space c then float_lstrip s' else s
  | EmptyString => EmptyString
  end.

Fixpoint float_rstrip (s : string) : string :=
  match s with
  | EmptyString => EmptyString
  | String c s' =>
      match float_rstrip s' with
      | EmptyString => if float_space c then EmptyString else String c EmptyString
      | r => String c r
      end
  end.

Definition float_strip (s : string) : string := float_rstrip (float_lstrip s).

(** The rest of a [digitpart], after a first digit: [cnt] digits read so
    far, of value [acc]. *)
Fixpoint digits_loop (acc : Z) (cnt : nat) (s : string) : Z * nat * string :=
  match s with
  | String c s' =>
      if is_digit c then digits_loop (10 * acc + digit_val c) (S cnt) s'
      else if Ascii.eqb c "_" then
        match s' with
        | String d s'' =>
            if is_digit d
            then digits_loop (10 * acc + digit_val d) (S cnt) s''
            else (acc, cnt, s)
        | EmptyString => (acc, cnt, s)
        end
      else (acc, cnt, s)
  | EmptyString => (acc, cnt, s)
  end.

(** [digitpart ::= digit (["_"] digit)*], continuing the value [acc]. *)
Definition digitpart (acc : Z) (s : string) : option (Z * nat * string) :=
  match s with
  | String c s' =>
      if is_digit c then Some (digits_loop (10 * acc + digit_val c) 1 s')
      else None
  | EmptyString => None
  end.

(** [number ::= [digitpart] "." digitpart | digitpart ["."]]: the digits
    as one integer, and how many of them follow the point. *)
Definition number (s : string) : option (Z * nat * string) :=
  match digitpart 0 s with
  | Some (m, _, rest) =>
      match rest with
      | String "." rest' =>
          match digitpart m rest' with
          | Some r => Some r
          | None => Some (m, 0%nat, rest')
          end
      | _ => Some (m, 0%nat, rest)
      end
  | None =>
      match s with
      | String "." rest' => digitpart 0 rest'
      | _ => None
      end
  end.

Definition sign (s : string) : bool * string :=
  match s with
  | String "-" s' => (true, s')
  | String "+" s' => (false, s')
  | _ => (false, s)
  end.

(** [exponent ::= ("e" | "E") [sign] digitpart]. *)
Definition exponent (s : string) : option (Z * string) :=
  match s with
  | String c s' =>
      if Ascii.eqb c "e" || Ascii.eqb c "E" then
        let '(neg, s'') := sign s' in
        match digitpart 0 s'' with
        | Some (e, _, rest) => Some (if neg then - e else e, rest)
        | None => None
        end
      else None
  | EmptyString => None
  end.

(** [floatnumber ::= number [exponent]], the whole of [s]: the pair
    [(m, e)] stands for [m * 10 ^ e]. *)
Definition floatnumber (s : string) : option (Z * Z) :=
  match number s with
  | Some (m, k, EmptyString) => Some (m, - Z.of_nat k)
  | Some (m, k, rest) =>
      match exponent rest with
      | Some (e, EmptyString) => Some (m, e - Z.of_nat k)
      | _ => None
      end
  | None => None
  end.

(** [m * 10 ^ e] with the sign [neg], correctly rounded. *)
Definition of_decimal (neg : bool) (m e : Z) : float :=
  match m with
  | Zpos p =>
      if (0 <=? e)%Z
      then binary_normalize prec emax
             (if neg then - (m * 10 ^ e) else m * 10 ^ e) 0 false
      else SFdiv prec emax (S754_finite neg p 0)
             (S754_finite false (Z.to_pos (10 ^ (- e))) 0)
  | _ => S754_zero neg
  end.

(** [float(s)] for text; [None] where the builtin raises [ValueError]. *)
Definition parse (s : string) : option float :=
  let '(neg, body) := sign (float_strip s) in
  let word := lower body in
  if String.eqb word "inf" || String.eqb word "infinity"
  then Some (S754_infinity neg)
  else if String.eqb word "nan" then Some S754_nan
  else
    match floatnumber body with
    | Some (m, e) => Some (of_decimal neg m e)
    | None => None
    end.

(** [float(z)] for an integer; it overflows beyond the largest float. *)
Definition of_int (z : Z) : option float :=
  match binary_normalize prec emax z 0 false with
  | S754_infinity _ => None
  | f => Some f
  end.

(** The float [f] is exactly the fraction [p / q]. *)
Definition is_ratio (f : float) (p q : Z) : Prop :=
  match f with
  | S754_zero _ => p = 0
  | S754_finite s m e =>
      let n := if s then Z.neg m else Z.pos m in
      if (0 <=? e)%Z then n * 2 ^ e * q = p else n * q = p * 2 ^ (- e)
  | _ => False
  end.

End PyFloat.

(** [float(o)], as [astype(float)] applies it to the cells of a column. *)
Definition py_float (o : pyobj) : M float :=
  match o with
  | PStr s => lookup_or (ValueError s) (PyFloat.parse s)
  | PFloat f => ret f
  | PInt z => lookup_or OverflowError (PyFloat.of_int z)
  | PBool b => ret (if b then binary_normalize prec emax 1 0 false
                    else S754_zero false)
  | PNone => raise TypeError
  end.

(** ** [float_convert]  (scrape.py, lines 215-222) *)

Definition float_convert (s : pyobj) : M pyobj :=
  match s with
  | PStr t =>
      do f <- py_float (PStr (Py.replace "," "" t));
      ret (PFloat f)
  | PFloat _ => ret s
  | _ =>
      run print ("Encountered type " +:+ type_repr s);
      ret PNone
  end.

(** ** Regular expressions

    The three patterns of [re_dict] use digits, capital letters, literal
    characters, exact repetition and [$]; [str.contains] searches for a
    match starting anywhere in the text. *)

Module Re.

Inductive item :=
  | Digit             (* \d *)
  | Upper             (* [A-Z] *)
  | Lit (c : ascii)
  | Eol.              (* $ *)

Abbreviation regex := (list item).

(** [x{n,n}]. *)
Definition times (n : nat) (x : item) : regex := repeat x n.

Definition accepts (x : item) (c : ascii) : bool :=
  match x with
  | Digit => Py.is_digit c
  | Upper => Py.is_upper c
  | Lit d => Ascii.eqb c d
  | Eol => false
  end.

(** Where [$] matches: at the end of the text, and just before a line
    feed that ends the text. *)
Definition at_eol (s : string) : bool :=
  match s with
  | EmptyString => true
  | String c EmptyString => Ascii.eqb c "010"
  | _ => false
  end.

(** [re.match]: a match of [r] starting at the head of [s]. *)
Fixpoint match_here (r : regex) (s : string) : bool :=
  match r with
  | [] => true
  | Eol :: r' => at_eol s && match_here r' s
  | x :: r' =>
      match s with
      | String c s' => accepts x c && match_here r' s'
      | EmptyString => false
      end
  end.

(** [re.search]: a match of [r] starting anywhere in [s]. *)
Fixpoint search (r : regex) (s : string) : bool :=
  match_here r s ||
  match s with
  | String _ s' => search r s'
  | EmptyString => false
  end.

End Re.

(** ** Timestamps *)

Record Timestamp := mkTimestamp { year : Z; month : Z; day : Z }.

(** Calendar order. *)
Definition Timestamp_leb (a b : Timestamp) : bool :=
  (year a <? year b) ||
  ((year a =? year b) &&
   ((month a <? month b) || ((month a =? month b) && (day a <=? day b)))).

Definition is_leap (y : Z) : bool :=
  ((y mod 4 =? 0) && negb (y mod 100 =? 0)) || (y mod 400 =? 0).

Definition days_in_month (y m : Z) : Z :=
  if m =? 2 then (if is_leap y then 29 else 28)
  else if (m =? 4) || (m =? 6) || (m =? 9) || (m =? 11) then 30
  else 31.

(** A day of the calendar. *)
Definition valid_date (t : Timestamp) : bool :=
  (1 <=? year t) && (1 <=? month t) && (month t <=? 12) &&
  (1 <=? day t) && (day t <=? days_in_month (year t) (month t)).

(** pandas counts nanoseconds in 64 bits: the midnights it can represent
    run from 1677-09-22 to 2262-04-11. *)
Definition Timestamp_min : Timestamp := mkTimestamp 1677 9 22.
Definition Timestamp_max : Timestamp := mkTimestamp 2262 4 11.

Definition in_bounds (t : Timestamp) : bool :=
  Timestamp_leb Timestamp_min t && Timestamp_leb t Timestamp_max.

(** The construction of a timestamp from calendar fields. *)
Definition make_timestamp (what : string) (y m d : Z) : M Timestamp :=
  let t := mkTimestamp y m d in
  if negb (valid_date t) then raise (ValueError what)
  else if negb (in_bounds t) then raise OutOfBoundsDatetime
  else ret t.

Module Strptime.
Import Py.

(** [%Y]: four digits. *)
Definition four_digits (s : string) : option (Z * string) :=
  match s with
  | String a (String b (String c (String d rest))) =>
      if is_digit a && is_digit b && is_digit c && is_digit d
      then Some (digits_val 0 (String a (String b (String c (String d "")))),
                 rest)
      else None
  | _ => None
  end.

(** [%b]: the abbreviated month name, in any case. *)
Definition month_abbr : list (string * Z) :=
  [("jan", 1); ("feb", 2); ("mar", 3); ("apr", 4); ("may", 5); ("jun", 6);
   ("jul", 7); ("aug", 8); ("sep", 9); ("oct", 10); ("nov", 11); ("dec", 12)].

Fixpoint assoc (k : string) (l : list (string * Z)) : option Z :=
  match l with
  | [] => None
  | (k', v) :: l' => if String.eqb k k' then Some v else assoc k l'
  end.

Definition month_of_abbr (s : string) : option Z := assoc (lower s) month_abbr.

(** The format ['%Y']: the year, and nothing else. *)
Definition parse_Y (s : string) : option (Z * Z * Z) :=
  match four_digits s with
  | Some (y, EmptyString) => Some (y, 1, 1)
  | _ => None
  end.

(** The format ['%Y %b']: the year, white space, the month name. *)
Definition parse_Y_b (s : string) : option (Z * Z * Z) :=
  match four_digits s with
  | Some (y, String c rest) =>
      if is_space c then
        match month_of_abbr (lstrip rest) with
        | Some m => Some (y, m, 1)
        | None => None
        end
      else None
  | _ => None
  end.

End Strptime.

(** The formats the program uses. *)
Inductive format := Fmt_Y | Fmt_Y_b.

Definition strptime (fmt : format) (s : string) : option (Z * Z * Z) :=
  match fmt with
  | Fmt_Y => Strptime.parse_Y s
  | Fmt_Y_b => Strptime.parse_Y_b s
  end.

(** An index entry: a Python object, or a timestamp once the dates are
    rebuilt. *)
Inductive idx :=
  | IObj (o : pyobj)
  | ITime (t : Timestamp).

(** [pd.to_datetime(index, format=fmt, errors='raise')] on an index of
    texts: every entry is parsed on its own. Entries that are not text do
    not reach it in this program, the row filter keeps text only; the model
    rejects them. *)
Definition to_datetime1 (fmt : format) (l : idx) : M Timestamp :=
  match l with
  | IObj (PStr s) =>
      match strptime fmt s with
      | Some (y, m, d) => make_timestamp s y m d
      | None => raise (ValueError s)
      end
  | _ => raise TypeError
  end.

Definition to_datetime (fmt : format) (index : list idx) : M (list Timestamp) :=
  mapM (to_datetime1 fmt) index.

Module DateString.
Import Py.

(** [s.split(sep)]: the fields between the separators. *)
Fixpoint fields (sep : ascii) (s : string) (cur : list ascii) : list string :=
  match s with
  | EmptyString => [string_of_list_ascii (rev cur)]
  | String c s' =>
      if Ascii.eqb c sep
      then string_of_list_ascii (rev cur) :: fields sep s' []
      else fields sep s' (c :: cur)
  end.

Definition number (lo hi : nat) (s : string) : option Z :=
  if all_chars is_digit s && (lo <=? String.length s)%nat
     && (String.length s <=? hi)%nat
  then Some (digits_val 0 s) else None.

(** A date written [M/D/YYYY]. With three numbers between slashes pandas
    reads the month first, then the day ([dayfirst=False]). Other ways of
    writing a date are not modelled and count as unreadable. *)
Definition parse (s : string) : option (Z * Z * Z) :=
  match fields "/" s [] with
  | [m; d; y] =>
      match number 1 2 m, number 1 2 d, number 4 4 y with
      | Some m, Some d, Some y => Some (y, m, d)
      | _, _, _ => None
      end
  | _ => None
  end.

End DateString.

(** [pd.Timestamp(text)]. *)
Definition Timestamp_of_string (s : string) : M Timestamp :=
  match DateString.parse s with
  | Some (y, m, d) => make_timestamp s y m d
  | None => raise (ValueError s)
  end.

(** The offset [Q-DEC]: quarters that end in March, June, September and
    December. *)
Module QuarterEnd.

Definition end_of (y m : Z) : Timestamp := mkTimestamp y m (days_in_month y m).

(** The first quarter end on or after [t]. *)
Definition rollforward (t : Timestamp) : Timestamp :=
  end_of (year t) (3 * ((month t + 2) / 3)).

(** The quarter end after the quarter end [t]. *)
Definition next (t : Timestamp) : Timestamp :=
  if month t =? 12 then end_of (year t + 1) 3 else end_of (year t) (month t + 3).

Fixpoint from (t : Timestamp) (periods : nat) : list Timestamp :=
  match periods with
  | O => []
  | S n => t :: from (next t) n
  end.

End QuarterEnd.

(** [pd.date_range(start, periods=periods, freq='Q-DEC')]. *)
Definition date_range (start : string) (periods : nat) : M (list Timestamp) :=
  do t0 <- Timestamp_of_string start;
  let l := QuarterEnd.from (QuarterEnd.rollforward t0) periods in
  if forallb in_bounds l then ret l else raise OutOfBoundsDatetime.

(** ** Data frames *)

(** A frame: the column names, and the rows in order, each with its index
    entry and one cell per column. *)
Record DataFrame := mkDataFrame {
  columns : list string;
  rows : list (idx * list pyobj)
}.

Definition index (df : DataFrame) : list idx := map fst (rows df).

(** The missing value. *)
Definition nan : pyobj := PFloat S754_nan.

Fixpoint position (name : string) (names : list string) : option nat :=
  match names with
  | [] => None
  | n :: names' =>
      if String.eqb name n then Some O
      else option_map S (position name names')
  end.

Definition cell (pos : nat) (r : idx * list pyobj) : pyobj := nth pos (snd r) nan.

(** [df[name]]: the cells of one column. *)
Definition getitem (df : DataFrame) (name : string) : M (list pyobj) :=
  do pos <- lookup_or (KeyError name) (position name (columns df));
  ret (map (cell pos) (rows df)).

Definition is_text (o : pyobj) : bool :=
  match o with PStr _ => true | _ => false end.

Definition is_None (o : pyobj) : bool :=
  match o with PNone => true | _ => false end.

(** A column has the text methods when it holds objects read as text: a
    column of a file is one of objects when some cell is text, and when
    it has no row; a column of numbers alone, of missing values alone or
    of truth values alone is not. A column of [None] alone, which no file
    gives, also counts as text without any. *)
Definition has_str (column : list pyobj) : bool :=
  existsb is_text column || forallb is_None column.

(** [column.str]: [AttributeError] on a column without the text
    methods. *)
Definition str_accessor (column : list pyobj) : M (list pyobj) :=
  if has_str column then ret column else raise AttributeError.

(** [strings.contains(pattern, na=False)], after [column.str]: entries
    that are not text count as no match. *)
Definition str_contains (pattern : Re.regex) (column : list pyobj) : list bool :=
  map (fun o => match o with PStr s => Re.search pattern s | _ => false end)
      column.

(** Selection by a boolean mask keeps the entries marked [true], in
    order. *)
Fixpoint mask {A} (l : list A) (m : list bool) : list A :=
  match l, m with
  | x :: l', b :: m' => if b then x :: mask l' m' else mask l' m'
  | _, _ => []
  end.

(** [df[criterion]]. *)
Definition select (df : DataFrame) (criterion : list bool) : DataFrame :=
  mkDataFrame (columns df) (mask (rows df) criterion).

(** [df.empty]: some axis has length zero. *)
Definition empty (df : DataFrame) : bool :=
  match columns df, rows df with
  | _ :: _, _ :: _ => false
  | _, _ => true
  end.

(** [df.set_index(name)]: the column becomes the index and leaves the
    columns. *)
Definition set_index (name : string) (df : DataFrame) : M DataFrame :=
  do pos <- lookup_or (KeyError name) (position name (columns df));
  ret (mkDataFrame (delete pos (columns df))
         (map (fun r => (IObj (cell pos r), delete pos (snd r))) (rows df))).

(** [df.index = new]: the lengths must agree. *)
Definition set_axis (df : DataFrame) (new : list idx) : M DataFrame :=
  if (length new =? length (rows df))%nat
  then ret (mkDataFrame (columns df)
              (zip_with (fun i r => (i, snd r)) new (rows df)))
  else raise (ValueError "Length mismatch").

(** [df.astype(float)]. *)
Definition astype_float (df : DataFrame) : M DataFrame :=
  do rs <- mapM (fun r => do cs <- mapM (fun c => do f <- py_float c;
                                                   ret (PFloat f)) (snd r);
                          ret (fst r, cs)) (rows df);
  ret (mkDataFrame (columns df) rs).

(** ** The ONS importer  (scrape.py, lines 9-79) *)

Definition _retrieve_ONS_csv (dataset : string) (series : list string) : string :=
  let dataset := Py.strip (Py.lower dataset) in
  let series := map (fun s => Py.replace " " "" (Py.upper s)) series in
  let target_url :=
    "http://www.ons.gov.uk/ons/datasets-and-tables/downloads/csv.csv?dataset="
    +:+ dataset +:+ "&cdid=" +:+ Py.join "," series in
  target_url.

(** [int(c)] for a text of one character. *)
Definition int_of_char (c : ascii) : M Z :=
  if Py.is_digit c then ret (Py.digit_val c)
  else raise (ValueError (String c "")).

Definition _create_quarterly_index (dfindex : list idx) : M (list Timestamp) :=
  do first <- lookup_or IndexError (head dfindex);
  do text <- match first with
             | IObj (PStr s) => ret s
             | _ => raise AttributeError
             end;
  let thedate := Py.split text in
  do quarter <- lookup_or IndexError (thedate !! 1%nat);
  do c <- lookup_or IndexError (Py.last_char quarter);
  do n <- int_of_char c;
  let starting_quarter := Py.str_of_Z (3 * n) in
  do starting_year <- lookup_or IndexError (thedate !! 0%nat);
  let df2index :=
    date_range ("1/" +:+ starting_quarter +:+ "/" +:+ starting_year)
               (length dfindex) in
  df2index.

Definition _timeseries_index (df : DataFrame) (freq : string) : M DataFrame :=
  do df2 <- set_index "Unnamed: 0" df;
  if String.eqb freq "Q" then
    do ix <- _create_quarterly_index (index df2);
    set_axis df2 (map ITime ix)
  else if String.eqb freq "M" then
    do ix <- to_datetime Fmt_Y_b (index df2);
    set_axis df2 (map ITime ix)
  else if String.eqb freq "A" then
    do ix <- to_datetime Fmt_Y (index df2);
    set_axis df2 (map ITime ix)
  else ret df2.

(** The patterns of the row labels, by frequency:
    [\d{4,4} Q\d$], [\d{4,4}$] and [\d{4,4} [A-Z]{3,3}$]. *)
Definition pattern_Q : Re.regex :=
  Re.times 4 Re.Digit ++ [Re.Lit " "; Re.Lit "Q"; Re.Digit; Re.Eol].
Definition pattern_A : Re.regex :=
  Re.times 4 Re.Digit ++ [Re.Eol].
Definition pattern_M : Re.regex :=
  Re.times 4 Re.Digit ++ [Re.Lit " "] ++ Re.times 3 Re.Upper ++ [Re.Eol].

Definition re_dict : gmap string Re.regex :=
  {[ "Q" := pattern_Q; "A" := pattern_A; "M" := pattern_M ]}.

(** [dfraw['Unnamed: 0'].str.contains(re_dict[freq], na=False)] (line 71),
    in the order Python evaluates it: the label column, its text methods,
    the pattern of the frequency, the search. *)
Definition from_ONS_criterion (dfraw : DataFrame) (freq : string)
    : M (list bool) :=
  do labels <- getitem dfraw "Unnamed: 0";
  do strings <- str_accessor labels;
  do pattern <- lookup_or (KeyError freq) (re_dict !! freq);
  ret (str_contains pattern strings).

Section ONS.

(** The retrieval and decoding of the file at a URL, [pd.read_csv]. *)
Variable read_csv : string -> M DataFrame.

(** [from_ONS] returns a frame, or nothing ([None]) when the frequency is
    not available. *)
Definition from_ONS (dataset : string) (series : list string) (freq : string)
    (print_url : bool) : M (option DataFrame) :=
  let freq := Py.upper freq in
  let myfile := _retrieve_ONS_csv dataset series in
  run (if print_url then print myfile else ret tt);
  do dfraw <- read_csv myfile;
  do criterion <- from_ONS_criterion dfraw freq;
  if empty (select dfraw criterion) then
    run print "That frequency is unavailable for your series.";
    ret None
  else
    do df <- _timeseries_index (select dfraw criterion) freq;
    do df <- astype_float df;
    ret (Some df).

End ONS.

(** ** Panels and the IMF importer  (scrape.py, lines 150-183) *)

(** A panel: the labels of its three axes and its cells,
    [values !! i !! j !! k] for item [i], major entry [j], minor entry [k]. *)
Record Panel := mkPanel {
  items : list string;
  major_axis : list string;
  minor_axis : list pyobj;
  values : list (list (list pyobj))
}.

(** What [.loc] is given for one axis: the full slice [:], or a list of
    labels. *)
Inductive indexer :=
  | Slice
  | Labels (key : list string).

Section Loc.

(** pandas changed what a list with some, but not all, labels unknown
    does: the releases before 0.15 and from 1.0 raise [KeyError]
    ([strict_loc = true]), those between give the unknown labels entries
    of missing values. A non-empty list of labels that are all unknown
    raises [KeyError] in every release. *)
Variable strict_loc : bool.

Definition is_none {A} (o : option A) : bool :=
  match o with None => true | Some _ => false end.

Definition first_missing (key : list string) (found : list (option nat)) : string :=
  match mask key (map is_none found) with
  | k :: _ => k
  | [] => ""
  end.

(** The positions of the labels [key] on [axis]. *)
Definition locate (axis key : list string) : M (list (option nat)) :=
  let found := map (fun k => position k axis) key in
  match key with
  | [] => ret found
  | _ :: _ =>
      if forallb is_none found then raise (KeyError (first_missing key found))
      else if strict_loc && existsb is_none found
      then raise (KeyError (first_missing key found))
      else ret found
  end.

(** The entries of [l] at the positions [found]; [filler] stands for a
    label that was not found. *)
Definition take {A} (filler : A) (found : list (option nat)) (l : list A) : list A :=
  map (fun p => match p with
                | Some n => nth n l filler
                | None => filler
                end) found.

(** [panel.loc[i0, i1, :]]. *)
Definition loc (p : Panel) (i0 i1 : indexer) : M Panel :=
  let row := repeat nan (length (minor_axis p)) in
  let frame := repeat row (length (major_axis p)) in
  do p0 <- match i0 with
           | Slice => ret p
           | Labels key =>
               do found <- locate (items p) key;
               ret (mkPanel key (major_axis p) (minor_axis p)
                      (take frame found (values p)))
           end;
  match i1 with
  | Slice => ret p0
  | Labels key =>
      do found <- locate (major_axis p) key;
      ret (mkPanel (items p0) key (minor_axis p)
             (map (take row found) (values p0)))
  end.

(** The panels the two datasets are downloaded and reshaped into. *)
Variable _get_weo_data : M Panel.
Variable _get_pubfin_data : M Panel.

(** The selection that ends [from_IMF] (lines 177-183). *)
Definition select_panel (rawdata : Panel) (series countries : option (list string))
    : M Panel :=
  match series, countries with
  | None, None => ret rawdata
  | None, Some countries => loc rawdata Slice (Labels countries)
  | Some series, None => loc rawdata (Labels series) Slice
  | Some series, Some countries => loc rawdata (Labels series) (Labels countries)
  end.

Definition from_IMF (dataset : string) (series countries : option (list string))
    : M Panel :=
  let in_data := Py.strip (Py.lower dataset) in
  do rawdata <-
    (if String.eqb in_data "weo" then _get_weo_data
     else if String.eqb in_data "pubfin" then _get_pubfin_data
     else raise (ValueError "Unrecognised dataset."));
  select_panel rawdata series countries.

End Loc.

(** ** The Bank of England importer  (scrape.py, lines 84-145) *)

(** A [datetime.datetime]: a day of the calendar and a time of day. *)
Record datetime := mkdatetime {
  dt_year : Z; dt_month : Z; dt_day : Z;
  dt_hour : Z; dt_minute : Z; dt_second : Z; dt_microsecond : Z
}.

(** The days a [datetime] can hold: years 1 to 9999. *)
Definition valid_day (y m d : Z) : bool :=
  valid_date (mkTimestamp y m d) && (y <=? 9999).

(** The integers of the C type [int], into which [replace] converts its
    arguments. *)
Definition C_int (z : Z) : bool := (- 2 ^ 31 <=? z) && (z <=? 2 ^ 31 - 1).

(** [dt.replace(year=y, day=d)]: an argument that does not fit a C [int]
    raises [OverflowError]; then the new fields are checked, the year
    first. *)
Definition datetime_replace (dt : datetime) (y d : Z) : M datetime :=
  if negb (C_int y && C_int d) then raise OverflowError
  else if negb ((1 <=? y) && (y <=? 9999))
  then raise (ValueError ("year " +:+ Py.str_of_Z y +:+ " is out of range"))
  else if negb (valid_day y (dt_month dt) d)
  then raise (ValueError "day is out of range for month")
  else ret (mkdatetime y (dt_month dt) d (dt_hour dt) (dt_minute dt)
              (dt_second dt) (dt_microsecond dt)).

(** [try: m  except ValueError: handler]. *)
Definition except_ValueError {A} (m : M A) (handler : M A) : M A :=
  match m with
  | (out, Raise (ValueError _)) => let '(out', r) := handler in (out ++ out', r)
  | _ => m
  end.

(** [_get_initial_date]; [now] is what [datetime.now()] answers. *)
Definition _get_initial_date (now : datetime) (yearsback : Z) : M datetime :=
  let initial_date := now in
  except_ValueError
    (datetime_replace initial_date (dt_year initial_date - yearsback)
       (dt_day initial_date))
    (datetime_replace initial_date (dt_year initial_date - yearsback)
       (dt_day initial_date - 1)).

Module Strftime.

(** [%b] in the C locale. *)
Definition month_abbr : list string :=
  ["Jan"; "Feb"; "Mar"; "Apr"; "May"; "Jun";
   "Jul"; "Aug"; "Sep"; "Oct"; "Nov"; "Dec"].

(** [%d]: the day on two digits. *)
Definition two_digits (n : Z) : string :=
  if n <? 10 then "0" +:+ Py.str_of_Z n else Py.str_of_Z n.

(** [dt.strftime("%d/%b/%Y")]. The year is written as the C library
    writes it, without padding; from the year 1000 on every platform
    agrees. *)
Definition d_b_Y (dt : datetime) : string :=
  two_digits (dt_day dt) +:+ "/"
  +:+ nth (Z.to_nat (dt_month dt - 1)) month_abbr "" +:+ "/"
  +:+ Py.str_of_Z (dt_year dt).

End Strftime.

Section BoE.

(** The clock, [datetime.now()], and the retrieval,
    [pd.read_csv(url, index_col=0, parse_dates=True, header=0)]. *)
Variable now : datetime.
Variable read_csv : string -> M DataFrame.

(** [from_BoE]. The two assertions hold by the types of [series] and
    [datefrom]. *)
Definition from_BoE (series : list string) (datefrom : option datetime)
    (yearsback : Z) (vpd : string) : M DataFrame :=
  do Datefrom <- match datefrom with
                 | Some d => ret d
                 | None => _get_initial_date now yearsback
                 end;
  let Dateto := "now" in
  let SeriesCodes := Py.join "," series in
  let UsingCodes := "Y" in
  let CSVF := "TN" in
  let VPD := vpd in
  let url :=
    "http://www.bankofengland.co.uk/boeapps/iadb/fromshowcolumns.asp?csv.x=yes&Datefrom="
    +:+ Strftime.d_b_Y Datefrom
    +:+ "&Dateto=" +:+ Dateto
    +:+ "&SeriesCodes=" +:+ SeriesCodes
    +:+ "&UsingCodes=" +:+ UsingCodes
    +:+ "&CSVF=" +:+ CSVF
    +:+ "&VPD=" +:+ VPD in
  run print ("CSV retrieved from " +:+ url);
  read_csv url.

End BoE.

(** ** The reshaping of the WEO table  (scrape.py, lines 234-239, 256) *)

(** [s.isdigit()]: some characters, all of them digits. *)
Definition isdigit (s : string) : bool :=
  match s with
  | EmptyString => false
  | _ => Py.all_chars Py.is_digit s
  end.

(** The columns [_get_weo_data] keeps: the two key columns, then the
    columns named by a number, the years (lines 235-238). *)
Definition weo_keep_cols (column_values : list string) : list string :=
  let keep_cols := ["WEO Subject Code"; "Country"] in
  fold_left (fun keep_cols i => if isdigit i then keep_cols ++ [i] else keep_cols)
            column_values keep_cols.

(** [df[names]] for a list of column names: every name must be a column.
    The column names of a table read from a file are distinct. *)
Definition getitem_list (df : DataFrame) (names : list string) : M DataFrame :=
  do places <- mapM (fun n => lookup_or (KeyError n) (position n (columns df)))
                    names;
  ret (mkDataFrame names
         (map (fun r => (fst r, map (fun p => nth p (snd r) nan) places))
              (rows df))).

(** [dfdropped = dfraw[keep_cols]] (line 239). *)
Definition weo_dropped (dfraw : DataFrame) : M DataFrame :=
  getitem_list dfraw (weo_keep_cols (columns dfraw)).

(** The type pandas gives a column of results: a column of floats and
    [None] that holds a float is a float column, in which [None] reads
    NaN. A column of [None] alone holds objects and keeps them. The
    results of [float_convert] are floats and [None]; a column with any
    other value is left as it is. *)
Definition float_or_None (o : pyobj) : bool :=
  match o with PFloat _ | PNone => true | _ => false end.

Definition holds_float (column : list pyobj) : bool :=
  existsb (fun o => match o with PFloat _ => true | _ => false end) column.

Definition infer_objects (column : list pyobj) : list pyobj :=
  if forallb float_or_None column && holds_float column
  then map (fun o => match o with PNone => nan | _ => o end) column
  else column.

(** [df.applymap(f)]: [f] on every cell, one column after the other, each
    from the first row to the last; every column of results then gets
    its type. *)
Definition applymap (f : pyobj -> M pyobj) (df : DataFrame) : M DataFrame :=
  do cols <- mapM (fun j =>
                     do column <- mapM (fun r => f (nth j (snd r) nan)) (rows df);
                     ret (infer_objects column))
                  (seq 0 (length (columns df)));
  ret (mkDataFrame (columns df)
         (imap (fun i r => (fst r, map (fun col => nth i col nan) cols))
               (rows df))).

(** [dftyped = dfdropped.applymap(float_convert)] (line 256). *)
Definition weo_typed (dfdropped : DataFrame) : M DataFrame :=
  applymap float_convert dfdropped.

(** * The vocabulary of the properties *)

(** ** Cells *)

(** Removing the commas of a text, said without [replace]. *)
Definition without_commas (t : string) : string :=
  string_of_list_ascii
    (List.filter (fun c => negb (Ascii.eqb c ",")) (list_ascii_of_string t)).

Definition is_float (o : pyobj) : bool :=
  match o with PFloat _ => true | _ => false end.

(** The values Python counts as numbers. *)
Definition is_number (o : pyobj) : bool :=
  match o with PFloat _ | PInt _ | PBool _ => true | _ => false end.

(** [2.5] and [1234.5] as binary64 values. *)
Definition float_2_5 : float := S754_finite false 5629499534213120 (-51).
Definition float_1234_5 : float := S754_finite false 5429388417957888 (-42).

(** ** The row filter *)

(** Whether the filter keeps a row: its label is a text in which the
    pattern is found. *)
Definition keeps (pattern : Re.regex) (pos : nat) (r : idx * list pyobj) : bool :=
  match cell pos r with
  | PStr s => Re.search pattern s
  | _ => false
  end.

(** [dfraw[criterion]], as [from_ONS] computes it when the label column is
    at [pos] and has the text methods. *)
Definition filtered (dfraw : DataFrame) (pattern : Re.regex) (pos : nat) : DataFrame :=
  select dfraw (str_contains pattern (map (cell pos) (rows dfraw))).

Definition unavailable : string :=
  "That frequency is unavailable for your series.".

(** The lines [from_ONS] has printed once the file is read. *)
Definition url_line (dataset : string) (series : list string) (print_url : bool)
    : list string :=
  if print_url then [_retrieve_ONS_csv dataset series] else [].

(** A small file of the kind the ONS site serves: title lines, then
    annual, quarterly and monthly rows, then blank cells. *)
Definition sample : DataFrame :=
  mkDataFrame ["Unnamed: 0"; "YBHA"]
    [(IObj (PInt 0), [PStr "Title"; PStr "GDP"]);
     (IObj (PInt 1), [PStr "2001"; PStr "98"]);
     (IObj (PInt 2), [PStr "2002"; PStr "100"]);
     (IObj (PInt 3), [PStr "2002 Q2"; PStr "25.5"]);
     (IObj (PInt 4), [PStr "2002 Q3"; PStr "26"]);
     (IObj (PInt 5), [PStr "2002 JAN"; PStr "8"]);
     (IObj (PInt 6), [nan; nan])].

(** The label column of a table that has it at [pos]. *)
Definition labels_at (dfraw : DataFrame) (pos : nat) : list pyobj :=
  map (cell pos) (rows dfraw).

(** A file of annual rows alone: its labels are read as whole numbers. *)
Definition sample_years : DataFrame :=
  mkDataFrame ["Unnamed: 0"; "YBHA"]
    [(IObj (PInt 0), [PInt 2001; PFloat float_2_5]);
     (IObj (PInt 1), [PInt 2002; PFloat float_1234_5])].

(** One quarterly row, of a quarter there is not. *)
Definition sample_Q7 : DataFrame :=
  mkDataFrame ["Unnamed: 0"; "YBHA"]
    [(IObj (PInt 0), [PStr "2002 Q7"; PStr "26"])].

(** The same, with quarterly rows only. *)
Definition sample_quarterly : DataFrame :=
  mkDataFrame ["Unnamed: 0"; "YBHA"]
    [(IObj (PInt 0), [PStr "2002 Q2"; PStr "25.5"]);
     (IObj (PInt 1), [PStr "2002 Q3"; PStr "26"])].

(** ** The shapes of the labels *)

Definition text (l : list ascii) : string := string_of_list_ascii l.

Definition digit (c : ascii) : Prop := Py.is_digit c = true.
Definition capital (c : ascii) : Prop := Py.is_upper c = true.

(** Four digits. *)
Definition annual_text (s : string) : Prop :=
  exists a b c d, s = text [a; b; c; d] /\
    digit a /\ digit b /\ digit c /\ digit d.

(** Four digits, a space, [Q], a digit. *)
Definition quarterly_text (s : string) : Prop :=
  exists a b c d q, s = text [a; b; c; d; " "; "Q"; q]%char /\
    digit a /\ digit b /\ digit c /\ digit d /\ digit q.

(** Four digits, a space, three capital letters. *)
Definition monthly_text (s : string) : Prop :=
  exists a b c d x y z, s = text [a; b; c; d; " "%char; x; y; z] /\
    digit a /\ digit b /\ digit c /\ digit d /\
    capital x /\ capital y /\ capital z.

Definition shape (freq : string) (core : string) : Prop :=
  (freq = "A" /\ annual_text core) \/
  (freq = "Q" /\ quarterly_text core) \/
  (freq = "M" /\ monthly_text core).

(** Nothing, or one line feed. *)
Definition line_end (nl : string) : Prop :=
  nl = "" \/ nl = String "010" "".

(** The labels the filter keeps for a frequency: any text, then the shape
    of the frequency, then the end of the text or a last line feed. *)
Definition label_found (freq : string) (s : string) : Prop :=
  exists pre core nl, s = pre +:+ core +:+ nl /\ shape freq core /\ line_end nl.

(** ** The patterns of the specification *)

(** A three-letter month abbreviation. *)
Definition spec_month (x y z : ascii) : bool :=
  existsb (String.eqb (text [x; y; z]))
    ["JAN"; "FEB"; "MAR"; "APR"; "MAY"; "JUN";
     "JUL"; "AUG"; "SEP"; "OCT"; "NOV"; "DEC"].

(** The patterns as the specification words them, matched against the
    whole label: four digits only; four digits, a space, [Q] and one digit
    from 1 to 4; four digits, a space and a three-letter month
    abbreviation. *)
Definition spec_label (freq : string) (s : string) : bool :=
  match list_ascii_of_string s with
  | [a; b; c; d] =>
      String.eqb freq "A" &&
      Py.is_digit a && Py.is_digit b && Py.is_digit c && Py.is_digit d
  | [a; b; c; d; sp; k; q] =>
      String.eqb freq "Q" &&
      Py.is_digit a && Py.is_digit b && Py.is_digit c && Py.is_digit d &&
      Ascii.eqb sp " " && Ascii.eqb k "Q" && Py.between 49 52 q
  | [a; b; c; d; sp; x; y; z] =>
      String.eqb freq "M" &&
      Py.is_digit a && Py.is_digit b && Py.is_digit c && Py.is_digit d &&
      Ascii.eqb sp " " && spec_month x y z
  | _ => false
  end.

Definition spec_keeps (freq : string) (pos : nat) (r : idx * list pyobj) : bool :=
  match cell pos r with
  | PStr s => spec_label freq s
  | _ => false
  end.

(** Labels the quarterly pattern finds and the specification's does not:
    a quarter digit beyond 4, and text before the year. *)
Definition sample_loose : DataFrame :=
  mkDataFrame ["Unnamed: 0"; "YBHA"]
    [(IObj (PInt 0), [PStr "2002 Q2"; PStr "25.5"]);
     (IObj (PInt 1), [PStr "2002 Q7"; PStr "26"]);
     (IObj (PInt 2), [PStr "Total 2002 Q3"; PStr "27"])].

(** ** Dated labels *)

(** The year four digits write. *)
Definition year_value (a b c d : ascii) : Z :=
  1000 * Py.digit_val a + 100 * Py.digit_val b + 10 * Py.digit_val c
  + Py.digit_val d.

(** An annual label: four digits that write the year [y]. *)
Definition annual_label (s : string) (y : Z) : Prop :=
  exists a b c d, s = text [a; b; c; d] /\
    digit a /\ digit b /\ digit c /\ digit d /\ y = year_value a b c d.

(** The abbreviations of the months, as the files capitalise them. *)
Definition month_names : list (string * Z) :=
  [("JAN", 1); ("FEB", 2); ("MAR", 3); ("APR", 4); ("MAY", 5); ("JUN", 6);
   ("JUL", 7); ("AUG", 8); ("SEP", 9); ("OCT", 10); ("NOV", 11); ("DEC", 12)].

(** A monthly label: the year [y], a space, the abbreviation of the month
    [m]. *)
Definition monthly_label (s : string) (y m : Z) : Prop :=
  exists a b c d name, s = text [a; b; c; d] +:+ " " +:+ name /\
    digit a /\ digit b /\ digit c /\ digit d /\ y = year_value a b c d /\
    In (name, m) month_names.

Definition sample_annual : DataFrame :=
  mkDataFrame ["Unnamed: 0"; "YBHA"]
    [(IObj (PInt 1), [PStr "2001"; PStr "98"]);
     (IObj (PInt 2), [PStr "2013"; PStr "100"])].

Definition sample_monthly : DataFrame :=
  mkDataFrame ["Unnamed: 0"; "YBHA"]
    [(IObj (PInt 5), [PStr "2002 JAN"; PStr "8"]);
     (IObj (PInt 6), [PStr "2002 APR"; PStr "9"])].

Definition quarters_2002_Q2 : list idx :=
  [IObj (PStr "2002 Q2"); IObj (PStr "2002 Q3");
   IObj (PStr "2002 Q4"); IObj (PStr "2003 Q1")].

(** ** Selections *)

(** Every label of the key is on the axis. *)
Definition known (axis : list string) (key : list string) : Prop :=
  Forall (fun k => In k axis) key.

(** No label of the key is on the axis. *)
Definition unknown (axis : list string) (key : list string) : Prop :=
  Forall (fun k => ~ In k axis) key.

(** The labels an axis has after a selection. *)
Definition narrowed (axis : list string) (sel : option (list string)) : list string :=
  match sel with
  | None => axis
  | Some key => key
  end.

Definition known_sel (axis : list string) (sel : option (list string)) : Prop :=
  match sel with
  | None => True
  | Some key => known axis key
  end.

Definition sample_panel : Panel :=
  mkPanel ["X"; "Y"] ["UK"; "FR"] [PStr "2000"; PStr "2001"]
    [[[PFloat float_2_5; PFloat float_1234_5]; [nan; PFloat float_2_5]];
     [[PFloat float_1234_5; nan]; [PFloat float_2_5; PFloat float_2_5]]].

(** The cell of a panel at an item, a major entry and the [k]th minor
    entry. *)
Definition value_at (p : Panel) (item entity : string) (k : nat) : option pyobj :=
  match position item (items p), position entity (major_axis p) with
  | Some i, Some j =>
      match values p !! i with
      | Some frame =>
          match frame !! j with
          | Some row => row !! k
          | None => None
          end
      | None => None
      end
  | _, _ => None
  end.

(** The cells of a panel have the shape of its first two axes. *)
Definition well_shaped (p : Panel) : Prop :=
  length (values p) = length (items p) /\
  Forall (fun frame => length frame = length (major_axis p)) (values p).

(** ** Quarter ends *)

(** Strictly earlier in the calendar. *)
Definition Timestamp_ltb (a b : Timestamp) : bool :=
  Timestamp_leb a b && negb (Timestamp_leb b a).

(** The last day of March, June, September or December. *)
Definition is_quarter_end (t : Timestamp) : bool :=
  ((month t =? 3) && (day t =? 31)) || ((month t =? 6) && (day t =? 30)) ||
  ((month t =? 9) && (day t =? 30)) || ((month t =? 12) && (day t =? 31)).

(** [b] is three months after [a], and later in the calendar. *)
Definition three_months_on (a b : Timestamp) : Prop :=
  12 * year b + month b = 12 * year a + month a + 3 /\
  Timestamp_ltb a b = true.

(** Every date of the list is three months after the one before. *)
Fixpoint quarterly (l : list Timestamp) : Prop :=
  match l with
  | a :: (b :: _) as l' => three_months_on a b /\ quarterly l'
  | _ => True
  end.

Definition is_time (i : idx) : bool :=
  match i with ITime _ => true | IObj _ => false end.

(** A file that ends with a line of text closing on a year. *)
Definition sample_footer : DataFrame :=
  mkDataFrame ["Unnamed: 0"; "YBHA"]
    [(IObj (PInt 0), [PStr "2001"; PStr "98"]);
     (IObj (PInt 1), [PStr "2002"; PStr "100"]);
     (IObj (PInt 2), [PStr "Crown copyright 2013"; nan])].

(** ** Dates of the Bank of England importer *)

(** The day of a [datetime] is a day of the calendar. *)
Definition valid_datetime (dt : datetime) : bool :=
  valid_day (dt_year dt) (dt_month dt) (dt_day dt).

(** The same time of day. *)
Definition same_time (a b : datetime) : Prop :=
  dt_hour a = dt_hour b /\ dt_minute a = dt_minute b /\
  dt_second a = dt_second b /\ dt_microsecond a = dt_microsecond b.

(** The 29th of February, moved to a year that has none. *)
Definition leap_day_lost (dt : datetime) (y : Z) : bool :=
  (dt_month dt =? 2) && (dt_day dt =? 29) && negb (is_leap y).

(** The address [from_BoE] asks for, from the date [d]. *)
Definition boe_url (d : datetime) (series : list string) (vpd : string) : string :=
  "http://www.bankofengland.co.uk/boeapps/iadb/fromshowcolumns.asp?csv.x=yes&Datefrom="
  +:+ Strftime.d_b_Y d +:+ "&Dateto=now&SeriesCodes=" +:+ Py.join "," series
  +:+ "&UsingCodes=Y&CSVF=TN&VPD=" +:+ vpd.

(** Noon on the 29th of February 2024. *)
Definition leap_noon : datetime := mkdatetime 2024 2 29 12 0 0 0.

(** The date [yearsback] years before [now], the 29th of February giving
    the 28th in a year that is not a leap year. *)
Definition years_before (now : datetime) (yearsback : Z) : datetime :=
  mkdatetime (dt_year now - yearsback) (dt_month now)
    (if leap_day_lost now (dt_year now - yearsback) then 28 else dt_day now)
    (dt_hour now) (dt_minute now) (dt_second now) (dt_microsecond now).

(** The line [from_BoE] prints and the retrieval that follows. *)
Definition retrieved (read_csv : string -> M DataFrame) (url : string)
    : M DataFrame :=
  (("CSV retrieved from " +:+ url) :: fst (read_csv url), snd (read_csv url)).

(** Checks of the three parts of a date text, by computation. *)
Definition day_text_ok (d : Z) : bool :=
  match list_ascii_of_string (Strftime.two_digits d) with
  | [a; b] =>
      Py.is_digit a && Py.is_digit b
      && (10 * Py.digit_val a + Py.digit_val b =? d)
  | _ => false
  end.

Definition month_text_ok (m : Z) : bool :=
  match Strptime.month_of_abbr
          (nth (Z.to_nat (m - 1)) Strftime.month_abbr "") with
  | Some m' => m' =? m
  | None => false
  end.

Definition year_text_ok (y : Z) : bool :=
  match list_ascii_of_string (Py.str_of_Z y) with
  | [a; b; c; d] =>
      Py.is_digit a && Py.is_digit b && Py.is_digit c && Py.is_digit d
      && (year_value a b c d =? y)
  | _ => false
  end.

(** ** The WEO table *)

(** A table as the IMF serves it: the key columns among others, a column
    for each year. *)
Definition sample_weo : DataFrame :=
  mkDataFrame ["WEO Country Code"; "WEO Subject Code"; "Country"; "Units";
               "1980"; "1981"; "Estimates Start After"]
    [(IObj (PInt 0), [PInt 111; PStr "NGDP"; PStr "United States";
                      PStr "Billions"; PStr "2,862.475"; PStr "3,210.950";
                      PFloat float_2_5]);
     (IObj (PInt 1), [PInt 112; PStr "NGDP"; PStr "United Kingdom";
                      PStr "Billions"; PStr "n/a"; PFloat float_1234_5;
                      PFloat float_2_5])].

(** A frame of years by country, as the reshaping leaves it. *)
Definition sample_panel_frame : DataFrame :=
  mkDataFrame ["NGDP"; "NGDP_R"]
    [(IObj (PStr "1980"), [PStr "2,862.475"; nan]);
     (IObj (PStr "1981"), [PStr "3,210.950"; PFloat float_1234_5]);
     (IObj (PStr "1982"), [PInt 3345; PStr "12"])].

(** The cells [float_convert] makes a float of, when it returns: text
    and floats. *)
Definition made_float (o : pyobj) : bool := is_text o || is_float o.

(** Column [j] of a frame has a cell that is text or a float. *)
Definition float_column (df : DataFrame) (j : nat) : bool :=
  existsb (fun r => made_float (nth j (snd r) nan)) (rows df).

(** A result as its column shows it: in a float column [None] reads
    NaN. *)
Definition shown (float_col : bool) (v : pyobj) : pyobj :=
  match v with
  | PNone => if float_col then nan else PNone
  | _ => v
  end.

(** ** The address of an ONS file *)

(** Neither a space nor a small letter. *)
Definition code_char (c : ascii) : bool :=
  negb (Ascii.eqb c " ") && negb (Py.is_lower c).

(** A file with a figure written with a separator. *)
Definition sample_comma : DataFrame :=
  mkDataFrame ["Unnamed: 0"; "YBHA"]
    [(IObj (PInt 0), [PStr "2001"; PStr "998"]);
     (IObj (PInt 1), [PStr "2002"; PStr "1,002"])].

(** The labels of a selection are distinct. *)
Definition distinct_sel (sel : option (list string)) : Prop :=
  match sel with
  | None => True
  | Some key => List.NoDup key
  end.

(** * Properties *)

(** ** Computations *)

Lemma bind_Return {A B} out (a : A) (k : A -> M B) :
  bind (out, Return a) k = (out ++ fst (k a), snd (k a)).
Proof. unfold bind. destruct (k a); reflexivity. Qed.

Lemma bind_ret {A B} (a : A) (k : A -> M B) : bind (ret a) k = k a.
Proof. unfold ret. rewrite bind_Return. destruct (k a); reflexivity. Qed.

Lemma bind_raise {A B} e (k : A -> M B) : bind (raise e) k = raise e.
Proof. reflexivity. Qed.

(** ** The numeric coercer *)

Lemma replace_comma t : Py.replace "," "" t = without_commas t.
Proof.
  unfold without_commas. induction t as [|c t IH]; [reflexivity|].
  cbn [Py.replace list_ascii_of_string List.filter].
  destruct (Ascii.eqb c ","); cbn; rewrite IH; reflexivity.
Qed.

Lemma float_2_5_exact : PyFloat.is_ratio float_2_5 25 10.
Proof. reflexivity. Qed.

Lemma float_1234_5_exact : PyFloat.is_ratio float_1234_5 12345 10.
Proof. reflexivity. Qed.

Lemma float_convert_text t :
  float_convert (PStr t) =
  match PyFloat.parse (without_commas t) with
  | Some f => ret (PFloat f)
  | None => raise (ValueError (without_commas t))
  end.
Proof.
  unfold float_convert, py_float. rewrite replace_comma.
  destruct (PyFloat.parse (without_commas t)); reflexivity.
Qed.

(** C6, as the spec has it, fails: an integer cell is a number, and it is
    not returned unchanged. *)
Lemma float_convert_int_counterexample :
  is_number (PInt 5) = true /\
  float_convert (PInt 5) = (["Encountered type <class 'int'>"], Return PNone) /\
  float_convert (PInt 5) <> ret (PInt 5).
Proof. repeat split. discriminate. Qed.

(** C6 (amended): a cell that is already a float is returned unchanged and
    nothing is printed, [2.5] for [2.5]; a text whose commas removed reads
    as the float [f] gives [f], [1234.5] for ["1,234.5"]. *)
Theorem float_convert_float_or_text :
  (forall f, float_convert (PFloat f) = ([], Return (PFloat f))) /\
  (forall t f, PyFloat.parse (without_commas t) = Some f ->
               float_convert (PStr t) = ([], Return (PFloat f))) /\
  float_convert (PFloat float_2_5) = ([], Return (PFloat float_2_5)) /\
  float_convert (PStr "1,234.5") = ([], Return (PFloat float_1234_5)).
Proof.
  repeat split.
  intros t f H. rewrite float_convert_text, H. reflexivity.
Qed.

Lemma float_convert_float_or_text_witness :
  PyFloat.parse (without_commas "12,500") =
    Some (S754_finite false 6871947673600000 (-39)) /\
  float_convert (PStr "12,500") =
    ([], Return (PFloat (S754_finite false 6871947673600000 (-39)))).
Proof.
  split; [vm_compute; reflexivity|].
  apply (proj1 (proj2 float_convert_float_or_text)). vm_compute. reflexivity.
Defined.

(** The white space [float] skips is that of C: a tab before the digits
    and a space after them are passed over, a separator 0x1c is not. *)
Lemma float_convert_white_space :
  (exists f, float_convert (PStr (String "009" "5 ")) =
               ([], Return (PFloat f))) /\
  PyFloat.parse (String "028" "5") = None /\
  float_convert (PStr (String "028" "5")) =
    ([], Raise (ValueError (String "028" "5"))).
Proof.
  split; [eexists; vm_compute; reflexivity|]. split; reflexivity.
Qed.

(** C7, as the spec has it, fails: a text that is not a number makes the
    coercer raise. *)
Lemma float_convert_abc_counterexample :
  float_convert (PStr "abc") = ([], Raise (ValueError "abc")) /\
  ~ (exists out o, float_convert (PStr "abc") = (out, Return o)).
Proof. split; [reflexivity|]. intros (out & o & H). discriminate H. Qed.

(** C7 (amended): for a value that is neither text nor a float the coercer
    does not raise: it prints one line naming the type of the value and
    returns [None]. For a text that, its commas removed, is not a float, it
    raises [ValueError]. *)
Theorem float_convert_other_or_malformed :
  (forall o, is_text o = false -> is_float o = false ->
             float_convert o =
               (["Encountered type " +:+ type_repr o], Return PNone)) /\
  (forall t, PyFloat.parse (without_commas t) = None ->
             float_convert (PStr t) = ([], Raise (ValueError (without_commas t)))).
Proof.
  split.
  - intros [t|f|z|b|] Ht Hf; try discriminate; reflexivity.
  - intros t H. rewrite float_convert_text, H. reflexivity.
Qed.

Lemma float_convert_other_or_malformed_witness :
  float_convert (PBool true) =
    (["Encountered type <class 'bool'>"], Return PNone) /\
  float_convert (PStr "n/a") = ([], Raise (ValueError "n/a")).
Proof.
  split.
  - apply (proj1 float_convert_other_or_malformed); reflexivity.
  - apply (proj2 float_convert_other_or_malformed "n/a"). vm_compute. reflexivity.
Defined.

(** ** The row filter of [from_ONS] *)

Lemma re_dict_A : re_dict !! "A" = Some pattern_A.
Proof. reflexivity. Qed.

Lemma re_dict_Q : re_dict !! "Q" = Some pattern_Q.
Proof. reflexivity. Qed.

Lemma re_dict_M : re_dict !! "M" = Some pattern_M.
Proof. reflexivity. Qed.

Lemma re_dict_None (freq : string) :
  freq <> "A" -> freq <> "Q" -> freq <> "M" -> re_dict !! freq = None.
Proof.
  intros HA HQ HM. unfold re_dict.
  rewrite lookup_insert_ne by congruence.
  rewrite lookup_insert_ne by congruence.
  apply lookup_singleton_ne. congruence.
Qed.

Lemma re_dict_Some (freq : string) pattern :
  re_dict !! freq = Some pattern -> freq = "A" \/ freq = "Q" \/ freq = "M".
Proof.
  intros H.
  destruct (String.eqb_spec freq "A") as [|HA]; [tauto|].
  destruct (String.eqb_spec freq "Q") as [|HQ]; [tauto|].
  destruct (String.eqb_spec freq "M") as [|HM]; [tauto|].
  rewrite re_dict_None in H by assumption. discriminate H.
Qed.

Lemma mask_map {A} (p : A -> bool) (l : list A) :
  mask l (map p l) = List.filter p l.
Proof.
  induction l as [|x l IH]; [reflexivity|].
  cbn. rewrite IH. reflexivity.
Qed.

Lemma filtered_rows dfraw pattern pos :
  rows (filtered dfraw pattern pos) =
  List.filter (keeps pattern pos) (rows dfraw).
Proof.
  unfold filtered, select, str_contains. cbn [rows].
  rewrite map_map. apply (mask_map (keeps pattern pos)).
Qed.

Lemma criterion_read dfraw freq pos pattern :
  position "Unnamed: 0" (columns dfraw) = Some pos ->
  re_dict !! freq = Some pattern ->
  has_str (labels_at dfraw pos) = true ->
  from_ONS_criterion dfraw freq =
    ret (str_contains pattern (map (cell pos) (rows dfraw))).
Proof.
  intros Hpos Hre Hstr. unfold from_ONS_criterion, getitem, str_accessor.
  unfold labels_at in Hstr.
  rewrite Hpos. cbn [lookup_or]. rewrite !bind_ret, Hstr, bind_ret, Hre.
  cbn [lookup_or]. rewrite bind_ret. reflexivity.
Qed.

Lemma criterion_no_str dfraw freq pos :
  position "Unnamed: 0" (columns dfraw) = Some pos ->
  has_str (labels_at dfraw pos) = false ->
  from_ONS_criterion dfraw freq = raise AttributeError.
Proof.
  intros Hpos Hstr. unfold from_ONS_criterion, getitem, str_accessor.
  unfold labels_at in Hstr.
  rewrite Hpos. cbn [lookup_or]. rewrite !bind_ret, Hstr. reflexivity.
Qed.

Lemma criterion_no_column dfraw freq :
  position "Unnamed: 0" (columns dfraw) = None ->
  from_ONS_criterion dfraw freq = raise (KeyError "Unnamed: 0").
Proof.
  intros Hpos. unfold from_ONS_criterion, getitem. rewrite Hpos. reflexivity.
Qed.

Lemma criterion_no_pattern dfraw freq pos :
  position "Unnamed: 0" (columns dfraw) = Some pos ->
  has_str (labels_at dfraw pos) = true ->
  re_dict !! freq = None ->
  from_ONS_criterion dfraw freq = raise (KeyError freq).
Proof.
  intros Hpos Hstr Hre. unfold from_ONS_criterion, getitem, str_accessor.
  unfold labels_at in Hstr.
  rewrite Hpos. cbn [lookup_or]. rewrite !bind_ret, Hstr, bind_ret, Hre.
  reflexivity.
Qed.

(** A row the filter keeps has a label that is text. *)
Lemma kept_has_str dfraw pattern pos r :
  In r (rows dfraw) -> keeps pattern pos r = true ->
  has_str (labels_at dfraw pos) = true.
Proof.
  intros Hin Hk. unfold has_str, labels_at. apply orb_true_iff. left.
  apply existsb_exists. exists (cell pos r). split; [apply in_map; exact Hin|].
  unfold keeps in Hk. destruct (cell pos r); try discriminate Hk. reflexivity.
Qed.

(** [from_ONS] when the criterion raises: the error comes back, after the
    URL and what the retrieval printed. *)
Lemma from_ONS_criterion_raises read_csv dataset series freq print_url out dfraw e :
  read_csv (_retrieve_ONS_csv dataset series) = (out, Return dfraw) ->
  from_ONS_criterion dfraw (Py.upper freq) = raise e ->
  from_ONS read_csv dataset series freq print_url =
    (url_line dataset series print_url ++ out, Raise e).
Proof.
  intros Hread Hc. unfold from_ONS, url_line. rewrite Hread.
  destruct print_url; cbn [print ret]; rewrite !bind_Return; cbn [fst snd];
    rewrite Hc, bind_raise; cbn; rewrite ?app_nil_r; reflexivity.
Qed.

(** [from_ONS] once the file is read, the label column found with its
    text methods and the frequency known. *)
Lemma from_ONS_read read_csv dataset series freq print_url out dfraw pos pattern :
  read_csv (_retrieve_ONS_csv dataset series) = (out, Return dfraw) ->
  position "Unnamed: 0" (columns dfraw) = Some pos ->
  re_dict !! Py.upper freq = Some pattern ->
  has_str (labels_at dfraw pos) = true ->
  from_ONS read_csv dataset series freq print_url =
  bind (url_line dataset series print_url ++ out, Return tt)
    (fun _ =>
       if empty (filtered dfraw pattern pos)
       then (run print unavailable; ret None)
       else (do df <- _timeseries_index (filtered dfraw pattern pos) (Py.upper freq);
             do df <- astype_float df;
             ret (Some df))).
Proof.
  intros Hread Hpos Hre Hstr. unfold from_ONS, url_line.
  assert (Hk : bind (out, Return dfraw)
                 (fun dfraw =>
                    do criterion <- from_ONS_criterion dfraw (Py.upper freq);
                    if empty (select dfraw criterion)
                    then (run print unavailable; ret None)
                    else (do df <- _timeseries_index
                                     (select dfraw criterion) (Py.upper freq);
                          do df <- astype_float df;
                          ret (Some df))) =
               bind (out, Return tt)
                 (fun _ =>
                    if empty (filtered dfraw pattern pos)
                    then (run print unavailable; ret None)
                    else (do df <- _timeseries_index (filtered dfraw pattern pos)
                                     (Py.upper freq);
                          do df <- astype_float df;
                          ret (Some df)))).
  { rewrite !bind_Return. rewrite (criterion_read _ _ _ _ Hpos Hre Hstr).
    rewrite !bind_ret. reflexivity. }
  rewrite Hread. fold unavailable. rewrite Hk.
  destruct print_url; cbn [print ret]; rewrite !bind_Return; cbn [fst snd app];
    rewrite ?bind_Return; cbn [fst snd]; rewrite <- ?app_assoc; reflexivity.
Qed.

(** C10, as the spec has it, fails: with a frequency that is none of the
    three, a file whose labels are whole numbers makes [from_ONS] raise
    [AttributeError], which is no lookup error: the text methods of the
    label column are asked for before the pattern of the frequency. *)
Lemma from_ONS_unknown_frequency_counterexample :
  Py.upper "w" <> "A" /\ Py.upper "w" <> "Q" /\ Py.upper "w" <> "M" /\
  from_ONS (fun _ => ret sample_years) "qna" ["YBHA"] "w" false =
    ([], Raise AttributeError) /\
  (forall key, from_ONS (fun _ => ret sample_years) "qna" ["YBHA"] "w" false <>
                 ([], Raise (KeyError key))).
Proof.
  split; [discriminate|]. split; [discriminate|]. split; [discriminate|].
  split; [reflexivity|]. intros key. discriminate.
Qed.

(** C10 (amended): when the frequency, in capitals, is not [A], [Q] or
    [M], [from_ONS] raises whatever the retrieval does: it returns neither
    a frame nor [None]. Once the file is read it raises having printed no
    more than the URL, before any row is looked at: [KeyError] for the
    label column when the file has none; [KeyError] for the frequency when
    the label column holds text or has no row; [AttributeError] when the
    label column holds no text. *)
Theorem from_ONS_unknown_frequency read_csv dataset series freq print_url :
  Py.upper freq <> "A" -> Py.upper freq <> "Q" -> Py.upper freq <> "M" ->
  (exists out e,
     from_ONS read_csv dataset series freq print_url = (out, Raise e)) /\
  (forall out dfraw,
     read_csv (_retrieve_ONS_csv dataset series) = (out, Return dfraw) ->
     from_ONS read_csv dataset series freq print_url =
       (url_line dataset series print_url ++ out,
        Raise match position "Unnamed: 0" (columns dfraw) with
              | None => KeyError "Unnamed: 0"
              | Some pos => if has_str (labels_at dfraw pos)
                            then KeyError (Py.upper freq)
                            else AttributeError
              end)).
Proof.
  intros HA HQ HM.
  assert (Hread : forall out dfraw,
     read_csv (_retrieve_ONS_csv dataset series) = (out, Return dfraw) ->
     from_ONS read_csv dataset series freq print_url =
       (url_line dataset series print_url ++ out,
        Raise match position "Unnamed: 0" (columns dfraw) with
              | None => KeyError "Unnamed: 0"
              | Some pos => if has_str (labels_at dfraw pos)
                            then KeyError (Py.upper freq)
                            else AttributeError
              end)).
  { intros out dfraw Hr.
    apply (from_ONS_criterion_raises _ _ _ _ _ _ dfraw _ Hr).
    destruct (position "Unnamed: 0" (columns dfraw)) as [pos|] eqn:Hpos.
    - destruct (has_str (labels_at dfraw pos)) eqn:Hstr.
      + apply (criterion_no_pattern _ _ pos Hpos Hstr).
        apply re_dict_None; assumption.
      + apply (criterion_no_str _ _ pos Hpos Hstr).
    - apply criterion_no_column. exact Hpos. }
  split; [|exact Hread].
  destruct (read_csv (_retrieve_ONS_csv dataset series)) as [out [dfraw|e]] eqn:Hr.
  - rewrite (Hread out dfraw eq_refl). eauto.
  - unfold from_ONS. rewrite Hr.
    destruct print_url; cbn; eauto.
Qed.

Lemma from_ONS_unknown_frequency_witness :
  (exists out e,
     from_ONS (fun _ => ret sample) "qna" ["YBHA"] "w" true = (out, Raise e)) /\
  from_ONS (fun _ => ret sample) "qna" ["YBHA"] "w" true =
    (url_line "qna" ["YBHA"] true ++ [], Raise (KeyError "W")) /\
  from_ONS (fun _ => ret sample_years) "qna" ["YBHA"] "w" true =
    (url_line "qna" ["YBHA"] true ++ [], Raise AttributeError).
Proof.
  split; [|split].
  - apply (from_ONS_unknown_frequency (fun _ => ret sample) "qna" ["YBHA"] "w" true);
      vm_compute; discriminate.
  - apply (proj2 (from_ONS_unknown_frequency (fun _ => ret sample) "qna" ["YBHA"]
                    "w" true ltac:(vm_compute; discriminate)
                    ltac:(vm_compute; discriminate)
                    ltac:(vm_compute; discriminate)) [] sample).
    reflexivity.
  - apply (proj2 (from_ONS_unknown_frequency (fun _ => ret sample_years) "qna"
                    ["YBHA"] "w" true ltac:(vm_compute; discriminate)
                    ltac:(vm_compute; discriminate)
                    ltac:(vm_compute; discriminate)) [] sample_years).
    reflexivity.
Defined.

(** C5, as the spec has it, fails twice. The one row of [sample_Q7]
    matches no pattern of the specification, a quarter being 1 to 4, yet
    [from_ONS] returns a frame for it, dated the end of March. And no row
    of [sample_years] matches the pattern of the quarters, its labels
    being whole numbers, yet [from_ONS] raises [AttributeError]. *)
Lemma from_ONS_no_data_counterexample :
  List.filter (spec_keeps "Q" 0) (rows sample_Q7) = [] /\
  (exists f,
     from_ONS (fun _ => ret sample_Q7) "qna" ["YBHA"] "Q" false =
       ([], Return (Some (mkDataFrame ["YBHA"]
                            [(ITime (mkTimestamp 2002 3 31), [PFloat f])])))) /\
  List.filter (spec_keeps "Q" 0) (rows sample_years) = [] /\
  List.filter (keeps pattern_Q 0) (rows sample_years) = [] /\
  from_ONS (fun _ => ret sample_years) "qna" ["YBHA"] "Q" false =
    ([], Raise AttributeError).
Proof.
  split; [reflexivity|]. split; [eexists; vm_compute; reflexivity|].
  repeat split.
Qed.

(** C5 (amended): when the file is read and no row has a label in which
    the pattern of the frequency, as the code has it, is found, then, the
    label column holding text or having no row, [from_ONS] prints that
    the frequency is unavailable and returns [None]: it does not raise,
    and [None] is no frame, not even one without rows. When the label
    column holds no text, [from_ONS] raises [AttributeError]. *)
Theorem from_ONS_no_data read_csv dataset series freq print_url
    out dfraw pos pattern :
  read_csv (_retrieve_ONS_csv dataset series) = (out, Return dfraw) ->
  position "Unnamed: 0" (columns dfraw) = Some pos ->
  re_dict !! Py.upper freq = Some pattern ->
  (forall r s, In r (rows dfraw) -> cell pos r = PStr s ->
               Re.search pattern s = false) ->
  (has_str (labels_at dfraw pos) = true ->
   from_ONS read_csv dataset series freq print_url =
     (url_line dataset series print_url ++ out ++ [unavailable], Return None) /\
   (forall df, from_ONS read_csv dataset series freq print_url <>
                 (url_line dataset series print_url ++ out ++ [unavailable],
                  Return (Some df)))) /\
  (has_str (labels_at dfraw pos) = false ->
   from_ONS read_csv dataset series freq print_url =
     (url_line dataset series print_url ++ out, Raise AttributeError)).
Proof.
  intros Hread Hpos Hre Hnone. split.
  - intros Hstr.
    assert (Hrows : rows (filtered dfraw pattern pos) = []).
    { rewrite filtered_rows.
      induction (rows dfraw) as [|r l IH]; [reflexivity|].
      cbn [List.filter].
      assert (Hr : keeps pattern pos r = false).
      { unfold keeps. destruct (cell pos r) eqn:Hc; try reflexivity.
        eapply Hnone; [left; reflexivity|exact Hc]. }
      rewrite Hr. apply IH. intros r' s Hin. apply Hnone. right. exact Hin. }
    assert (Hempty : empty (filtered dfraw pattern pos) = true).
    { unfold empty. rewrite Hrows. destruct (columns _); reflexivity. }
    assert (Heq : from_ONS read_csv dataset series freq print_url =
      (url_line dataset series print_url ++ out ++ [unavailable], Return None)).
    { rewrite (from_ONS_read _ _ _ _ _ _ _ _ _ Hread Hpos Hre Hstr), Hempty.
      rewrite bind_Return. cbn. rewrite <- app_assoc. reflexivity. }
    split; [exact Heq|]. intros df. rewrite Heq. discriminate.
  - intros Hstr.
    apply (from_ONS_criterion_raises _ _ _ _ _ _ dfraw _ Hread).
    apply (criterion_no_str _ _ pos Hpos Hstr).
Qed.

Lemma from_ONS_no_data_witness :
  (from_ONS (fun _ => ret sample_quarterly) "qna" ["YBHA"] "a" false =
     ([unavailable], Return None) /\
   (forall df, from_ONS (fun _ => ret sample_quarterly) "qna" ["YBHA"] "a" false <>
                 ([unavailable], Return (Some df)))) /\
  from_ONS (fun _ => ret sample_years) "qna" ["YBHA"] "q" false =
    ([], Raise AttributeError).
Proof.
  split.
  - apply (from_ONS_no_data (fun _ => ret sample_quarterly) "qna" ["YBHA"] "a"
             false [] sample_quarterly 0%nat pattern_A).
    + reflexivity.
    + reflexivity.
    + reflexivity.
    + intros r s [<-|[<-|[]]] Hc; vm_compute in Hc; injection Hc as <-;
        vm_compute; reflexivity.
    + reflexivity.
  - apply (from_ONS_no_data (fun _ => ret sample_years) "qna" ["YBHA"] "q"
             false [] sample_years 0%nat pattern_Q).
    + reflexivity.
    + reflexivity.
    + reflexivity.
    + intros r s [<-|[<-|[]]] Hc; vm_compute in Hc; discriminate Hc.
    + reflexivity.
Defined.

(** *** What the three patterns find *)

Lemma append_Empty t : "" +:+ t = t.
Proof. reflexivity. Qed.

Lemma append_String c s t : String c s +:+ t = String c (s +:+ t).
Proof. reflexivity. Qed.

Lemma at_eol_line_end s : Re.at_eol s = true <-> line_end s.
Proof.
  unfold line_end. split.
  - destruct s as [|c [|c' s]]; cbn; try discriminate; [tauto|].
    intros H. apply Ascii.eqb_eq in H. subst c. tauto.
  - intros [->| ->]; reflexivity.
Qed.

Lemma search_spec r s :
  Re.search r s = true <->
  exists pre suf, s = pre +:+ suf /\ Re.match_here r suf = true.
Proof.
  induction s as [|c s IH].
  - cbn [Re.search]. rewrite orb_false_r. split.
    + intros H. exists "", "". split; [reflexivity|exact H].
    + intros (pre & suf & Hs & H). destruct pre; [|discriminate Hs].
      change (EmptyString = suf) in Hs. subst suf. exact H.
  - cbn [Re.search]. rewrite orb_true_iff, IH. split.
    + intros [H|(pre & suf & -> & H)].
      * exists "", (String c s). split; [reflexivity|exact H].
      * exists (String c pre), suf. split; [reflexivity|exact H].
    + intros (pre & suf & Hs & H). destruct pre as [|c' pre].
      * change (String c s = suf) in Hs. subst suf. left. exact H.
      * change (String c s = String c' (pre +:+ suf)) in Hs.
        injection Hs as -> ->. right. eauto.
Qed.

(** One step of [match_here] on a pattern that starts with a class. *)
Ltac eat H :=
  cbn [Re.match_here] in H;
  match type of H with
  | match ?s with EmptyString => _ | String _ _ => _ end = true =>
      let c := fresh "c" in
      destruct s as [|c s]; [discriminate H|];
      apply andb_prop in H; destruct H as [? H]
  end.

Ltac lit H := cbn [Re.accepts] in H; apply Ascii.eqb_eq in H; subst.

Lemma match_here_A suf :
  Re.match_here pattern_A suf = true <->
  exists core nl, suf = core +:+ nl /\ annual_text core /\ line_end nl.
Proof.
  unfold pattern_A. cbn [Re.times repeat app]. split.
  - intros H. do 4 eat H. cbn [Re.match_here] in H.
    apply andb_prop in H. destruct H as [He _]. apply at_eol_line_end in He.
    exists (text [c; c0; c1; c2]), suf. split; [reflexivity|].
    split; [|exact He]. exists c, c0, c1, c2. repeat split; assumption.
  - intros (core & nl & -> & (a & b & c & d & -> & Ha & Hb & Hc & Hd) & He).
    apply at_eol_line_end in He. unfold digit in *.
    cbn [text string_of_list_ascii]. rewrite !append_String, append_Empty.
    cbn [Re.match_here Re.accepts].
    rewrite Ha, Hb, Hc, Hd, He. reflexivity.
Qed.

Lemma match_here_Q suf :
  Re.match_here pattern_Q suf = true <->
  exists core nl, suf = core +:+ nl /\ quarterly_text core /\ line_end nl.
Proof.
  unfold pattern_Q. cbn [Re.times repeat app]. split.
  - intros H. do 7 eat H. cbn [Re.match_here] in H.
    apply andb_prop in H. destruct H as [He _]. apply at_eol_line_end in He.
    lit H4. lit H5.
    exists (text [c; c0; c1; c2; " "; "Q"; c5]%char), suf.
    split; [reflexivity|]. split; [|exact He].
    exists c, c0, c1, c2, c5. repeat split; assumption.
  - intros (core & nl & -> &
            (a & b & c & d & q & -> & Ha & Hb & Hc & Hd & Hq) & He).
    apply at_eol_line_end in He. unfold digit in *.
    cbn [text string_of_list_ascii]. rewrite !append_String, append_Empty.
    cbn [Re.match_here Re.accepts].
    rewrite Ha, Hb, Hc, Hd, Hq, He. reflexivity.
Qed.

Lemma match_here_M suf :
  Re.match_here pattern_M suf = true <->
  exists core nl, suf = core +:+ nl /\ monthly_text core /\ line_end nl.
Proof.
  unfold pattern_M. cbn [Re.times repeat app]. split.
  - intros H. do 8 eat H. cbn [Re.match_here] in H.
    apply andb_prop in H. destruct H as [He _]. apply at_eol_line_end in He.
    lit H4.
    exists (text [c; c0; c1; c2; " "%char; c4; c5; c6]), suf.
    split; [reflexivity|]. split; [|exact He].
    exists c, c0, c1, c2, c4, c5, c6. repeat split; assumption.
  - intros (core & nl & -> &
            (a & b & c & d & x & y & z & -> & Ha & Hb & Hc & Hd & Hx & Hy & Hz)
            & He).
    apply at_eol_line_end in He. unfold digit, capital in *.
    cbn [text string_of_list_ascii]. rewrite !append_String, append_Empty.
    cbn [Re.match_here Re.accepts].
    rewrite Ha, Hb, Hc, Hd, Hx, Hy, Hz, He. reflexivity.
Qed.

Lemma search_label_found freq pattern s :
  re_dict !! freq = Some pattern ->
  (Re.search pattern s = true <-> label_found freq s).
Proof.
  intros Hre. rewrite search_spec. unfold label_found, shape.
  destruct (re_dict_Some _ _ Hre) as [->|[->| ->]].
  - rewrite re_dict_A in Hre. injection Hre as <-. split.
    + intros (pre & suf & -> & H). apply match_here_A in H.
      destruct H as (core & nl & -> & Hc & He). exists pre, core, nl. tauto.
    + intros (pre & core & nl & -> & [[_ Hc]|[[? _]|[? _]]] & He);
        try discriminate.
      exists pre, (core +:+ nl). split; [reflexivity|].
      apply match_here_A. eauto.
  - rewrite re_dict_Q in Hre. injection Hre as <-. split.
    + intros (pre & suf & -> & H). apply match_here_Q in H.
      destruct H as (core & nl & -> & Hc & He). exists pre, core, nl. tauto.
    + intros (pre & core & nl & -> & [[? _]|[[_ Hc]|[? _]]] & He);
        try discriminate.
      exists pre, (core +:+ nl). split; [reflexivity|].
      apply match_here_Q. eauto.
  - rewrite re_dict_M in Hre. injection Hre as <-. split.
    + intros (pre & suf & -> & H). apply match_here_M in H.
      destruct H as (core & nl & -> & Hc & He). exists pre, core, nl. tauto.
    + intros (pre & core & nl & -> & [[? _]|[[? _]|[_ Hc]]] & He);
        try discriminate.
      exists pre, (core +:+ nl). split; [reflexivity|].
      apply match_here_M. eauto.
Qed.

Lemma keeps_label_found freq pattern pos r :
  re_dict !! freq = Some pattern ->
  (keeps pattern pos r = true <->
   exists s, cell pos r = PStr s /\ label_found freq s).
Proof.
  intros Hre. unfold keeps. split.
  - destruct (cell pos r) as [s| | | |]; try discriminate.
    intros H. exists s. split; [reflexivity|].
    apply (search_label_found _ _ _ Hre). exact H.
  - intros (s & -> & H). apply (search_label_found _ _ _ Hre). exact H.
Qed.

Lemma filter_sublist {A} (p : A -> bool) (l : list A) :
  sublist (List.filter p l) l.
Proof.
  induction l as [|x l IH]; cbn [List.filter].
  - constructor.
  - destruct (p x); constructor; exact IH.
Qed.

(** C4, as the spec has it, fails: the code keeps all three rows of
    [sample_loose] for the quarterly frequency, the patterns of the
    specification keep the first only. *)
Lemma row_filter_counterexample :
  re_dict !! "Q" = Some pattern_Q /\
  (exists criterion,
     from_ONS_criterion sample_loose "Q" = ret criterion /\
     rows (select sample_loose criterion) = rows sample_loose) /\
  rows (filtered sample_loose pattern_Q 0) = rows sample_loose /\
  List.filter (spec_keeps "Q" 0) (rows sample_loose) =
    [(IObj (PInt 0), [PStr "2002 Q2"; PStr "25.5"])] /\
  rows (filtered sample_loose pattern_Q 0) <>
    List.filter (spec_keeps "Q" 0) (rows sample_loose).
Proof.
  split; [reflexivity|]. split; [eexists; split; reflexivity|].
  repeat split. discriminate.
Qed.

(** C4 (amended): for every frequency and every table whose label column
    holds text, or has no row, the filter keeps exactly the rows whose
    label is a text in which the pattern of the frequency is found, in
    their order and with the same columns. The pattern is found in a text
    that ends, possibly before one last line feed, with four digits
    (annual); four digits, a space, [Q] and any digit (quarterly); four
    digits, a space and any three capital letters (monthly). Whatever
    precedes is not looked at. On a table whose label column holds no
    text the filter raises [AttributeError]. *)
Theorem row_filter_keeps_found freq pattern dfraw pos :
  re_dict !! freq = Some pattern ->
  position "Unnamed: 0" (columns dfraw) = Some pos ->
  (has_str (labels_at dfraw pos) = true ->
   exists criterion,
     from_ONS_criterion dfraw freq = ret criterion /\
     rows (select dfraw criterion) =
       List.filter (keeps pattern pos) (rows dfraw) /\
     columns (select dfraw criterion) = columns dfraw /\
     sublist (rows (select dfraw criterion)) (rows dfraw)) /\
  (has_str (labels_at dfraw pos) = false ->
   from_ONS_criterion dfraw freq = raise AttributeError) /\
  (forall r, keeps pattern pos r = true <->
             exists s, cell pos r = PStr s /\ label_found freq s).
Proof.
  intros Hre Hpos. split; [|split].
  - intros Hstr. eexists. split; [apply (criterion_read _ _ _ _ Hpos Hre Hstr)|].
    change (select dfraw (str_contains pattern (map (cell pos) (rows dfraw))))
      with (filtered dfraw pattern pos).
    split; [apply filtered_rows|]. split; [reflexivity|].
    rewrite filtered_rows. apply filter_sublist.
  - intros Hstr. apply (criterion_no_str _ _ pos Hpos Hstr).
  - intros r. apply keeps_label_found. exact Hre.
Qed.

Lemma row_filter_keeps_found_witness :
  (exists criterion,
     from_ONS_criterion sample "Q" = ret criterion /\
     rows (select sample criterion) =
       List.filter (keeps pattern_Q 0) (rows sample) /\
     columns (select sample criterion) = columns sample /\
     sublist (rows (select sample criterion)) (rows sample)) /\
  from_ONS_criterion sample_years "Q" = raise AttributeError /\
  (forall r, keeps pattern_Q 0 r = true <->
             exists s, cell 0 r = PStr s /\ label_found "Q" s).
Proof.
  split; [|split].
  - apply (row_filter_keeps_found "Q" pattern_Q sample 0%nat);
      reflexivity.
  - apply (row_filter_keeps_found "Q" pattern_Q sample_years 0%nat);
      reflexivity.
  - apply (row_filter_keeps_found "Q" pattern_Q sample 0%nat);
      reflexivity.
Defined.

(** ** The date index *)

Lemma four_digits_text a b c d rest :
  digit a -> digit b -> digit c -> digit d ->
  Strptime.four_digits (String a (String b (String c (String d rest)))) =
  Some (year_value a b c d, rest).
Proof.
  unfold digit. intros Ha Hb Hc Hd. unfold Strptime.four_digits.
  rewrite Ha, Hb, Hc, Hd. cbn [andb Py.digits_val]. unfold year_value.
  do 2 f_equal. lia.
Qed.

Lemma in_bounds_year t :
  in_bounds t = true -> 1677 <= year t <= 2262.
Proof.
  unfold in_bounds, Timestamp_leb, Timestamp_min, Timestamp_max.
  cbn [year month day]. intros H.
  apply andb_prop in H. destruct H as [H1 H2].
  apply orb_prop in H1. apply orb_prop in H2. split.
  - destruct H1 as [H1|H1]; [apply Z.ltb_lt in H1; lia|].
    apply andb_prop in H1. destruct H1 as [H1 _]. apply Z.eqb_eq in H1. lia.
  - destruct H2 as [H2|H2]; [apply Z.ltb_lt in H2; lia|].
    apply andb_prop in H2. destruct H2 as [H2 _]. apply Z.eqb_eq in H2. lia.
Qed.

Lemma in_bounds_january y d :
  1678 <= y <= 2262 -> in_bounds (mkTimestamp y 1 d) = true.
Proof.
  intros Hy. unfold in_bounds, Timestamp_leb, Timestamp_min, Timestamp_max.
  cbn [year month day].
  replace (1677 <? y) with true by (symmetry; apply Z.ltb_lt; lia).
  cbn [orb andb].
  destruct (Z.ltb_spec y 2262) as [|Hge]; [reflexivity|].
  replace (y =? 2262) with true by (symmetry; apply Z.eqb_eq; lia).
  reflexivity.
Qed.

Lemma make_timestamp_ok what y m d :
  valid_date (mkTimestamp y m d) = true ->
  in_bounds (mkTimestamp y m d) = true ->
  make_timestamp what y m d = ret (mkTimestamp y m d).
Proof. unfold make_timestamp. intros -> ->. reflexivity. Qed.

(** An annual label in the range of pandas reads as the first of January
    of its year. *)
Lemma to_datetime1_annual s y :
  annual_label s y -> 1678 <= y <= 2262 ->
  to_datetime1 Fmt_Y (IObj (PStr s)) = ret (mkTimestamp y 1 1).
Proof.
  intros (a & b & c & d & -> & Ha & Hb & Hc & Hd & Hy) Hr.
  unfold to_datetime1, strptime, Strptime.parse_Y.
  cbn [text string_of_list_ascii].
  rewrite (four_digits_text a b c d "" Ha Hb Hc Hd), <- Hy.
  apply make_timestamp_ok; [|apply in_bounds_january; exact Hr].
  unfold valid_date. cbn [year month day].
  replace (1 <=? y) with true by (symmetry; apply Z.leb_le; lia).
  reflexivity.
Qed.

(** A monthly label in the range of pandas reads as the first day of its
    month. *)
Lemma to_datetime1_monthly s y m :
  monthly_label s y m -> in_bounds (mkTimestamp y m 1) = true ->
  to_datetime1 Fmt_Y_b (IObj (PStr s)) = ret (mkTimestamp y m 1).
Proof.
  intros (a & b & c & d & name & -> & Ha & Hb & Hc & Hd & Hy & Hm) Hr.
  unfold to_datetime1, strptime, Strptime.parse_Y_b.
  cbn [text string_of_list_ascii]. rewrite !append_String, append_Empty.
  rewrite (four_digits_text a b c d _ Ha Hb Hc Hd), <- Hy.
  change (Py.is_space " ") with true. cbv iota.
  pose proof (in_bounds_year _ Hr) as Hyr. cbn [year] in Hyr.
  assert (Hv : forall m', (m' =? 2) = false -> 1 <= m' <= 12 ->
                 valid_date (mkTimestamp y m' 1) = true).
  { intros m' H2 Hm'. unfold valid_date, days_in_month. cbn [year month day].
    rewrite H2.
    replace (1 <=? y) with true by (symmetry; apply Z.leb_le; lia).
    replace (1 <=? m') with true by (symmetry; apply Z.leb_le; lia).
    replace (m' <=? 12) with true by (symmetry; apply Z.leb_le; lia).
    destruct ((m' =? 4) || (m' =? 6) || (m' =? 9) || (m' =? 11)); reflexivity. }
  assert (Hfeb : valid_date (mkTimestamp y 2 1) = true).
  { unfold valid_date, days_in_month. cbn [year month day].
    replace (1 <=? y) with true by (symmetry; apply Z.leb_le; lia).
    destruct (is_leap y); reflexivity. }
  cbn [In month_names] in Hm.
  repeat (destruct Hm as [Hm|Hm];
          [injection Hm as <- <-;
           (apply make_timestamp_ok; [first [exact Hfeb | apply Hv; [reflexivity|lia]]|exact Hr])
          |]).
  destruct Hm.
Qed.

Lemma mapM_Forall2 {A B} (f : A -> M B) (l : list A) (l' : list B) :
  Forall2 (fun x y => f x = ret y) l l' -> mapM f l = ret l'.
Proof.
  induction 1 as [|x y l l' Hx _ IH]; [reflexivity|].
  cbn [mapM]. rewrite Hx, bind_ret, IH, bind_ret. reflexivity.
Qed.

Lemma index_zip_with cols (new : list idx) (rs : list (idx * list pyobj)) :
  length new = length rs ->
  index (mkDataFrame cols (zip_with (fun i r => (i, snd r)) new rs)) = new.
Proof.
  unfold index. cbn [rows]. revert rs.
  induction new as [|i new IH]; intros [|r rs] H; try discriminate H.
  - reflexivity.
  - cbn. f_equal. apply IH. injection H as H. exact H.
Qed.

(** [_timeseries_index] for the frequencies whose labels are read one by
    one: when every label reads as a date, these dates are the index. *)
Lemma timeseries_index_each df pos freq fmt dates :
  position "Unnamed: 0" (columns df) = Some pos ->
  (freq = "M" /\ fmt = Fmt_Y_b) \/ (freq = "A" /\ fmt = Fmt_Y) ->
  Forall2 (fun r t => to_datetime1 fmt (IObj (cell pos r)) = ret t)
          (rows df) dates ->
  exists df', _timeseries_index df freq = ([], Return df') /\
              index df' = map ITime dates.
Proof.
  intros Hpos Hf Hall.
  assert (Hix : to_datetime fmt
                  (map (fun r => IObj (cell pos r)) (rows df)) = ret dates).
  { unfold to_datetime. apply mapM_Forall2.
    induction Hall; constructor; assumption. }
  assert (Hlen : length (map ITime dates) = length (rows df)).
  { rewrite length_map. symmetry. eapply Forall2_length. exact Hall. }
  eexists. split.
  - unfold _timeseries_index, set_index. rewrite Hpos. cbn [lookup_or].
    rewrite !bind_ret. unfold index. cbn [rows]. rewrite map_map. cbn [fst].
    destruct Hf as [[-> ->]|[-> ->]]; cbn [String.eqb Ascii.eqb Bool.eqb];
      rewrite Hix, bind_ret; unfold set_axis; cbn [rows];
      rewrite length_map, length_map;
      rewrite length_map in Hlen; rewrite Hlen, Nat.eqb_refl; reflexivity.
  - apply index_zip_with. rewrite Hlen, length_map. reflexivity.
Qed.

(** C2, as the spec has it, fails: the label ["2013"] is dated the first of
    January 2013, not the 31st of December. *)
Lemma annual_year_end_counterexample :
  annual_label "2013" 2013 /\
  to_datetime Fmt_Y [IObj (PStr "2013")] = ([], Return [mkTimestamp 2013 1 1]) /\
  (exists df', _timeseries_index sample_annual "A" = ([], Return df') /\
     index df' = [ITime (mkTimestamp 2001 1 1); ITime (mkTimestamp 2013 1 1)] /\
     index df' <>
       [ITime (mkTimestamp 2001 12 31); ITime (mkTimestamp 2013 12 31)]).
Proof.
  split; [|split].
  - exists "2"%char, "0"%char, "1"%char, "3"%char. repeat split.
  - reflexivity.
  - eexists. split; [reflexivity|]. split; [reflexivity|]. discriminate.
Qed.

(** C2 (amended): with frequency [A], when every row label is four digits
    that write a year from 1678 to 2262, the range of pandas, the rebuilt
    index gives each row, on its own, the first of January of its year. *)
Theorem annual_index_first_of_january df pos years :
  position "Unnamed: 0" (columns df) = Some pos ->
  Forall2 (fun r y => exists s, cell pos r = PStr s /\ annual_label s y /\
                                1678 <= y <= 2262) (rows df) years ->
  exists df', _timeseries_index df "A" = ([], Return df') /\
              index df' = map (fun y => ITime (mkTimestamp y 1 1)) years.
Proof.
  intros Hpos Hall.
  destruct (timeseries_index_each df pos "A" Fmt_Y
              (map (fun y => mkTimestamp y 1 1) years) Hpos) as (df' & H1 & H2).
  - right. split; reflexivity.
  - induction Hall as [|r y rs ys (s & Hc & Hs & Hy) _ IH]; constructor.
    + rewrite Hc. apply to_datetime1_annual; assumption.
    + exact IH.
  - exists df'. split; [exact H1|]. rewrite H2, map_map. reflexivity.
Qed.

Lemma annual_index_first_of_january_witness :
  exists df', _timeseries_index sample_annual "A" = ([], Return df') /\
              index df' = map (fun y => ITime (mkTimestamp y 1 1)) [2001; 2013].
Proof.
  apply (annual_index_first_of_january sample_annual 0%nat [2001; 2013]).
  - reflexivity.
  - repeat constructor.
    + exists "2001". split; [reflexivity|]. split; [|lia].
      exists "2"%char, "0"%char, "0"%char, "1"%char. repeat split.
    + exists "2013". split; [reflexivity|]. split; [|lia].
      exists "2"%char, "0"%char, "1"%char, "3"%char. repeat split.
Defined.

(** C3, as the spec has it, fails: the label ["2002 JAN"] is dated the
    first of January 2002, not the 31st. *)
Lemma monthly_month_end_counterexample :
  monthly_label "2002 JAN" 2002 1 /\
  to_datetime Fmt_Y_b [IObj (PStr "2002 JAN")] =
    ([], Return [mkTimestamp 2002 1 1]) /\
  (exists df', _timeseries_index sample_monthly "M" = ([], Return df') /\
     index df' = [ITime (mkTimestamp 2002 1 1); ITime (mkTimestamp 2002 4 1)] /\
     index df' <>
       [ITime (mkTimestamp 2002 1 31); ITime (mkTimestamp 2002 4 30)]).
Proof.
  split; [|split].
  - exists "2"%char, "0"%char, "0"%char, "2"%char, "JAN".
    repeat split. left. reflexivity.
  - reflexivity.
  - eexists. split; [reflexivity|]. split; [reflexivity|]. discriminate.
Qed.

(** C3 (amended): with frequency [M], when every row label is four digits,
    a space and the abbreviation of a month, and the first day of that
    month is in the range of pandas, the rebuilt index gives each row, on
    its own, the first day of the month and year of its label. *)
Theorem monthly_index_first_of_month df pos months :
  position "Unnamed: 0" (columns df) = Some pos ->
  Forall2 (fun r ym => exists s, cell pos r = PStr s /\
                         monthly_label s (fst ym) (snd ym) /\
                         in_bounds (mkTimestamp (fst ym) (snd ym) 1) = true)
          (rows df) months ->
  exists df', _timeseries_index df "M" = ([], Return df') /\
              index df' =
                map (fun ym => ITime (mkTimestamp (fst ym) (snd ym) 1)) months.
Proof.
  intros Hpos Hall.
  destruct (timeseries_index_each df pos "M" Fmt_Y_b
              (map (fun ym => mkTimestamp (fst ym) (snd ym) 1) months) Hpos)
    as (df' & H1 & H2).
  - left. split; reflexivity.
  - induction Hall as [|r ym rs yms (s & Hc & Hs & Hb) _ IH]; constructor.
    + rewrite Hc. apply to_datetime1_monthly; assumption.
    + exact IH.
  - exists df'. split; [exact H1|]. rewrite H2, map_map. reflexivity.
Qed.

Lemma monthly_index_first_of_month_witness :
  exists df', _timeseries_index sample_monthly "M" = ([], Return df') /\
              index df' =
                map (fun ym => ITime (mkTimestamp (fst ym) (snd ym) 1))
                    [(2002, 1); (2002, 4)].
Proof.
  apply (monthly_index_first_of_month sample_monthly 0%nat [(2002, 1); (2002, 4)]).
  - reflexivity.
  - repeat constructor.
    + exists "2002 JAN". split; [reflexivity|]. split; [|reflexivity].
      exists "2"%char, "0"%char, "0"%char, "2"%char, "JAN".
      repeat split. left. reflexivity.
    + exists "2002 APR". split; [reflexivity|]. split; [|reflexivity].
      exists "2"%char, "0"%char, "0"%char, "2"%char, "APR".
      repeat split. cbn. tauto.
Defined.

(** *** The quarterly index *)

Lemma QuarterEnd_from_length t n : length (QuarterEnd.from t n) = n.
Proof.
  revert t. induction n as [|n IH]; intros t; [reflexivity|].
  cbn. rewrite IH. reflexivity.
Qed.

Lemma date_range_length start periods out l :
  date_range start periods = (out, Return l) -> length l = periods.
Proof.
  unfold date_range. destruct (Timestamp_of_string start) as [o [t0|e]];
    [|discriminate].
  rewrite bind_Return.
  destruct (forallb in_bounds _); [|discriminate].
  intros H. injection H as _ <-. apply QuarterEnd_from_length.
Qed.

(** Whenever the quarterly index is built it has one date per label. *)
Lemma create_quarterly_index_length dfindex out l :
  _create_quarterly_index dfindex = (out, Return l) ->
  length l = length dfindex.
Proof.
  unfold _create_quarterly_index.
  destruct (head dfindex) as [first|]; [|discriminate].
  cbn [lookup_or]. rewrite bind_ret.
  destruct first as [[s| | | |]|]; try discriminate.
  rewrite bind_ret.
  destruct (Py.split s !! 1%nat) as [quarter|]; [|discriminate].
  cbn [lookup_or]. rewrite bind_ret.
  destruct (Py.last_char quarter) as [c|]; [|discriminate].
  cbn [lookup_or]. rewrite bind_ret.
  unfold int_of_char. destruct (Py.is_digit c); [|discriminate].
  rewrite bind_ret.
  destruct (Py.split s !! 0%nat) as [starting_year|]; [|discriminate].
  cbn [lookup_or]. rewrite bind_ret.
  apply date_range_length.
Qed.

(** C1: on the four labels that start with ["2002 Q2"] the code builds
    four quarter ends, but from the 31st of March 2002: the start it hands
    to [date_range], ["1/6/2002"], is read month first, as the 6th of
    January. The specification has them start on the 30th of June. *)
Theorem create_quarterly_index_2002_Q2 :
  _create_quarterly_index quarters_2002_Q2 =
    ([], Return [mkTimestamp 2002 3 31; mkTimestamp 2002 6 30;
                 mkTimestamp 2002 9 30; mkTimestamp 2002 12 31]) /\
  _create_quarterly_index quarters_2002_Q2 <>
    ([], Return [mkTimestamp 2002 6 30; mkTimestamp 2002 9 30;
                 mkTimestamp 2002 12 31; mkTimestamp 2003 3 31]) /\
  Timestamp_of_string "1/6/2002" = ([], Return (mkTimestamp 2002 1 6)).
Proof. split; [reflexivity|]. split; [discriminate|reflexivity]. Qed.

Lemma digit_cases c :
  digit c -> In c ["0"; "1"; "2"; "3"; "4"; "5"; "6"; "7"; "8"; "9"]%char.
Proof.
  unfold digit. destruct c as [[] [] [] [] [] [] [] []]; intros H;
    vm_compute in H; try discriminate H; cbn; tauto.
Qed.

Lemma digit_not_space c : digit c -> Py.is_space c = false.
Proof.
  intros H. apply digit_cases in H. cbn [In] in H.
  repeat (destruct H as [<-|H]; [reflexivity|]). destruct H.
Qed.

Lemma digit_not_slash c : digit c -> Ascii.eqb c "/" = false.
Proof.
  intros H. apply digit_cases in H. cbn [In] in H.
  repeat (destruct H as [<-|H]; [reflexivity|]). destruct H.
Qed.

Lemma split_quarterly a b c d q :
  digit a -> digit b -> digit c -> digit d -> digit q ->
  Py.split (text [a; b; c; d; " "; "Q"; q]%char) =
  [text [a; b; c; d]; text ["Q"%char; q]].
Proof.
  intros Ha Hb Hc Hd Hq. unfold Py.split.
  cbn [text string_of_list_ascii Py.split_go].
  rewrite (digit_not_space a Ha), (digit_not_space b Hb),
    (digit_not_space c Hc), (digit_not_space d Hd), (digit_not_space q Hq).
  reflexivity.
Qed.

Lemma parse_start a b c d (ds : string) (dv : Z) :
  digit a -> digit b -> digit c -> digit d ->
  In (ds, dv) [("3", 3); ("6", 6); ("9", 9); ("12", 12); ("15", 15);
               ("18", 18); ("21", 21); ("24", 24); ("27", 27)] ->
  DateString.parse ("1/" +:+ ds +:+ "/" +:+ text [a; b; c; d]) =
  Some (year_value a b c d, 1, dv).
Proof.
  intros Ha Hb Hc Hd Hin.
  assert (Hy : DateString.number 4 4 (text [a; b; c; d]) =
               Some (year_value a b c d)).
  { unfold DateString.number, digit in *.
    cbn [text string_of_list_ascii Py.all_chars String.length Py.digits_val].
    rewrite Ha, Hb, Hc, Hd. cbn [andb Nat.leb]. unfold year_value.
    f_equal. lia. }
  cbn [In] in Hin.
  repeat (destruct Hin as [Hin|Hin];
    [injection Hin as <- <-; unfold DateString.parse;
     cbn [text string_of_list_ascii]; rewrite !append_String, !append_Empty;
     cbn [DateString.fields];
     rewrite (digit_not_slash a Ha), (digit_not_slash b Hb),
       (digit_not_slash c Hc), (digit_not_slash d Hd);
     cbn [Ascii.eqb Bool.eqb rev app string_of_list_ascii];
     change (String a (String b (String c (String d ""))))
       with (text [a; b; c; d]);
     rewrite Hy; reflexivity|]).
  destruct Hin.
Qed.

(** Whatever quarter its first label names, from [Q1] to [Q9], the index
    starts on the 31st of March of the year of that label. *)
Lemma create_quarterly_index_from_march a b c d q rest :
  digit a -> digit b -> digit c -> digit d -> digit q -> q <> "0"%char ->
  1678 <= year_value a b c d <= 2262 ->
  forallb in_bounds
    (QuarterEnd.from (mkTimestamp (year_value a b c d) 3 31)
                     (S (length rest))) = true ->
  _create_quarterly_index
    (IObj (PStr (text [a; b; c; d; " "; "Q"; q]%char)) :: rest) =
  ret (QuarterEnd.from (mkTimestamp (year_value a b c d) 3 31)
                       (S (length rest))).
Proof.
  intros Ha Hb Hc Hd Hq Hq0 Hy Hb'.
  unfold _create_quarterly_index. cbn [head lookup_or]. rewrite !bind_ret.
  rewrite (split_quarterly a b c d q Ha Hb Hc Hd Hq).
  cbn [lookup list_lookup lookup_or]. rewrite bind_ret.
  cbn [text string_of_list_ascii Py.last_char lookup_or]. rewrite bind_ret.
  unfold int_of_char. rewrite Hq, bind_ret, bind_ret.
  set (y := year_value a b c d) in *.
  assert (Hstart : forall ds dv,
    In (ds, dv) [("3", 3); ("6", 6); ("9", 9); ("12", 12); ("15", 15);
                 ("18", 18); ("21", 21); ("24", 24); ("27", 27)] ->
    date_range ("1/" +:+ ds +:+ "/" +:+ text [a; b; c; d])
               (length (IObj (PStr (text [a; b; c; d; " "; "Q"; q]%char)) :: rest))
    = ret (QuarterEnd.from (mkTimestamp y 3 31) (S (length rest)))).
  { intros ds dv Hin. unfold date_range, Timestamp_of_string.
    rewrite (parse_start a b c d ds dv Ha Hb Hc Hd Hin). fold y.
    assert (Hts : make_timestamp
                    ("1/" +:+ ds +:+ "/" +:+ text [a; b; c; d]) y 1 dv
                  = ret (mkTimestamp y 1 dv)).
    { apply make_timestamp_ok; [|apply in_bounds_january; exact Hy].
      unfold valid_date. cbn [year month day].
      replace (1 <=? y) with true by (symmetry; apply Z.leb_le; lia).
      cbn [In] in Hin.
      repeat (destruct Hin as [Hin|Hin]; [injection Hin as <- <-; reflexivity|]).
      destruct Hin. }
    rewrite Hts, bind_ret. cbn [length].
    change (QuarterEnd.rollforward (mkTimestamp y 1 dv))
      with (mkTimestamp y 3 31).
    rewrite Hb'. reflexivity. }
  apply digit_cases in Hq. cbn [In] in Hq.
  destruct Hq as [<-|Hq]; [congruence|].
  repeat (destruct Hq as [<-|Hq];
    [match goal with
     | |- date_range (_ +:+ Py.str_of_Z ?n +:+ _) _ = _ => apply (Hstart _ n)
     end; cbn [In]; repeat first [left; reflexivity | right]|]).
  destruct Hq.
Qed.

(** ** The selection of [from_IMF] *)

Lemma position_In name names :
  In name names -> exists n, position name names = Some n.
Proof.
  induction names as [|n names IH]; intros H; [destruct H|].
  cbn [position]. destruct (String.eqb_spec name n) as [|Hne]; [eauto|].
  destruct H as [->|H]; [congruence|].
  destruct (IH H) as (k & ->). cbn. eauto.
Qed.

Lemma position_not_In name names :
  ~ In name names -> position name names = None.
Proof.
  induction names as [|n names IH]; intros H; [reflexivity|].
  cbn [position]. destruct (String.eqb_spec name n) as [->|Hne].
  - exfalso. apply H. left. reflexivity.
  - rewrite IH; [reflexivity|]. intros Hin. apply H. right. exact Hin.
Qed.

Lemma locate_known strict_loc axis key :
  known axis key ->
  locate strict_loc axis key = ret (map (fun k => position k axis) key) /\
  existsb is_none (map (fun k => position k axis) key) = false.
Proof.
  intros H.
  assert (Hex : existsb is_none (map (fun k => position k axis) key) = false).
  { induction H as [|k key Hk _ IH]; [reflexivity|].
    cbn [map existsb]. destruct (position_In _ _ Hk) as (n & ->). exact IH. }
  split; [|exact Hex].
  unfold locate. destruct key as [|k key]; [reflexivity|].
  rewrite Hex, andb_false_r.
  inversion H as [|? ? Hk _]; subst.
  cbn [map forallb]. destruct (position_In _ _ Hk) as (n & ->). reflexivity.
Qed.

Lemma locate_unknown strict_loc axis key :
  key <> [] -> unknown axis key ->
  exists k, locate strict_loc axis key = raise (KeyError k).
Proof.
  intros Hne H.
  assert (Hall : forallb is_none (map (fun k => position k axis) key) = true).
  { clear Hne. induction H as [|k' key' Hk _ IH]; [reflexivity|].
    cbn [map forallb]. rewrite (position_not_In _ _ Hk). exact IH. }
  unfold locate. destruct key as [|k key]; [congruence|].
  rewrite Hall. eauto.
Qed.

(** C8: with neither series nor countries the panel comes back as it is,
    axes and values, for both datasets. *)
Theorem from_IMF_no_selection strict_loc rawdata out other :
  select_panel strict_loc rawdata None None = ([], Return rawdata) /\
  from_IMF strict_loc (out, Return rawdata) other "weo" None None =
    (out, Return rawdata) /\
  from_IMF strict_loc other (out, Return rawdata) "pubfin" None None =
    (out, Return rawdata).
Proof.
  split; [reflexivity|].
  unfold from_IMF. split.
  - change (Py.strip (Py.lower "weo")) with "weo".
    change (String.eqb "weo" "weo") with true. cbv iota.
    rewrite bind_Return. cbn. rewrite app_nil_r. reflexivity.
  - change (Py.strip (Py.lower "pubfin")) with "pubfin".
    change (String.eqb "pubfin" "weo") with false.
    change (String.eqb "pubfin" "pubfin") with true. cbv iota.
    rewrite bind_Return. cbn. rewrite app_nil_r. reflexivity.
Qed.

(** *** The values a selection keeps *)

Lemma position_lookup name names n :
  position name names = Some n -> names !! n = Some name.
Proof.
  revert n. induction names as [|x names IH]; intros n H; [discriminate H|].
  cbn [position] in H. destruct (String.eqb_spec name x) as [->|Hne].
  - injection H as <-. reflexivity.
  - destruct (position name names) as [m|]; [|discriminate H].
    injection H as <-. cbn. apply IH. reflexivity.
Qed.

Lemma take_lookup {A} (filler : A) found (l : list A) i n x :
  found !! i = Some (Some n) -> l !! n = Some x ->
  take filler found l !! i = Some x.
Proof.
  intros Hi Hn. unfold take. rewrite list_lookup_fmap, Hi. cbn.
  f_equal. apply nth_lookup_Some with (d := filler) in Hn. exact Hn.
Qed.

Lemma lookup_of_length {A} (l : list A) (names : list string) n name :
  length l = length names -> names !! n = Some name -> is_Some (l !! n).
Proof.
  intros Hlen Hn. apply lookup_lt_is_Some. rewrite Hlen.
  eapply lookup_lt_Some. exact Hn.
Qed.

Lemma take_length {A} (filler : A) found (l : list A) :
  length (take filler found l) = length found.
Proof. unfold take. apply length_map. Qed.

Lemma take_Forall {A} (P : A -> Prop) (filler : A) found (l : list A) :
  P filler -> Forall P l -> Forall P (take filler found l).
Proof.
  intros Hf Hl. unfold take. apply List.Forall_forall. intros x Hx.
  apply in_map_iff in Hx. destruct Hx as ([n|] & <- & _); [|exact Hf].
  destruct (nth_in_or_default n l filler) as [Hin| ->]; [|exact Hf].
  rewrite List.Forall_forall in Hl. apply Hl. exact Hin.
Qed.

(** The narrowing of the items keeps the shape, and the cells of the
    items asked for. *)
Lemma take_items_shaped p key :
  well_shaped p ->
  well_shaped
    (mkPanel key (major_axis p) (minor_axis p)
       (take (repeat (repeat nan (length (minor_axis p))) (length (major_axis p)))
             (map (fun k => position k (items p)) key) (values p))).
Proof.
  intros [Hlen Hfr]. split; cbn [items major_axis values].
  - rewrite take_length. apply length_map.
  - apply take_Forall; [apply repeat_length|exact Hfr].
Qed.

Lemma take_items_value p key item entity k :
  well_shaped p -> known (items p) key -> In item key ->
  value_at
    (mkPanel key (major_axis p) (minor_axis p)
       (take (repeat (repeat nan (length (minor_axis p))) (length (major_axis p)))
             (map (fun k => position k (items p)) key) (values p)))
    item entity k = value_at p item entity k.
Proof.
  intros [Hlen Hfr] Hk Hi. unfold value_at. cbn [items major_axis values].
  destruct (position_In _ _ Hi) as (i & Hpi). rewrite Hpi.
  unfold known in Hk. rewrite List.Forall_forall in Hk.
  destruct (position_In _ _ (Hk _ Hi)) as (n0 & Hn0). rewrite Hn0.
  destruct (position entity (major_axis p)) as [j|]; [|reflexivity].
  destruct (lookup_of_length (values p) _ _ _ Hlen (position_lookup _ _ _ Hn0))
    as (fr & Hframe).
  rewrite (take_lookup _ _ (values p) i n0 fr);
    [rewrite Hframe; reflexivity| |exact Hframe].
  rewrite list_lookup_fmap, (position_lookup _ _ _ Hpi). cbn.
  rewrite Hn0. reflexivity.
Qed.

(** The narrowing of the major axis does the same for the entries asked
    for. *)
Lemma take_major_shaped p0 key minor row :
  length (values p0) = length (items p0) ->
  well_shaped
    (mkPanel (items p0) key minor
       (map (take row (map (fun k => position k (major_axis p0)) key))
            (values p0))).
Proof.
  intros Hlen. split; cbn [items major_axis values].
  - rewrite length_map. exact Hlen.
  - apply List.Forall_forall. intros fr Hfr. apply in_map_iff in Hfr.
    destruct Hfr as (fr0 & <- & _). rewrite take_length. apply length_map.
Qed.

Lemma take_major_value p0 key minor row item entity k :
  Forall (fun frame => length frame = length (major_axis p0)) (values p0) ->
  known (major_axis p0) key -> In entity key ->
  value_at
    (mkPanel (items p0) key minor
       (map (take row (map (fun k => position k (major_axis p0)) key))
            (values p0)))
    item entity k = value_at p0 item entity k.
Proof.
  intros Hfr Hk He. unfold value_at. cbn [items major_axis values].
  destruct (position item (items p0)) as [i|]; [|reflexivity].
  destruct (position_In _ _ He) as (j & Hpj). rewrite Hpj.
  unfold known in Hk. rewrite List.Forall_forall in Hk.
  destruct (position_In _ _ (Hk _ He)) as (n1 & Hn1). rewrite Hn1.
  rewrite list_lookup_fmap.
  destruct (values p0 !! i) as [fr|] eqn:Hframe; [|reflexivity].
  cbn [fmap option_fmap option_map].
  assert (Hfl : length fr = length (major_axis p0)).
  { rewrite List.Forall_forall in Hfr. apply Hfr.
    apply list_elem_of_In. eapply list_elem_of_lookup_2. exact Hframe. }
  destruct (lookup_of_length fr _ _ _ Hfl (position_lookup _ _ _ Hn1))
    as (r & Hrow).
  rewrite (take_lookup _ _ fr j n1 r);
    [rewrite Hrow; reflexivity| |exact Hrow].
  rewrite list_lookup_fmap, (position_lookup _ _ _ Hpj). cbn.
  rewrite Hn1. reflexivity.
Qed.

(** A selection by labels that are all known. *)
Lemma select_panel_known strict_loc p series countries :
  known_sel (items p) series -> known_sel (major_axis p) countries ->
  exists p',
    select_panel strict_loc p series countries = ([], Return p') /\
    items p' = narrowed (items p) series /\
    major_axis p' = narrowed (major_axis p) countries /\
    minor_axis p' = minor_axis p /\
    (well_shaped p ->
     well_shaped p' /\
     forall item entity k,
       In item (items p') -> In entity (major_axis p') ->
       value_at p' item entity k = value_at p item entity k).
Proof.
  intros Hs Hc.
  destruct series as [series|], countries as [countries|];
    cbn [known_sel narrowed] in *; unfold select_panel, loc.
  - destruct (locate_known strict_loc _ _ Hs) as [-> _]. rewrite !bind_ret.
    cbn [major_axis items values].
    destruct (locate_known strict_loc _ _ Hc) as [-> _]. rewrite bind_ret.
    eexists. split; [reflexivity|]. cbn [items major_axis minor_axis].
    do 3 (split; [reflexivity|]). intros Hw.
    pose proof (take_items_shaped p series Hw) as [Hl0 Hf0].
    cbn [items major_axis values] in Hl0, Hf0. split.
    + apply (take_major_shaped
               (mkPanel series (major_axis p) (minor_axis p) _)).
      exact Hl0.
    + intros item entity k Hi He.
      rewrite <- (take_items_value p series item entity k Hw Hs Hi).
      apply (take_major_value
               (mkPanel series (major_axis p) (minor_axis p) _));
        assumption.
  - destruct (locate_known strict_loc _ _ Hs) as [-> _]. rewrite !bind_ret.
    eexists. split; [reflexivity|]. cbn [items major_axis minor_axis].
    do 3 (split; [reflexivity|]). intros Hw. split.
    + apply take_items_shaped. exact Hw.
    + intros item entity k Hi _. apply take_items_value; assumption.
  - rewrite bind_ret.
    destruct (locate_known strict_loc _ _ Hc) as [-> _]. rewrite bind_ret.
    eexists. split; [reflexivity|]. cbn [items major_axis minor_axis].
    do 3 (split; [reflexivity|]). intros [Hlen Hfr]. split.
    + apply take_major_shaped. exact Hlen.
    + intros item entity k _ He. apply take_major_value; assumption.
  - eexists. split; [reflexivity|]. do 3 (split; [reflexivity|]).
    intros Hw. split; [exact Hw|reflexivity].
Qed.

(** C9, as the spec has it, fails: a code, or a country, that the panel
    does not have makes the selection raise [KeyError], whichever way
    pandas treats partly unknown keys; nothing empty is returned. *)
Lemma select_panel_unknown_counterexample :
  select_panel true sample_panel (Some ["ZZZ"]) None =
    ([], Raise (KeyError "ZZZ")) /\
  select_panel false sample_panel (Some ["ZZZ"]) None =
    ([], Raise (KeyError "ZZZ")) /\
  select_panel true sample_panel None (Some ["Atlantis"]) =
    ([], Raise (KeyError "Atlantis")) /\
  select_panel false sample_panel None (Some ["Atlantis"]) =
    ([], Raise (KeyError "Atlantis")) /\
  ~ (exists out p', select_panel false sample_panel (Some ["ZZZ"]) None =
                      (out, Return p')).
Proof.
  repeat split. intros (out & p' & H). discriminate H.
Qed.

(** C9 (amended): the selection does not fail when every requested code
    and every requested country is on its axis: it returns the panel
    narrowed to them. Its axes are the requested labels, in the order
    asked, an empty list giving an empty axis, and the time axis is left
    as it is; and, the cells of the panel having the shape of its axes,
    so have those of the selection, which holds for every code and
    country on its axes the cells the panel had for them. A non-empty
    list of codes, or of countries, none of which is on the axis makes
    it raise [KeyError]. *)
Theorem select_panel_known_or_unknown strict_loc p :
  (forall series countries,
     known_sel (items p) series -> known_sel (major_axis p) countries ->
     exists p',
       select_panel strict_loc p series countries = ([], Return p') /\
       items p' = narrowed (items p) series /\
       major_axis p' = narrowed (major_axis p) countries /\
       minor_axis p' = minor_axis p /\
       (well_shaped p ->
        well_shaped p' /\
        forall item entity k,
          In item (items p') -> In entity (major_axis p') ->
          value_at p' item entity k = value_at p item entity k)) /\
  (forall key countries,
     key <> [] -> unknown (items p) key ->
     exists k, select_panel strict_loc p (Some key) countries =
                 ([], Raise (KeyError k))) /\
  (forall series key,
     known_sel (items p) series -> key <> [] -> unknown (major_axis p) key ->
     exists k, select_panel strict_loc p series (Some key) =
                 ([], Raise (KeyError k))).
Proof.
  split; [|split].
  - intros series countries. apply select_panel_known.
  - intros key countries Hne Hu.
    destruct (locate_unknown strict_loc _ _ Hne Hu) as (k & Hk).
    exists k. unfold select_panel, loc.
    destruct countries; rewrite Hk; reflexivity.
  - intros [series|] key Hs Hne Hu; cbn [known_sel] in Hs;
      destruct (locate_unknown strict_loc _ _ Hne Hu) as (k & Hk);
      exists k; unfold select_panel, loc;
      try (destruct (locate_known strict_loc _ _ Hs) as [-> _]);
      rewrite ?bind_ret; cbn [major_axis]; rewrite Hk; reflexivity.
Qed.

Lemma select_panel_known_or_unknown_witness :
  (exists p',
     select_panel false sample_panel (Some ["Y"]) (Some ["FR"; "UK"]) =
       ([], Return p') /\
     items p' = ["Y"] /\ major_axis p' = ["FR"; "UK"] /\
     minor_axis p' = minor_axis sample_panel /\
     well_shaped p' /\
     value_at p' "Y" "UK" 0 = Some (PFloat float_1234_5) /\
     value_at p' "Y" "FR" 1 = Some (PFloat float_2_5)) /\
  (exists k, select_panel false sample_panel (Some ["ZZZ"]) (Some ["UK"]) =
               ([], Raise (KeyError k))) /\
  (exists k, select_panel false sample_panel None (Some ["Atlantis"]) =
               ([], Raise (KeyError k))).
Proof.
  destruct (select_panel_known_or_unknown false sample_panel) as (H1 & H2 & H3).
  split; [|split].
  - destruct (H1 (Some ["Y"]) (Some ["FR"; "UK"])) as (p' & Hsel & Hi & Hm & Hn & Hv).
    + repeat (apply List.Forall_cons;
              [cbn [In]; repeat first [left; reflexivity | right]|]);
        apply List.Forall_nil.
    + repeat (apply List.Forall_cons;
              [cbn [In]; repeat first [left; reflexivity | right]|]);
        apply List.Forall_nil.
    + exists p'. do 4 (split; [assumption|]).
      destruct Hv as (Hw & Hv).
      { split; [reflexivity|]. repeat constructor. }
      split; [exact Hw|]. cbn [narrowed] in Hi, Hm. split.
      * rewrite Hv; [reflexivity|rewrite Hi|rewrite Hm]; cbn; tauto.
      * rewrite Hv; [reflexivity|rewrite Hi|rewrite Hm]; cbn; tauto.
  - apply (H2 ["ZZZ"] (Some ["UK"])); [discriminate|].
    repeat constructor. cbn. intros [H|[H|[]]]; discriminate H.
  - apply (H3 None ["Atlantis"]); [exact I|discriminate|].
    repeat constructor. cbn. intros [H|[H|[]]]; discriminate H.
Defined.

(** A selection by codes and countries that are all known keeps, for
    every requested code and country, the cells the panel had for them. *)
Lemma select_panel_values strict_loc p series countries p' item entity k :
  well_shaped p ->
  known (items p) series -> known (major_axis p) countries ->
  select_panel strict_loc p (Some series) (Some countries) = ([], Return p') ->
  In item series -> In entity countries ->
  value_at p' item entity k = value_at p item entity k.
Proof.
  intros [Hlen Hfr] Hs Hc Hsel Hi He.
  unfold select_panel, loc in Hsel.
  destruct (locate_known strict_loc _ _ Hs) as [Hl0 _].
  destruct (locate_known strict_loc _ _ Hc) as [Hl1 _].
  rewrite Hl0, !bind_ret in Hsel. cbn [major_axis] in Hsel.
  rewrite Hl1, bind_ret in Hsel. injection Hsel as <-.
  unfold value_at. cbn [items major_axis values].
  destruct (position_In _ _ Hi) as (i & Hpi).
  destruct (position_In _ _ He) as (j & Hpj).
  rewrite Hpi, Hpj.
  pose proof (position_lookup _ _ _ Hpi) as Hki.
  pose proof (position_lookup _ _ _ Hpj) as Hkj.
  unfold known in Hs, Hc. rewrite List.Forall_forall in Hs, Hc.
  destruct (position_In _ _ (Hs _ Hi)) as (n0 & Hn0).
  destruct (position_In _ _ (Hc _ He)) as (n1 & Hn1).
  rewrite Hn0, Hn1.
  destruct (lookup_of_length (values p) _ _ _ Hlen (position_lookup _ _ _ Hn0))
    as (frame & Hframe).
  assert (Hfl : length frame = length (major_axis p)).
  { rewrite List.Forall_forall in Hfr. apply Hfr.
    apply list_elem_of_In. eapply list_elem_of_lookup_2. exact Hframe. }
  destruct (lookup_of_length frame _ _ _ Hfl (position_lookup _ _ _ Hn1))
    as (row & Hrow).
  rewrite Hframe, Hrow.
  rewrite list_lookup_fmap.
  rewrite (take_lookup _ _ (values p) i n0 frame); cycle 1.
  { rewrite list_lookup_fmap, Hki. cbn. rewrite Hn0. reflexivity. }
  { exact Hframe. }
  cbn [fmap option_fmap option_map].
  rewrite (take_lookup _ _ frame j n1 row); cycle 1.
  { rewrite list_lookup_fmap, Hkj. cbn. rewrite Hn1. reflexivity. }
  { exact Hrow. }
  reflexivity.
Qed.

(** *** The whole build on a quarterly file *)

(** [from_ONS] on the rows ["2002 Q2"] and ["2002 Q3"]: the figures of
    the second and third quarters are dated the end of the first and of
    the second. *)
Lemma from_ONS_quarterly_sample :
  exists a b,
    from_ONS (fun _ => ret sample_quarterly) "qna" ["YBHA"] "Q" false =
      ([], Return (Some (mkDataFrame ["YBHA"]
                           [(ITime (mkTimestamp 2002 3 31), [PFloat a]);
                            (ITime (mkTimestamp 2002 6 30), [PFloat b])]))) /\
    PyFloat.is_ratio a 255 10 /\ PyFloat.is_ratio b 26 1.
Proof.
  eexists _, _. split; [vm_compute; reflexivity|]. split; reflexivity.
Qed.

(** * Further properties of the importers *)

(** ** Case and white space in the arguments *)

Lemma to_upper_idem c : Py.to_upper (Py.to_upper c) = Py.to_upper c.
Proof. destruct c as [[] [] [] [] [] [] [] []]; reflexivity. Qed.

Lemma to_upper_lower c : Py.to_upper (Py.to_lower c) = Py.to_upper c.
Proof. destruct c as [[] [] [] [] [] [] [] []]; reflexivity. Qed.

Lemma to_lower_upper c : Py.to_lower (Py.to_upper c) = Py.to_lower c.
Proof. destruct c as [[] [] [] [] [] [] [] []]; reflexivity. Qed.

Lemma is_space_to_lower c : Py.is_space (Py.to_lower c) = Py.is_space c.
Proof. destruct c as [[] [] [] [] [] [] [] []]; reflexivity. Qed.

Lemma map_chars_map_chars f g s :
  Py.map_chars f (Py.map_chars g s) = Py.map_chars (fun c => f (g c)) s.
Proof. induction s as [|c s IH]; cbn; [|rewrite IH]; reflexivity. Qed.

Lemma map_chars_ext f g s :
  (forall c, f c = g c) -> Py.map_chars f s = Py.map_chars g s.
Proof. intros H. induction s as [|c s IH]; cbn; [|rewrite H, IH]; reflexivity. Qed.

Lemma map_chars_app f s t :
  Py.map_chars f (s +:+ t) = Py.map_chars f s +:+ Py.map_chars f t.
Proof.
  induction s as [|c s IH]; [reflexivity|].
  rewrite append_String. cbn [Py.map_chars]. rewrite IH, append_String.
  reflexivity.
Qed.

Lemma upper_upper s : Py.upper (Py.upper s) = Py.upper s.
Proof.
  unfold Py.upper. rewrite map_chars_map_chars.
  apply map_chars_ext, to_upper_idem.
Qed.

Lemma upper_lower s : Py.upper (Py.lower s) = Py.upper s.
Proof.
  unfold Py.upper, Py.lower. rewrite map_chars_map_chars.
  apply map_chars_ext, to_upper_lower.
Qed.

Lemma lower_upper s : Py.lower (Py.upper s) = Py.lower s.
Proof.
  unfold Py.upper, Py.lower. rewrite map_chars_map_chars.
  apply map_chars_ext, to_lower_upper.
Qed.

Lemma all_space_lower pad :
  Py.all_chars Py.is_space pad = true ->
  Py.all_chars Py.is_space (Py.lower pad) = true.
Proof.
  induction pad as [|c pad IH]; [reflexivity|].
  cbn [Py.all_chars Py.lower Py.map_chars]. intros H.
  apply andb_prop in H. destruct H as [Hc Hp].
  rewrite is_space_to_lower, Hc. apply IH. exact Hp.
Qed.

Lemma lstrip_spaces pad s :
  Py.all_chars Py.is_space pad = true -> Py.lstrip (pad +:+ s) = Py.lstrip s.
Proof.
  induction pad as [|c pad IH]; [reflexivity|].
  cbn [Py.all_chars]. intros H. apply andb_prop in H. destruct H as [Hc Hp].
  rewrite append_String. cbn [Py.lstrip]. rewrite Hc. apply IH. exact Hp.
Qed.

Lemma lstrip_all_space pad :
  Py.all_chars Py.is_space pad = true -> Py.lstrip pad = "".
Proof.
  induction pad as [|c pad IH]; [reflexivity|].
  cbn [Py.all_chars]. intros H. apply andb_prop in H. destruct H as [Hc Hp].
  cbn [Py.lstrip]. rewrite Hc. apply IH. exact Hp.
Qed.

Lemma rstrip_all_space pad :
  Py.all_chars Py.is_space pad = true -> Py.rstrip pad = "".
Proof.
  induction pad as [|c pad IH]; [reflexivity|].
  cbn [Py.all_chars]. intros H. apply andb_prop in H. destruct H as [Hc Hp].
  cbn [Py.rstrip]. rewrite (IH Hp), Hc. reflexivity.
Qed.

Lemma rstrip_spaces s pad :
  Py.all_chars Py.is_space pad = true -> Py.rstrip (s +:+ pad) = Py.rstrip s.
Proof.
  intros H. induction s as [|c s IH].
  - rewrite append_Empty. apply rstrip_all_space. exact H.
  - rewrite append_String. cbn [Py.rstrip]. rewrite IH. reflexivity.
Qed.

Lemma lstrip_app_spaces s pad :
  Py.all_chars Py.is_space pad = true ->
  Py.rstrip (Py.lstrip (s +:+ pad)) = Py.rstrip (Py.lstrip s).
Proof.
  intros H. induction s as [|c s IH].
  - rewrite append_Empty, (lstrip_all_space pad H). reflexivity.
  - rewrite append_String. cbn [Py.lstrip]. destruct (Py.is_space c).
    + exact IH.
    + rewrite <- append_String. apply rstrip_spaces. exact H.
Qed.

(** Capitals and white space around a name do not change its clean
    form. *)
Lemma strip_lower_padded pad name pad' :
  Py.all_chars Py.is_space pad = true ->
  Py.all_chars Py.is_space pad' = true ->
  Py.strip (Py.lower (pad +:+ Py.upper name +:+ pad')) =
  Py.strip (Py.lower name).
Proof.
  intros Hp Hp'. unfold Py.lower at 1. rewrite !map_chars_app.
  fold (Py.lower pad) (Py.lower pad') (Py.lower (Py.upper name)).
  rewrite lower_upper. unfold Py.strip.
  rewrite lstrip_spaces by (apply all_space_lower; exact Hp).
  apply lstrip_app_spaces, all_space_lower. exact Hp'.
Qed.

(** X1: the URL of an ONS file does not depend on the case of the dataset
    name or of the series codes, nor on white space around the dataset
    name. *)
Theorem retrieve_ONS_csv_case_and_padding dataset series pad pad' :
  Py.all_chars Py.is_space pad = true ->
  Py.all_chars Py.is_space pad' = true ->
  _retrieve_ONS_csv (pad +:+ Py.upper dataset +:+ pad') (map Py.lower series) =
  _retrieve_ONS_csv dataset series.
Proof.
  intros Hp Hp'. unfold _retrieve_ONS_csv.
  rewrite (strip_lower_padded pad dataset pad' Hp Hp'), map_map.
  do 4 f_equal. apply map_ext. intros s. rewrite upper_lower. reflexivity.
Qed.

Lemma retrieve_ONS_csv_case_and_padding_witness :
  _retrieve_ONS_csv (" " +:+ Py.upper "qna" +:+ "  ") (map Py.lower ["YBHA"; "abmi"]) =
  _retrieve_ONS_csv "qna" ["YBHA"; "abmi"].
Proof.
  apply (retrieve_ONS_csv_case_and_padding "qna" ["YBHA"; "abmi"] " " "  ");
    reflexivity.
Defined.

(** X2: [from_ONS] reads the frequency without regard to case: the
    frequency in capitals, or in small letters, gives the same
    computation. *)
Theorem from_ONS_frequency_case read_csv dataset series freq print_url :
  from_ONS read_csv dataset series (Py.upper freq) print_url =
    from_ONS read_csv dataset series freq print_url /\
  from_ONS read_csv dataset series (Py.lower freq) print_url =
    from_ONS read_csv dataset series freq print_url.
Proof.
  unfold from_ONS. rewrite upper_upper, upper_lower. split; reflexivity.
Qed.

(** X3: [from_IMF] reads the dataset name without regard to case and to
    white space around it. *)
Theorem from_IMF_dataset_case_and_padding
    strict_loc weo pubfin dataset series countries pad pad' :
  Py.all_chars Py.is_space pad = true ->
  Py.all_chars Py.is_space pad' = true ->
  from_IMF strict_loc weo pubfin (pad +:+ Py.upper dataset +:+ pad')
           series countries =
  from_IMF strict_loc weo pubfin dataset series countries.
Proof.
  intros Hp Hp'. unfold from_IMF.
  rewrite (strip_lower_padded pad dataset pad' Hp Hp'). reflexivity.
Qed.

Lemma from_IMF_dataset_case_and_padding_witness :
  from_IMF false (ret sample_panel) (raise TransportError)
           (" " +:+ Py.upper "weo" +:+ " ") None (Some ["UK"]) =
  from_IMF false (ret sample_panel) (raise TransportError)
           "weo" None (Some ["UK"]).
Proof.
  apply (from_IMF_dataset_case_and_padding false (ret sample_panel)
           (raise TransportError) "weo" None (Some ["UK"]) " " " ");
    reflexivity.
Defined.

(** ** The quarterly index, whatever the labels *)

Lemma make_timestamp_inv what y m d out t :
  make_timestamp what y m d = (out, Return t) ->
  out = [] /\ t = mkTimestamp y m d /\ valid_date t = true /\
  in_bounds t = true.
Proof.
  unfold make_timestamp.
  destruct (valid_date (mkTimestamp y m d)) eqn:Hv; [|discriminate].
  destruct (in_bounds (mkTimestamp y m d)) eqn:Hb; [|discriminate].
  cbn. intros H. injection H as <- <-. auto.
Qed.

Lemma rollforward_quarter_end t :
  valid_date t = true ->
  is_quarter_end (QuarterEnd.rollforward t) = true /\
  1 <= month t <= 12.
Proof.
  unfold valid_date. intros H.
  repeat (apply andb_prop in H; destruct H as [H ?]).
  assert (Hm : 1 <= month t <= 12) by lia. split; [|exact Hm].
  assert (Hc : month t = 1 \/ month t = 2 \/ month t = 3 \/ month t = 4 \/
               month t = 5 \/ month t = 6 \/ month t = 7 \/ month t = 8 \/
               month t = 9 \/ month t = 10 \/ month t = 11 \/ month t = 12)
    by lia.
  unfold QuarterEnd.rollforward.
  repeat (destruct Hc as [Hc|Hc]; [rewrite Hc; reflexivity|]).
  rewrite Hc. reflexivity.
Qed.

Lemma next_quarter_end t :
  is_quarter_end t = true ->
  is_quarter_end (QuarterEnd.next t) = true /\
  three_months_on t (QuarterEnd.next t).
Proof.
  unfold is_quarter_end, three_months_on, QuarterEnd.next, QuarterEnd.end_of,
    Timestamp_ltb, Timestamp_leb.
  destruct t as [y m d]. cbn [year month day]. intros H.
  assert (Hc : m = 3 \/ m = 6 \/ m = 9 \/ m = 12) by lia.
  destruct Hc as [->|[->|[->| ->]]]; cbn; (split; [reflexivity|]);
    (split; [lia|]);
    rewrite ?Z.ltb_irrefl, ?Z.eqb_refl; cbn;
    try reflexivity.
  replace (y <? y + 1) with true by (symmetry; apply Z.ltb_lt; lia).
  replace (y + 1 <? y) with false by (symmetry; apply Z.ltb_ge; lia).
  replace (y + 1 =? y) with false by (symmetry; apply Z.eqb_neq; lia).
  reflexivity.
Qed.

Lemma from_quarterly t n :
  is_quarter_end t = true ->
  Forall (fun u => is_quarter_end u = true) (QuarterEnd.from t n) /\
  quarterly (QuarterEnd.from t n).
Proof.
  revert t. induction n as [|n IH]; intros t Ht; cbn [QuarterEnd.from].
  - split; [constructor|exact I].
  - destruct (next_quarter_end t Ht) as [Hn H3].
    destruct (IH _ Hn) as [Hall Hq]. split; [constructor; assumption|].
    destruct n as [|n]; [exact I|].
    cbn [QuarterEnd.from quarterly] in *. split; assumption.
Qed.

Lemma date_range_inv start periods out l :
  date_range start periods = (out, Return l) ->
  out = [] /\ length l = periods /\
  Forall (fun t => is_quarter_end t = true /\ in_bounds t = true) l /\
  quarterly l.
Proof.
  unfold date_range, Timestamp_of_string.
  destruct (DateString.parse start) as [[[y m] d]|]; [|discriminate].
  destruct (make_timestamp start y m d) as [o [t0|e]] eqn:Ht; [|discriminate].
  apply make_timestamp_inv in Ht. destruct Ht as (-> & _ & Hv & _).
  rewrite bind_Return.
  destruct (forallb in_bounds _) eqn:Hb; [|discriminate].
  cbn. intros H. injection H as <- <-.
  destruct (rollforward_quarter_end t0 Hv) as [Hq _].
  destruct (from_quarterly _ periods Hq) as [Hall Hqs].
  repeat split; [apply QuarterEnd_from_length| |exact Hqs].
  rewrite forallb_forall in Hb. rewrite List.Forall_forall in *.
  intros t Hin. split; [apply Hall|apply Hb]; exact Hin.
Qed.

Lemma create_quarterly_index_inv dfindex out l :
  _create_quarterly_index dfindex = (out, Return l) ->
  exists start, date_range start (length dfindex) = (out, Return l).
Proof.
  unfold _create_quarterly_index.
  destruct (head dfindex) as [first|]; [|discriminate].
  cbn [lookup_or]. rewrite bind_ret.
  destruct first as [[s| | | |]|]; try discriminate.
  rewrite bind_ret.
  destruct (Py.split s !! 1%nat) as [quarter|]; [|discriminate].
  cbn [lookup_or]. rewrite bind_ret.
  destruct (Py.last_char quarter) as [c|]; [|discriminate].
  cbn [lookup_or]. rewrite bind_ret.
  unfold int_of_char. destruct (Py.is_digit c); [|discriminate].
  rewrite bind_ret.
  destruct (Py.split s !! 0%nat) as [starting_year|]; [|discriminate].
  cbn [lookup_or]. rewrite bind_ret. eauto.
Qed.

Lemma create_quarterly_index_shape dfindex out l :
  _create_quarterly_index dfindex = (out, Return l) ->
  out = [] /\ length l = length dfindex /\
  Forall (fun t => is_quarter_end t = true /\ in_bounds t = true) l /\
  quarterly l.
Proof.
  intros H. destruct (create_quarterly_index_inv _ _ _ H) as (start & Hs).
  exact (date_range_inv _ _ _ _ Hs).
Qed.

(** X4: whenever the quarterly index is built, it prints nothing and has
    one date per label; every date is a quarter end in the range of
    pandas, and each is three months after, and later than, the one
    before. *)
Theorem create_quarterly_index_quarter_ends dfindex out l :
  _create_quarterly_index dfindex = (out, Return l) ->
  out = [] /\ length l = length dfindex /\
  Forall (fun t => is_quarter_end t = true /\ in_bounds t = true) l /\
  quarterly l.
Proof. exact (create_quarterly_index_shape dfindex out l). Qed.

Lemma create_quarterly_index_quarter_ends_witness :
  [] = @nil string /\
  length [mkTimestamp 2002 3 31; mkTimestamp 2002 6 30;
          mkTimestamp 2002 9 30; mkTimestamp 2002 12 31]
    = length quarters_2002_Q2 /\
  Forall (fun t => is_quarter_end t = true /\ in_bounds t = true)
    [mkTimestamp 2002 3 31; mkTimestamp 2002 6 30;
     mkTimestamp 2002 9 30; mkTimestamp 2002 12 31] /\
  quarterly [mkTimestamp 2002 3 31; mkTimestamp 2002 6 30;
             mkTimestamp 2002 9 30; mkTimestamp 2002 12 31].
Proof.
  apply (create_quarterly_index_quarter_ends quarters_2002_Q2). reflexivity.
Defined.

(** X5: the labels after the first are never read: two indexes with the
    same first label and the same number of labels get the same dates, or
    the same exception. *)
Theorem create_quarterly_index_first_label_only first rest rest' :
  length rest = length rest' ->
  _create_quarterly_index (first :: rest) =
  _create_quarterly_index (first :: rest').
Proof.
  intros H. unfold _create_quarterly_index. cbn [head length].
  rewrite H. reflexivity.
Qed.

Lemma create_quarterly_index_first_label_only_witness :
  _create_quarterly_index
    [IObj (PStr "2002 Q2"); IObj (PStr "2002 Q3"); IObj (PStr "2002 Q4")] =
  _create_quarterly_index
    [IObj (PStr "2002 Q2"); IObj (PStr "2007 Q1"); IObj (PStr "1999 Q4")].
Proof.
  apply (create_quarterly_index_first_label_only (IObj (PStr "2002 Q2"))
           [IObj (PStr "2002 Q3"); IObj (PStr "2002 Q4")]
           [IObj (PStr "2007 Q1"); IObj (PStr "1999 Q4")]).
  reflexivity.
Defined.

Lemma parse_start_zero a b c d :
  digit a -> digit b -> digit c -> digit d ->
  DateString.parse ("1/0/" +:+ text [a; b; c; d]) =
  Some (year_value a b c d, 1, 0).
Proof.
  intros Ha Hb Hc Hd.
  assert (Hy : DateString.number 4 4 (text [a; b; c; d]) =
               Some (year_value a b c d)).
  { unfold DateString.number, digit in *.
    cbn [text string_of_list_ascii Py.all_chars String.length Py.digits_val].
    rewrite Ha, Hb, Hc, Hd. cbn [andb Nat.leb]. unfold year_value.
    f_equal. lia. }
  unfold DateString.parse.
  cbn [text string_of_list_ascii]. rewrite !append_String, !append_Empty.
  cbn [DateString.fields].
  rewrite (digit_not_slash a Ha), (digit_not_slash b Hb),
    (digit_not_slash c Hc), (digit_not_slash d Hd).
  cbn [Ascii.eqb Bool.eqb rev app string_of_list_ascii].
  change (String a (String b (String c (String d ""))))
    with (text [a; b; c; d]).
  rewrite Hy. reflexivity.
Qed.

(** X6: a first label that names the quarter 0 is kept by the row filter
    of the quarterly frequency, and makes the index raise [ValueError]:
    the start it builds has the day 0. An index without labels raises
    [IndexError]. *)
Theorem create_quarterly_index_quarter_zero a b c d rest :
  digit a -> digit b -> digit c -> digit d ->
  Re.search pattern_Q (text [a; b; c; d; " "; "Q"; "0"]%char) = true /\
  _create_quarterly_index
    (IObj (PStr (text [a; b; c; d; " "; "Q"; "0"]%char)) :: rest) =
  ([], Raise (ValueError ("1/0/" +:+ text [a; b; c; d]))) /\
  _create_quarterly_index [] = ([], Raise IndexError).
Proof.
  intros Ha Hb Hc Hd. split; [|split; [|reflexivity]].
  - apply (search_label_found "Q" _ _ re_dict_Q).
    exists "", (text [a; b; c; d; " "; "Q"; "0"]%char), "".
    split; [reflexivity|].
    split; [|left; reflexivity]. right. left. split; [reflexivity|].
    exists a, b, c, d, "0"%char. repeat split; assumption.
  - unfold _create_quarterly_index. cbn [head lookup_or]. rewrite !bind_ret.
    rewrite (split_quarterly a b c d "0" Ha Hb Hc Hd eq_refl).
    cbn [lookup list_lookup lookup_or]. rewrite bind_ret.
    cbn [text string_of_list_ascii Py.last_char lookup_or]. rewrite bind_ret.
    unfold int_of_char. change (Py.is_digit "0") with true. cbv iota.
    rewrite bind_ret, bind_ret.
    change (Py.str_of_Z (3 * Py.digit_val "0")) with "0".
    change ("1/" +:+ "0" +:+ "/" +:+ String a (String b (String c (String d ""))))
      with ("1/0/" +:+ text [a; b; c; d]).
    unfold date_range, Timestamp_of_string.
    rewrite (parse_start_zero a b c d Ha Hb Hc Hd).
    unfold make_timestamp, valid_date. cbn [year month day].
    change (1 <=? 0) with false. rewrite andb_false_r. reflexivity.
Qed.

Lemma create_quarterly_index_quarter_zero_witness :
  Re.search pattern_Q (text ["2"; "0"; "0"; "2"; " "; "Q"; "0"]%char) = true /\
  _create_quarterly_index
    (IObj (PStr (text ["2"; "0"; "0"; "2"; " "; "Q"; "0"]%char))
     :: [IObj (PStr "2002 Q1")]) =
  ([], Raise (ValueError ("1/0/" +:+ text ["2"; "0"; "0"; "2"]%char))) /\
  _create_quarterly_index [] = ([], Raise IndexError).
Proof.
  apply (create_quarterly_index_quarter_zero "2" "0" "0" "2"
           [IObj (PStr "2002 Q1")]); reflexivity.
Defined.

(** ** What a built frame holds *)

Lemma mapM_inv {A B} (f : A -> M B) (l : list A) out l' :
  mapM f l = (out, Return l') ->
  Forall2 (fun x y => exists o, f x = (o, Return y)) l l'.
Proof.
  revert out l'. induction l as [|x l IH]; intros out l' H.
  - injection H as _ <-. constructor.
  - cbn [mapM] in H. destruct (f x) as [o1 [y|e]] eqn:Hx; [|discriminate H].
    rewrite bind_Return in H.
    destruct (mapM f l) as [o2 [ys|e]] eqn:E; [|discriminate H].
    rewrite bind_Return in H. injection H as _ <-.
    constructor; [eauto|]. eapply IH. reflexivity.
Qed.

Lemma mapM_silent {A B} (f : A -> M B) (l : list A) :
  (forall x, fst (f x) = []) -> fst (mapM f l) = [].
Proof.
  intros Hf. induction l as [|x l IH]; [reflexivity|].
  cbn [mapM]. specialize (Hf x).
  destruct (f x) as [o1 [y|e]]; cbn in Hf; subst o1; [|reflexivity].
  rewrite bind_Return. cbn [fst app].
  destruct (mapM f l) as [o2 [ys|e]]; cbn in IH; subst o2; reflexivity.
Qed.

Lemma make_timestamp_silent what y m d : fst (make_timestamp what y m d) = [].
Proof.
  unfold make_timestamp.
  destruct (negb _); [reflexivity|]. destruct (negb _); reflexivity.
Qed.

Lemma to_datetime1_silent fmt l : fst (to_datetime1 fmt l) = [].
Proof.
  unfold to_datetime1. destruct l as [[s| | | |]|]; try reflexivity.
  destruct (strptime fmt s) as [[[y m] d]|]; [|reflexivity].
  apply make_timestamp_silent.
Qed.

Lemma py_float_silent o : fst (py_float o) = [].
Proof.
  destruct o as [s|f|z|b|]; cbn; try reflexivity.
  - destruct (PyFloat.parse s); reflexivity.
  - destruct (PyFloat.of_int z); reflexivity.
Qed.

Lemma zip_with_snd (new : list idx) (rs : list (idx * list pyobj)) :
  length new = length rs ->
  map snd (zip_with (fun i r => (i, snd r)) new rs) = map snd rs.
Proof.
  revert rs. induction new as [|i new IH]; intros [|r rs] H; try discriminate H.
  - reflexivity.
  - cbn. f_equal. apply IH. injection H as H. exact H.
Qed.

Lemma set_axis_inv df new out df' :
  set_axis df new = (out, Return df') ->
  out = [] /\ columns df' = columns df /\ index df' = new /\
  map snd (rows df') = map snd (rows df).
Proof.
  unfold set_axis. destruct (Nat.eqb_spec (length new) (length (rows df)));
    [|discriminate].
  intros H. injection H as <- <-. cbn [columns rows].
  repeat split.
  - apply index_zip_with. assumption.
  - apply zip_with_snd. assumption.
Qed.

Lemma Forall_is_time_map l : Forall (fun i => is_time i = true) (map ITime l).
Proof. induction l; constructor; [reflexivity|assumption]. Qed.

Lemma timeseries_index_inv df freq out df' :
  _timeseries_index df freq = (out, Return df') ->
  out = [] /\
  exists pos,
    position "Unnamed: 0" (columns df) = Some pos /\
    columns df' = delete pos (columns df) /\
    map snd (rows df') = map (fun r => delete pos (snd r)) (rows df) /\
    (freq = "Q" \/ freq = "M" \/ freq = "A" ->
     Forall (fun i => is_time i = true) (index df')).
Proof.
  unfold _timeseries_index, set_index.
  destruct (position "Unnamed: 0" (columns df)) as [pos|]; [|discriminate].
  cbn [lookup_or]. rewrite !bind_ret.
  set (df2 := mkDataFrame _ _).
  assert (Hrows : map snd (rows df2) = map (fun r => delete pos (snd r)) (rows df)).
  { unfold df2. cbn [rows]. rewrite map_map. reflexivity. }
  assert (Hdone : forall o ix,
    bind (o, Return ix) (fun ix => set_axis df2 (map ITime ix)) = (out, Return df') ->
    o = [] ->
    out = [] /\
    exists pos0, Some pos = Some pos0 /\
      columns df' = delete pos0 (columns df) /\
      map snd (rows df') = map (fun r => delete pos0 (snd r)) (rows df) /\
      (freq = "Q" \/ freq = "M" \/ freq = "A" ->
       Forall (fun i => is_time i = true) (index df'))).
  { intros o ix H ->. rewrite bind_Return in H. cbn [app] in H.
    destruct (set_axis df2 (map ITime ix)) as [o' r] eqn:Hs.
    cbn [fst snd] in H. injection H as -> ->.
    apply set_axis_inv in Hs. destruct Hs as (-> & Hc & Hi & Hr).
    split; [reflexivity|]. exists pos. split; [reflexivity|].
    split; [exact Hc|]. split; [rewrite Hr; exact Hrows|].
    intros _. rewrite Hi. apply Forall_is_time_map. }
  destruct (String.eqb_spec freq "Q") as [HQ|HQ].
  { destruct (_create_quarterly_index (index df2)) as [o [ix|e]] eqn:E;
      [|discriminate].
    intros H. apply (Hdone o ix H).
    apply (create_quarterly_index_shape _ _ _ E). }
  destruct (String.eqb_spec freq "M") as [HM|HM].
  { pose proof (mapM_silent (to_datetime1 Fmt_Y_b) (index df2)
                  (to_datetime1_silent Fmt_Y_b)) as Hsil.
    unfold to_datetime.
    destruct (mapM (to_datetime1 Fmt_Y_b) (index df2)) as [o [ix|e]];
      [|discriminate].
    intros H. apply (Hdone o ix H). exact Hsil. }
  destruct (String.eqb_spec freq "A") as [HA|HA].
  { pose proof (mapM_silent (to_datetime1 Fmt_Y) (index df2)
                  (to_datetime1_silent Fmt_Y)) as Hsil.
    unfold to_datetime.
    destruct (mapM (to_datetime1 Fmt_Y) (index df2)) as [o [ix|e]];
      [|discriminate].
    intros H. apply (Hdone o ix H). exact Hsil. }
  intros H. injection H as <- <-. split; [reflexivity|].
  exists pos. split; [reflexivity|]. split; [reflexivity|].
  split; [exact Hrows|]. intros [?|[?|?]]; contradiction.
Qed.

(** X7: whenever [_timeseries_index] returns, it has printed nothing and
    the label column is a column of the frame; the frame it returns has
    the other columns, in order, and the same rows of cells, untouched:
    only the index is new. For the frequencies [Q], [M] and [A] every
    entry of the new index is a timestamp. *)
Theorem timeseries_index_keeps_cells df freq out df' :
  _timeseries_index df freq = (out, Return df') ->
  out = [] /\
  exists pos,
    position "Unnamed: 0" (columns df) = Some pos /\
    columns df' = delete pos (columns df) /\
    map snd (rows df') = map (fun r => delete pos (snd r)) (rows df) /\
    (freq = "Q" \/ freq = "M" \/ freq = "A" ->
     Forall (fun i => is_time i = true) (index df')).
Proof. exact (timeseries_index_inv df freq out df'). Qed.

Lemma timeseries_index_keeps_cells_witness :
  [] = @nil string /\
  exists pos,
    position "Unnamed: 0" (columns sample_annual) = Some pos /\
    columns (mkDataFrame ["YBHA"]
               [(ITime (mkTimestamp 2001 1 1), [PStr "98"]);
                (ITime (mkTimestamp 2013 1 1), [PStr "100"])]) =
      delete pos (columns sample_annual) /\
    map snd (rows (mkDataFrame ["YBHA"]
                     [(ITime (mkTimestamp 2001 1 1), [PStr "98"]);
                      (ITime (mkTimestamp 2013 1 1), [PStr "100"])])) =
      map (fun r => delete pos (snd r)) (rows sample_annual) /\
    ("A" = "Q" \/ "A" = "M" \/ "A" = "A" ->
     Forall (fun i => is_time i = true)
       (index (mkDataFrame ["YBHA"]
                 [(ITime (mkTimestamp 2001 1 1), [PStr "98"]);
                  (ITime (mkTimestamp 2013 1 1), [PStr "100"])]))).
Proof.
  apply (timeseries_index_keeps_cells sample_annual "A"). reflexivity.
Defined.

Lemma astype_cell_inv c o c' :
  (do f <- py_float c; ret (PFloat f)) = (o, Return c') ->
  is_float c' = true /\ exists f, py_float c = ([], Return f).
Proof.
  pose proof (py_float_silent c) as Hs.
  destruct (py_float c) as [o1 [f|e]]; cbn in Hs; subst o1; [|discriminate].
  rewrite bind_Return; cbn [fst snd app ret]. intros H. injection H as _ <-. eauto.
Qed.

Lemma astype_row_inv (r : idx * list pyobj) o r' :
  (do cs <- mapM (fun c => do f <- py_float c; ret (PFloat f)) (snd r);
   ret (fst r, cs)) = (o, Return r') ->
  o = [] /\ fst r' = fst r /\ Forall (fun c => is_float c = true) (snd r') /\
  Forall (fun c => exists f, py_float c = ([], Return f)) (snd r).
Proof.
  set (g := fun c => do f <- py_float c; ret (PFloat f)).
  assert (Hg : forall c, fst (g c) = []).
  { intros c. unfold g. pose proof (py_float_silent c) as Hs.
    destruct (py_float c) as [o1 [f|e]]; cbn in Hs; subst o1; reflexivity. }
  pose proof (mapM_silent g (snd r) Hg) as Hs.
  destruct (mapM g (snd r)) as [o1 [cs|e]] eqn:E; cbn in Hs; subst o1;
    [|discriminate].
  rewrite bind_Return; cbn [fst snd app ret]. intros H. injection H as <- <-.
  split; [reflexivity|]. split; [reflexivity|]. cbn [snd].
  apply mapM_inv in E. clear Hg.
  induction E as [|c c' cs cs' (o & Hc) _ IH]; [split; constructor|].
  destruct IH as [IH1 IH2]. apply astype_cell_inv in Hc.
  destruct Hc as [Hc1 Hc2]. split; constructor; assumption.
Qed.

Lemma astype_float_inv df out df' :
  astype_float df = (out, Return df') ->
  out = [] /\ columns df' = columns df /\
  Forall2 (fun r r' => fst r' = fst r) (rows df) (rows df') /\
  Forall (fun r' => Forall (fun c => is_float c = true) (snd r')) (rows df') /\
  Forall (fun r => Forall (fun c => exists f, py_float c = ([], Return f))
                          (snd r)) (rows df).
Proof.
  unfold astype_float.
  set (F := fun r : idx * list pyobj =>
              do cs <- mapM (fun c => do f <- py_float c; ret (PFloat f)) (snd r);
              ret (fst r, cs)).
  assert (HF : forall r, fst (F r) = []).
  { intros r. destruct (F r) as [o [r'|e]] eqn:E.
    - apply astype_row_inv in E. destruct E as [-> _]. reflexivity.
    - unfold F in E.
      pose proof (mapM_silent (fun c => do f <- py_float c; ret (PFloat f))
                    (snd r)) as Hs.
      destruct (mapM _ (snd r)) as [o1 [cs|e1]].
      + rewrite bind_Return in E. discriminate E.
      + cbn in E. injection E as <- _. apply Hs. intros c.
        pose proof (py_float_silent c) as Hc.
        destruct (py_float c) as [o2 [f|e2]]; cbn in Hc; subst o2; reflexivity. }
  pose proof (mapM_silent F (rows df) HF) as Hs.
  destruct (mapM F (rows df)) as [o [rs|e]] eqn:E; cbn in Hs; subst o;
    [|discriminate].
  rewrite bind_Return; cbn [fst snd app ret]. intros H. injection H as <- <-. cbn [columns rows].
  split; [reflexivity|]. split; [reflexivity|].
  apply mapM_inv in E. clear HF.
  induction E as [|r r' rs0 rs' (o & Hr) _ IH]; [repeat split; constructor|].
  destruct IH as (IH1 & IH2 & IH3). apply astype_row_inv in Hr.
  destruct Hr as (_ & H1 & H2 & H3).
  repeat split; constructor; assumption.
Qed.

Lemma from_ONS_not_read read_csv dataset series freq print_url out r :
  from_ONS read_csv dataset series freq print_url = (out, Return r) ->
  exists out0 dfraw pos pattern,
    read_csv (_retrieve_ONS_csv dataset series) = (out0, Return dfraw) /\
    position "Unnamed: 0" (columns dfraw) = Some pos /\
    re_dict !! Py.upper freq = Some pattern /\
    has_str (labels_at dfraw pos) = true.
Proof.
  intros H.
  destruct (read_csv (_retrieve_ONS_csv dataset series)) as [out0 [dfraw|e]]
    eqn:Hr.
  - destruct (position "Unnamed: 0" (columns dfraw)) as [pos|] eqn:Hpos.
    + destruct (has_str (labels_at dfraw pos)) eqn:Hstr.
      * destruct (re_dict !! Py.upper freq) as [pattern|] eqn:Hre.
        -- exists out0, dfraw, pos, pattern. auto.
        -- exfalso.
           rewrite (from_ONS_criterion_raises _ _ _ _ _ _ _ _ Hr
                      (criterion_no_pattern _ _ pos Hpos Hstr Hre)) in H.
           discriminate H.
      * exfalso.
        rewrite (from_ONS_criterion_raises _ _ _ _ _ _ _ _ Hr
                   (criterion_no_str _ _ pos Hpos Hstr)) in H.
        discriminate H.
    + exfalso.
      rewrite (from_ONS_criterion_raises _ _ _ _ _ _ _ _ Hr
                 (criterion_no_column _ _ Hpos)) in H.
      discriminate H.
  - exfalso. unfold from_ONS in H. rewrite Hr in H.
    destruct print_url; cbn in H; discriminate H.
Qed.

Lemma from_ONS_frame_inv read_csv dataset series freq print_url out df :
  from_ONS read_csv dataset series freq print_url = (out, Return (Some df)) ->
  exists out0 dfraw pos pattern,
    read_csv (_retrieve_ONS_csv dataset series) = (out0, Return dfraw) /\
    position "Unnamed: 0" (columns dfraw) = Some pos /\
    re_dict !! Py.upper freq = Some pattern /\
    out = url_line dataset series print_url ++ out0 /\
    columns df = delete pos (columns dfraw) /\
    length (rows df) = length (List.filter (keeps pattern pos) (rows dfraw)) /\
    rows df <> [] /\
    Forall (fun r => is_time (fst r) = true /\
                     Forall (fun c => is_float c = true) (snd r)) (rows df) /\
    Forall (fun r => Forall (fun c => exists f, py_float c = ([], Return f))
                            (delete pos (snd r)))
           (List.filter (keeps pattern pos) (rows dfraw)).
Proof.
  intros H.
  destruct (from_ONS_not_read _ _ _ _ _ _ _ H)
    as (out0 & dfraw & pos & pattern & Hr & Hpos & Hre & Hstr).
  exists out0, dfraw, pos, pattern. do 3 (split; [assumption|]).
  rewrite (from_ONS_read _ _ _ _ _ _ _ _ _ Hr Hpos Hre Hstr), bind_Return in H.
  cbn [fst snd] in H.
  destruct (empty (filtered dfraw pattern pos)) eqn:He; [discriminate H|].
  destruct (_timeseries_index (filtered dfraw pattern pos) (Py.upper freq))
    as [o1 [df1|e]] eqn:Ht; [|discriminate H].
  rewrite bind_Return in H. cbn [fst snd] in H.
  destruct (astype_float df1) as [o2 [df2|e]] eqn:Ha; [|discriminate H].
  rewrite bind_Return in H. cbn in H. injection H as <- <-.
  apply timeseries_index_inv in Ht.
  destruct Ht as (-> & pos' & Hpos' & Hc1 & Hrows1 & Hidx).
  change (columns (filtered dfraw pattern pos)) with (columns dfraw) in *.
  rewrite Hpos in Hpos'. injection Hpos' as <-.
  apply astype_float_inv in Ha. destruct Ha as (-> & Hc2 & Hfst & Hfl & Hok).
  rewrite filtered_rows in *.
  assert (Hlen1 : length (rows df1) =
                  length (List.filter (keeps pattern pos) (rows dfraw))).
  { rewrite <- (length_map snd (rows df1)), Hrows1, length_map. reflexivity. }
  assert (Hlen2 : length (rows df2) = length (rows df1)).
  { symmetry. eapply Forall2_length. exact Hfst. }
  split; [rewrite !app_nil_r; reflexivity|].
  split; [rewrite Hc2; exact Hc1|].
  split; [rewrite Hlen2; exact Hlen1|].
  split.
  { intros Hnil. rewrite Hnil in Hlen2. cbn in Hlen2.
    rewrite <- Hlen2 in Hlen1. unfold empty in He.
    rewrite filtered_rows in He.
    destruct (List.filter (keeps pattern pos) (rows dfraw)); [|discriminate Hlen1].
    destruct (columns _); discriminate He. }
  split.
  { assert (Hf : Py.upper freq = "Q" \/ Py.upper freq = "M" \/
                 Py.upper freq = "A")
      by (destruct (re_dict_Some _ _ Hre) as [?|[?|?]]; auto).
    specialize (Hidx Hf).
    unfold index in Hidx. rewrite List.Forall_map in Hidx.
    clear - Hidx Hfst Hfl.
    induction Hfst as [|r r' l l' Hr _ IH]; [constructor|].
    inversion Hidx; subst. inversion Hfl; subst.
    constructor; [|apply IH; assumption].
    split; [rewrite Hr; assumption|assumption]. }
  rewrite <- (List.Forall_map snd
                (fun cs => Forall (fun c => exists f, py_float c = ([], Return f)) cs))
    in Hok.
  rewrite Hrows1 in Hok.
  rewrite (List.Forall_map (fun r => delete pos (snd r))) in Hok. exact Hok.
Qed.

(** X8: whenever [from_ONS] returns a frame, the file was read, has the
    label column and the frequency is known; nothing was printed after the
    retrieval; the frame has the columns of the file but the label
    column, one row for each row the filter keeps and so at least one;
    every index entry is a timestamp and every cell is a float, each cell
    of the kept rows being one [float] accepts. *)
Theorem from_ONS_frame read_csv dataset series freq print_url out df :
  from_ONS read_csv dataset series freq print_url = (out, Return (Some df)) ->
  exists out0 dfraw pos pattern,
    read_csv (_retrieve_ONS_csv dataset series) = (out0, Return dfraw) /\
    position "Unnamed: 0" (columns dfraw) = Some pos /\
    re_dict !! Py.upper freq = Some pattern /\
    out = url_line dataset series print_url ++ out0 /\
    columns df = delete pos (columns dfraw) /\
    length (rows df) = length (List.filter (keeps pattern pos) (rows dfraw)) /\
    rows df <> [] /\
    Forall (fun r => is_time (fst r) = true /\
                     Forall (fun c => is_float c = true) (snd r)) (rows df) /\
    Forall (fun r => Forall (fun c => exists f, py_float c = ([], Return f))
                            (delete pos (snd r)))
           (List.filter (keeps pattern pos) (rows dfraw)).
Proof. exact (from_ONS_frame_inv read_csv dataset series freq print_url out df). Qed.

Lemma from_ONS_frame_witness :
  exists df,
    from_ONS (fun _ => ret sample) "qna" ["YBHA"] "a" true =
      (url_line "qna" ["YBHA"] true, Return (Some df)) /\
    exists out0 dfraw pos pattern,
      ret sample = (out0, Return dfraw) /\
      position "Unnamed: 0" (columns dfraw) = Some pos /\
      re_dict !! Py.upper "a" = Some pattern /\
      url_line "qna" ["YBHA"] true = url_line "qna" ["YBHA"] true ++ out0 /\
      columns df = delete pos (columns dfraw) /\
      length (rows df) = length (List.filter (keeps pattern pos) (rows dfraw)) /\
      rows df <> [] /\
      Forall (fun r => is_time (fst r) = true /\
                       Forall (fun c => is_float c = true) (snd r)) (rows df) /\
      Forall (fun r => Forall (fun c => exists f, py_float c = ([], Return f))
                              (delete pos (snd r)))
             (List.filter (keeps pattern pos) (rows dfraw)).
Proof.
  eexists. split; [vm_compute; reflexivity|].
  apply (from_ONS_frame (fun _ => ret sample) "qna" ["YBHA"] "a" true).
  vm_compute. reflexivity.
Defined.

(** ** Labels the filter keeps and the parser rejects *)

Lemma timeseries_index_reads_all df freq fmt pos out df' :
  _timeseries_index df freq = (out, Return df') ->
  (freq = "A" /\ fmt = Fmt_Y) \/ (freq = "M" /\ fmt = Fmt_Y_b) ->
  position "Unnamed: 0" (columns df) = Some pos ->
  Forall (fun r => exists o t,
            to_datetime1 fmt (IObj (cell pos r)) = (o, Return t)) (rows df).
Proof.
  intros H Hf Hpos. unfold _timeseries_index, set_index in H.
  rewrite Hpos in H. cbn [lookup_or] in H. rewrite !bind_ret in H.
  unfold index in H. cbn [rows] in H. rewrite map_map in H. cbn [fst] in H.
  assert (Hm : exists o ix,
            mapM (to_datetime1 fmt)
                 (map (fun r => IObj (cell pos r)) (rows df)) = (o, Return ix)).
  { destruct Hf as [[-> ->]|[-> ->]]; cbn [String.eqb Ascii.eqb Bool.eqb] in H;
      unfold to_datetime in H;
      destruct (mapM _ (map (fun r => IObj (cell pos r)) (rows df)))
        as [o [ix|e]]; try discriminate H; eauto. }
  destruct Hm as (o & ix & Hm). apply mapM_inv in Hm.
  clear H. remember (map (fun r => IObj (cell pos r)) (rows df)) as labels
    eqn:Hl.
  revert Hl. generalize (rows df) as rs.
  induction Hm as [|l t ls ts (o' & Hx) _ IH]; intros [|r rs] Hl;
    try discriminate Hl; constructor.
  - injection Hl as -> _. eauto.
  - apply IH. injection Hl as _ ->. reflexivity.
Qed.

(** X9: with the frequency [A] or [M], one kept row whose label the
    pattern finds but the date format does not read makes [from_ONS]
    raise: no frame comes back, not even for the other rows, and not
    [None]. *)
Theorem from_ONS_unreadable_label
    read_csv dataset series freq print_url out0 dfraw pos pattern fmt r s :
  read_csv (_retrieve_ONS_csv dataset series) = (out0, Return dfraw) ->
  position "Unnamed: 0" (columns dfraw) = Some pos ->
  re_dict !! Py.upper freq = Some pattern ->
  (Py.upper freq = "A" /\ fmt = Fmt_Y) \/
  (Py.upper freq = "M" /\ fmt = Fmt_Y_b) ->
  In r (rows dfraw) -> cell pos r = PStr s ->
  Re.search pattern s = true -> strptime fmt s = None ->
  exists out e,
    from_ONS read_csv dataset series freq print_url = (out, Raise e).
Proof.
  intros Hr Hpos Hre Hf Hin Hc Hs Hp.
  assert (Hk : In r (List.filter (keeps pattern pos) (rows dfraw))).
  { apply filter_In. split; [exact Hin|]. unfold keeps. rewrite Hc. exact Hs. }
  assert (Hstr : has_str (labels_at dfraw pos) = true).
  { apply (kept_has_str dfraw pattern pos r Hin). unfold keeps.
    rewrite Hc. exact Hs. }
  rewrite (from_ONS_read _ _ _ _ _ _ _ _ _ Hr Hpos Hre Hstr), bind_Return.
  cbn [fst snd].
  assert (He : empty (filtered dfraw pattern pos) = false).
  { unfold empty. rewrite filtered_rows.
    change (columns (filtered dfraw pattern pos)) with (columns dfraw).
    destruct (columns dfraw); [discriminate Hpos|].
    destruct (List.filter _ _); [destruct Hk|reflexivity]. }
  rewrite He.
  destruct (_timeseries_index (filtered dfraw pattern pos) (Py.upper freq))
    as [o1 [df1|e]] eqn:Ht.
  - exfalso.
    pose proof (timeseries_index_reads_all _ _ fmt pos _ _ Ht Hf Hpos) as Hall.
    rewrite filtered_rows, List.Forall_forall in Hall.
    destruct (Hall r Hk) as (o & t & Hd).
    rewrite Hc in Hd. unfold to_datetime1 in Hd. rewrite Hp in Hd.
    discriminate Hd.
  - unfold bind. cbn [fst snd]. eauto.
Qed.

Lemma from_ONS_unreadable_label_witness :
  exists out e,
    from_ONS (fun _ => ret sample_footer) "qna" ["YBHA"] "a" false =
      (out, Raise e).
Proof.
  apply (from_ONS_unreadable_label (fun _ => ret sample_footer) "qna" ["YBHA"]
           "a" false [] sample_footer 0%nat pattern_A Fmt_Y
           (IObj (PInt 2), [PStr "Crown copyright 2013"; nan])
           "Crown copyright 2013");
    try reflexivity.
  - left. split; reflexivity.
  - cbn. tauto.
Defined.

(** ** The start date of the Bank of England importer *)

Lemma days_in_month_other y y' m : m <> 2 -> days_in_month y' m = days_in_month y m.
Proof.
  intros H. unfold days_in_month.
  replace (m =? 2) with false by (symmetry; apply Z.eqb_neq; exact H).
  reflexivity.
Qed.

Lemma days_in_february y : 28 <= days_in_month y 2 <= 29.
Proof. unfold days_in_month. cbn. destruct (is_leap y); lia. Qed.

Lemma valid_day_spec y m d :
  valid_day y m d = true <->
  1 <= y <= 9999 /\ 1 <= m <= 12 /\ 1 <= d <= days_in_month y m.
Proof.
  unfold valid_day, valid_date. cbn [year month day].
  rewrite !andb_true_iff, !Z.leb_le. lia.
Qed.

Lemma days_in_month_le y m : days_in_month y m <= 31.
Proof.
  unfold days_in_month. destruct (m =? 2); [destruct (is_leap y); lia|].
  destruct (_ || _); lia.
Qed.

Lemma C_int_spec z : C_int z = true <-> - 2147483648 <= z <= 2147483647.
Proof.
  unfold C_int. change (2 ^ 31) with 2147483648.
  rewrite andb_true_iff, !Z.leb_le. lia.
Qed.

Lemma get_initial_date_ok now yearsback :
  valid_datetime now = true ->
  1 <= dt_year now - yearsback <= 9999 ->
  exists d,
    _get_initial_date now yearsback = ([], Return d) /\
    valid_datetime d = true /\
    dt_year d = dt_year now - yearsback /\
    dt_month d = dt_month now /\
    dt_day d = (if leap_day_lost now (dt_year now - yearsback)
                then 28 else dt_day now) /\
    same_time d now.
Proof.
  unfold valid_datetime. intros Hv Hy.
  apply valid_day_spec in Hv. destruct Hv as (_ & Hm & Hd).
  set (y' := dt_year now - yearsback) in *.
  pose proof (days_in_month_le (dt_year now) (dt_month now)) as H31.
  unfold _get_initial_date, datetime_replace. fold y'.
  replace (C_int y') with true by (symmetry; apply C_int_spec; lia).
  replace (C_int (dt_day now)) with true by (symmetry; apply C_int_spec; lia).
  replace (C_int (dt_day now - 1)) with true
    by (symmetry; apply C_int_spec; lia).
  cbn [andb negb].
  replace ((1 <=? y') && (y' <=? 9999)) with true
    by (symmetry; rewrite andb_true_iff, !Z.leb_le; lia).
  cbn [negb].
  unfold leap_day_lost.
  destruct (Z.eqb_spec (dt_month now) 2) as [H2|H2].
  - rewrite H2 in *. pose proof (days_in_february (dt_year now)) as Hf.
    pose proof (days_in_february y') as Hf'.
    destruct (Z.eqb_spec (dt_day now) 29) as [H29|H29].
    + destruct (is_leap y') eqn:Hl.
      * assert (Hok : valid_day y' 2 (dt_day now) = true).
        { apply valid_day_spec. unfold days_in_month. cbn. rewrite Hl. lia. }
        rewrite Hok. cbn.
        eexists. split; [reflexivity|]. cbn.
        repeat split; try reflexivity; try assumption; try congruence; try lia.
      * assert (Hbad : valid_day y' 2 (dt_day now) = false).
        { apply not_true_is_false. intros Hc. apply valid_day_spec in Hc.
          unfold days_in_month in Hc. cbn in Hc. rewrite Hl in Hc. lia. }
        assert (Hok : valid_day y' 2 (dt_day now - 1) = true).
        { apply valid_day_spec. lia. }
        rewrite Hbad, Hok. cbn.
        eexists. split; [reflexivity|]. cbn.
        repeat split; try reflexivity; try assumption; try congruence; try lia.
    + assert (Hok : valid_day y' 2 (dt_day now) = true).
      { apply valid_day_spec. lia. }
      rewrite Hok. cbn.
      eexists. split; [reflexivity|]. cbn.
      repeat split; try reflexivity; try assumption; try congruence; try lia.
  - assert (Hok : valid_day y' (dt_month now) (dt_day now) = true).
    { apply valid_day_spec.
      rewrite (days_in_month_other (dt_year now) y' _ H2). lia. }
    rewrite Hok. cbn.
    eexists. split; [reflexivity|]. cbn.
    repeat split; try reflexivity; try assumption; try congruence; try lia.
Qed.

(** X10: from a valid date, as long as the year [yearsback] years before
    is a year from 1 to 9999, [_get_initial_date] prints nothing and
    returns a valid date in that year, in the same month and at the same
    time of day; the day is the same, but for the 29th of February moved
    to a year that is not a leap year, which gives the 28th. *)
Theorem get_initial_date_years_back now yearsback :
  valid_datetime now = true ->
  1 <= dt_year now - yearsback <= 9999 ->
  exists d,
    _get_initial_date now yearsback = ([], Return d) /\
    valid_datetime d = true /\
    dt_year d = dt_year now - yearsback /\
    dt_month d = dt_month now /\
    dt_day d = (if leap_day_lost now (dt_year now - yearsback)
                then 28 else dt_day now) /\
    same_time d now.
Proof. exact (get_initial_date_ok now yearsback). Qed.

Lemma get_initial_date_years_back_witness :
  exists d,
    _get_initial_date leap_noon 5 = ([], Return d) /\
    valid_datetime d = true /\
    dt_year d = dt_year leap_noon - 5 /\
    dt_month d = dt_month leap_noon /\
    dt_day d = (if leap_day_lost leap_noon (dt_year leap_noon - 5)
                then 28 else dt_day leap_noon) /\
    same_time d leap_noon.
Proof.
  apply (get_initial_date_years_back leap_noon 5); [reflexivity|].
  cbn. lia.
Defined.

Lemma get_initial_date_raises now yearsback :
  valid_datetime now = true ->
  (- 2147483648 <= dt_year now - yearsback <= 2147483647 ->
   dt_year now - yearsback < 1 \/ 9999 < dt_year now - yearsback ->
   _get_initial_date now yearsback =
     ([], Raise (ValueError ("year " +:+ Py.str_of_Z (dt_year now - yearsback)
                             +:+ " is out of range")))) /\
  (dt_year now - yearsback < - 2147483648 \/
   2147483647 < dt_year now - yearsback ->
   _get_initial_date now yearsback = ([], Raise OverflowError)).
Proof.
  unfold valid_datetime. intros Hv. apply valid_day_spec in Hv.
  destruct Hv as (_ & _ & Hd).
  pose proof (days_in_month_le (dt_year now) (dt_month now)) as H31.
  unfold _get_initial_date, datetime_replace.
  replace (C_int (dt_day now)) with true by (symmetry; apply C_int_spec; lia).
  replace (C_int (dt_day now - 1)) with true
    by (symmetry; apply C_int_spec; lia).
  split.
  - intros Hc H.
    replace (C_int (dt_year now - yearsback)) with true
      by (symmetry; apply C_int_spec; lia).
    replace ((1 <=? dt_year now - yearsback)
             && (dt_year now - yearsback <=? 9999)) with false
      by (symmetry; rewrite andb_false_iff, !Z.leb_gt; lia).
    reflexivity.
  - intros H.
    replace (C_int (dt_year now - yearsback)) with false; [reflexivity|].
    symmetry. apply not_true_is_false. intros Hc. apply C_int_spec in Hc. lia.
Qed.

(** X11: on a valid day, when the year [yearsback] years before is not a
    year from 1 to 9999, [_get_initial_date] raises. While that year fits
    a C [int] it raises [ValueError] for the year: the second attempt, a
    day earlier, fails like the first. Beyond, [replace] raises
    [OverflowError], which the handler does not catch. *)
Theorem get_initial_date_year_out_of_range now yearsback :
  valid_datetime now = true ->
  (- 2147483648 <= dt_year now - yearsback <= 2147483647 ->
   dt_year now - yearsback < 1 \/ 9999 < dt_year now - yearsback ->
   _get_initial_date now yearsback =
     ([], Raise (ValueError ("year " +:+ Py.str_of_Z (dt_year now - yearsback)
                             +:+ " is out of range")))) /\
  (dt_year now - yearsback < - 2147483648 \/
   2147483647 < dt_year now - yearsback ->
   _get_initial_date now yearsback = ([], Raise OverflowError)).
Proof. exact (get_initial_date_raises now yearsback). Qed.

Lemma get_initial_date_year_out_of_range_witness :
  _get_initial_date leap_noon 2024 =
    ([], Raise (ValueError ("year " +:+ Py.str_of_Z (dt_year leap_noon - 2024)
                            +:+ " is out of range"))) /\
  _get_initial_date leap_noon (- 10000000000) = ([], Raise OverflowError).
Proof.
  split.
  - apply (get_initial_date_year_out_of_range leap_noon 2024);
      [reflexivity|cbn; lia|cbn; lia].
  - apply (get_initial_date_year_out_of_range leap_noon (- 10000000000));
      [reflexivity|cbn; lia].
Defined.

(** ** The address the Bank of England importer asks for *)

Lemma forallb_Z_range (p : Z -> bool) (lo n : Z) :
  forallb p (map (fun k => lo + Z.of_nat k) (seq 0 (Z.to_nat n))) = true ->
  forall z, lo <= z < lo + n -> p z = true.
Proof.
  intros H z Hz. rewrite forallb_forall in H. apply H.
  apply in_map_iff. exists (Z.to_nat (z - lo)). split; [lia|].
  apply in_seq. lia.
Qed.

Lemma day_text d :
  1 <= d <= 31 ->
  exists a b, Strftime.two_digits d = text [a; b] /\ digit a /\ digit b /\
              10 * Py.digit_val a + Py.digit_val b = d.
Proof.
  intros Hd.
  assert (H : day_text_ok d = true).
  { apply (forallb_Z_range day_text_ok 1 31); [vm_compute; reflexivity|lia]. }
  unfold day_text_ok in H.
  destruct (list_ascii_of_string (Strftime.two_digits d))
    as [|a [|b [|? ?]]] eqn:E; try discriminate H.
  apply andb_prop in H. destruct H as [H H3].
  apply andb_prop in H. destruct H as [H1 H2].
  exists a, b. repeat split; try assumption.
  - unfold text. rewrite <- E. symmetry. apply string_of_list_ascii_of_string.
  - apply Z.eqb_eq. exact H3.
Qed.

Lemma month_text m :
  1 <= m <= 12 ->
  Strptime.month_of_abbr (nth (Z.to_nat (m - 1)) Strftime.month_abbr "") =
  Some m.
Proof.
  intros Hm.
  assert (H : month_text_ok m = true).
  { apply (forallb_Z_range month_text_ok 1 12); [vm_compute; reflexivity|lia]. }
  unfold month_text_ok in H.
  destruct (Strptime.month_of_abbr _) as [m'|]; [|discriminate H].
  apply Z.eqb_eq in H. congruence.
Qed.

Lemma year_text y :
  1000 <= y <= 9999 ->
  exists a b c d, Py.str_of_Z y = text [a; b; c; d] /\
    digit a /\ digit b /\ digit c /\ digit d /\ year_value a b c d = y.
Proof.
  intros Hy.
  assert (H : year_text_ok y = true).
  { apply (forallb_Z_range year_text_ok 1000 9000);
      [vm_compute; reflexivity|lia]. }
  unfold year_text_ok in H.
  destruct (list_ascii_of_string (Py.str_of_Z y))
    as [|a [|b [|c [|d [|? ?]]]]] eqn:E; try discriminate H.
  do 4 (apply andb_prop in H; destruct H as [H ?]).
  exists a, b, c, d. repeat split; try assumption.
  - unfold text. rewrite <- E. symmetry. apply string_of_list_ascii_of_string.
  - apply Z.eqb_eq. assumption.
Qed.

(** X12: for a valid date from the year 1000 on, the text [from_BoE]
    puts in the address is two digits that write the day, a slash, the
    abbreviation of the month, a slash and four digits that write the
    year. *)
Theorem strftime_day_month_year dt :
  valid_datetime dt = true -> 1000 <= dt_year dt ->
  exists a b mon y1 y2 y3 y4,
    Strftime.d_b_Y dt =
      text [a; b] +:+ "/" +:+ mon +:+ "/" +:+ text [y1; y2; y3; y4] /\
    digit a /\ digit b /\ 10 * Py.digit_val a + Py.digit_val b = dt_day dt /\
    Strptime.month_of_abbr mon = Some (dt_month dt) /\
    digit y1 /\ digit y2 /\ digit y3 /\ digit y4 /\
    year_value y1 y2 y3 y4 = dt_year dt.
Proof.
  unfold valid_datetime. intros Hv Hy. apply valid_day_spec in Hv.
  destruct Hv as (Hy' & Hm & Hd).
  assert (Hd' : 1 <= dt_day dt <= 31).
  { split; [lia|]. unfold days_in_month in Hd.
    destruct (dt_month dt =? 2); [destruct (is_leap _); lia|].
    destruct (_ || _); lia. }
  destruct (day_text _ Hd') as (a & b & Ed & Ha & Hb & Hab).
  destruct (year_text (dt_year dt)) as (y1 & y2 & y3 & y4 & Ey & H1 & H2 & H3 & H4 & Hyv);
    [lia|].
  exists a, b, (nth (Z.to_nat (dt_month dt - 1)) Strftime.month_abbr ""),
    y1, y2, y3, y4.
  split; [unfold Strftime.d_b_Y; rewrite Ed, Ey; reflexivity|].
  repeat split; try assumption. apply month_text. exact Hm.
Qed.

Lemma strftime_day_month_year_witness :
  exists a b mon y1 y2 y3 y4,
    Strftime.d_b_Y leap_noon =
      text [a; b] +:+ "/" +:+ mon +:+ "/" +:+ text [y1; y2; y3; y4] /\
    digit a /\ digit b /\
    10 * Py.digit_val a + Py.digit_val b = dt_day leap_noon /\
    Strptime.month_of_abbr mon = Some (dt_month leap_noon) /\
    digit y1 /\ digit y2 /\ digit y3 /\ digit y4 /\
    year_value y1 y2 y3 y4 = dt_year leap_noon.
Proof.
  apply (strftime_day_month_year leap_noon); [reflexivity|cbn; lia].
Defined.

Lemma from_BoE_from now read_csv series d yearsback vpd :
  from_BoE now read_csv series (Some d) yearsback vpd =
  retrieved read_csv (boe_url d series vpd).
Proof.
  unfold from_BoE, retrieved. rewrite bind_ret.
  change ("http://www.bankofengland.co.uk/boeapps/iadb/fromshowcolumns.asp?csv.x=yes&Datefrom="
          +:+ Strftime.d_b_Y d +:+ "&Dateto=" +:+ "now" +:+ "&SeriesCodes="
          +:+ Py.join "," series +:+ "&UsingCodes=" +:+ "Y" +:+ "&CSVF="
          +:+ "TN" +:+ "&VPD=" +:+ vpd)
    with (boe_url d series vpd).
  unfold print. rewrite bind_Return. cbn [fst snd app].
  destruct (read_csv (boe_url d series vpd)); reflexivity.
Qed.

(** X13: [from_BoE] prints the address, then retrieves it, and its
    outcome is that of the retrieval. With a start date given, the clock
    and [yearsback] play no part. With none, on a valid day, it asks from
    the date [yearsback] years before, the 28th of February standing for a
    29th that year lacks; and when that year is not a year from 1 to 9999
    it raises, printing and retrieving nothing: [ValueError] while the
    year fits a C [int], [OverflowError] beyond. *)
Theorem from_BoE_start_date now read_csv series yearsback vpd :
  valid_datetime now = true ->
  (forall d now' yearsback',
     from_BoE now read_csv series (Some d) yearsback vpd =
       retrieved read_csv (boe_url d series vpd) /\
     from_BoE now' read_csv series (Some d) yearsback' vpd =
       from_BoE now read_csv series (Some d) yearsback vpd) /\
  (1 <= dt_year now - yearsback <= 9999 ->
     from_BoE now read_csv series None yearsback vpd =
       retrieved read_csv (boe_url (years_before now yearsback) series vpd)) /\
  (- 2147483648 <= dt_year now - yearsback <= 2147483647 ->
   dt_year now - yearsback < 1 \/ 9999 < dt_year now - yearsback ->
     exists what,
       from_BoE now read_csv series None yearsback vpd =
         ([], Raise (ValueError what))) /\
  (dt_year now - yearsback < - 2147483648 \/
   2147483647 < dt_year now - yearsback ->
     from_BoE now read_csv series None yearsback vpd =
       ([], Raise OverflowError)).
Proof.
  intros Hv. split; [|split; [|split]].
  - intros d now' yearsback'. rewrite !from_BoE_from. split; reflexivity.
  - intros Hy.
    destruct (get_initial_date_ok now yearsback Hv Hy)
      as (d & Hd & _ & H1 & H2 & H3 & H4 & H5 & H6 & H7).
    assert (Ed : d = years_before now yearsback).
    { unfold years_before. destruct d. cbn in *. congruence. }
    rewrite <- (from_BoE_from now read_csv series _ yearsback vpd), <- Ed.
    unfold from_BoE. rewrite Hd. reflexivity.
  - intros Hc Hy. eexists. unfold from_BoE.
    rewrite (proj1 (get_initial_date_raises now yearsback Hv) Hc Hy).
    reflexivity.
  - intros Hy. unfold from_BoE.
    rewrite (proj2 (get_initial_date_raises now yearsback Hv) Hy).
    reflexivity.
Qed.

Lemma from_BoE_start_date_witness :
  (forall d now' yearsback',
     from_BoE leap_noon (fun _ => ret sample) ["LPMAUZI"] (Some d) 5 "y" =
       retrieved (fun _ => ret sample) (boe_url d ["LPMAUZI"] "y") /\
     from_BoE now' (fun _ => ret sample) ["LPMAUZI"] (Some d) yearsback' "y" =
       from_BoE leap_noon (fun _ => ret sample) ["LPMAUZI"] (Some d) 5 "y") /\
  from_BoE leap_noon (fun _ => ret sample) ["LPMAUZI"] None 5 "y" =
    retrieved (fun _ => ret sample)
      (boe_url (years_before leap_noon 5) ["LPMAUZI"] "y") /\
  (exists what,
     from_BoE leap_noon (fun _ => ret sample) ["LPMAUZI"] None 3000 "y" =
       ([], Raise (ValueError what))) /\
  from_BoE leap_noon (fun _ => ret sample) ["LPMAUZI"] None (- 10000000000) "y" =
    ([], Raise OverflowError).
Proof.
  split; [|split; [|split]].
  - apply (from_BoE_start_date leap_noon (fun _ => ret sample) ["LPMAUZI"] 5 "y").
    reflexivity.
  - apply (from_BoE_start_date leap_noon (fun _ => ret sample) ["LPMAUZI"] 5 "y");
      [reflexivity|cbn; lia].
  - apply (from_BoE_start_date leap_noon (fun _ => ret sample) ["LPMAUZI"]
             3000 "y"); [reflexivity|cbn; lia|cbn; lia].
  - apply (from_BoE_start_date leap_noon (fun _ => ret sample) ["LPMAUZI"]
             (- 10000000000) "y"); [reflexivity|cbn; lia].
Defined.

(** ** The datasets and the selections of [from_IMF] *)

(** X14: a dataset name that, in small letters and without the white
    space around it, is neither [weo] nor [pubfin] makes [from_IMF] raise
    [ValueError] at once, whatever the selection: neither download is
    started. A known name starts its own download only, and a failed
    download is the outcome. *)
Theorem from_IMF_dataset strict_loc weo pubfin dataset series countries :
  (Py.strip (Py.lower dataset) <> "weo" ->
   Py.strip (Py.lower dataset) <> "pubfin" ->
   from_IMF strict_loc weo pubfin dataset series countries =
     ([], Raise (ValueError "Unrecognised dataset."))) /\
  (forall out e pubfin',
     Py.strip (Py.lower dataset) = "weo" -> weo = (out, Raise e) ->
     from_IMF strict_loc weo pubfin' dataset series countries = (out, Raise e)) /\
  (forall out e weo',
     Py.strip (Py.lower dataset) = "pubfin" -> pubfin = (out, Raise e) ->
     from_IMF strict_loc weo' pubfin dataset series countries = (out, Raise e)).
Proof.
  unfold from_IMF. split; [|split].
  - intros Hw Hp.
    destruct (String.eqb_spec (Py.strip (Py.lower dataset)) "weo");
      [contradiction|].
    destruct (String.eqb_spec (Py.strip (Py.lower dataset)) "pubfin");
      [contradiction|].
    reflexivity.
  - intros out e pubfin' -> ->. reflexivity.
  - intros out e weo' -> ->. reflexivity.
Qed.

Lemma from_IMF_dataset_witness :
  from_IMF false (ret sample_panel) (ret sample_panel) "WEO2013"
           (Some ["X"]) None =
    ([], Raise (ValueError "Unrecognised dataset.")) /\
  from_IMF false ([], Raise TransportError) (ret sample_panel) " WEO"
           (Some ["X"]) None = ([], Raise TransportError) /\
  from_IMF false (ret sample_panel) ([], Raise TransportError) "PubFin"
           None None = ([], Raise TransportError).
Proof.
  split; [|split].
  - apply (proj1 (from_IMF_dataset false (ret sample_panel) (ret sample_panel)
                    "WEO2013" (Some ["X"]) None)); vm_compute; discriminate.
  - apply (proj1 (proj2 (from_IMF_dataset false ([], Raise TransportError)
                           (ret sample_panel) " WEO" (Some ["X"]) None)));
      reflexivity.
  - apply (proj2 (proj2 (from_IMF_dataset false (ret sample_panel)
                           ([], Raise TransportError) "PubFin" None None)));
      reflexivity.
Defined.

Lemma bind_Return_nil {A B} (a : A) (k : A -> M B) :
  bind ([], Return a) k = k a.
Proof. apply (bind_ret a k). Qed.

Lemma locate_inv strict_loc axis key out found :
  locate strict_loc axis key = (out, Return found) ->
  out = [] /\ found = map (fun k => position k axis) key.
Proof.
  unfold locate. destruct key as [|k key].
  - intros H. injection H as <- <-. auto.
  - destruct (forallb is_none _); [discriminate|].
    destruct (strict_loc && existsb is_none _); [discriminate|].
    intros H. injection H as <- <-. auto.
Qed.

Lemma known_self key : known key key.
Proof. unfold known. apply List.Forall_forall. auto. Qed.

Lemma take_self {A} (g : string -> A) (filler : A) (key : list string) :
  take filler (map (fun k => position k key) key) (map g key) = map g key.
Proof.
  unfold take. rewrite map_map. apply map_ext_in. intros k Hk.
  destruct (position_In _ _ Hk) as (n & Hn). rewrite Hn.
  apply position_lookup in Hn.
  apply nth_lookup_Some. rewrite list_lookup_fmap, Hn. reflexivity.
Qed.

Lemma take_as_map {A} (filler : A) axis key (l : list A) :
  take filler (map (fun k => position k axis) key) l =
  map (fun k => match position k axis with
                | Some n => nth n l filler
                | None => filler
                end) key.
Proof. unfold take. rewrite map_map. reflexivity. Qed.

Lemma loc_items_again strict_loc p key found :
  found = map (fun k => position k (items p)) key ->
  let frame := repeat (repeat nan (length (minor_axis p)))
                      (length (major_axis p)) in
  let p' := mkPanel key (major_axis p) (minor_axis p)
              (take frame found (values p)) in
  loc strict_loc p' (Labels key) Slice = ([], Return p').
Proof.
  intros -> frame p'. unfold loc. cbn [items major_axis minor_axis values p'].
  destruct (locate_known strict_loc key key (known_self key)) as [-> _].
  rewrite !bind_ret. unfold p'.
  rewrite (take_as_map frame (items p) key (values p)), take_self.
  reflexivity.
Qed.

Lemma loc_major_again strict_loc p key found :
  found = map (fun k => position k (major_axis p)) key ->
  let row := repeat nan (length (minor_axis p)) in
  let p' := mkPanel (items p) key (minor_axis p)
              (map (take row found) (values p)) in
  loc strict_loc p' Slice (Labels key) = ([], Return p').
Proof.
  intros -> row p'. unfold loc. cbn [items major_axis minor_axis values p'].
  rewrite bind_ret. cbn [major_axis].
  destruct (locate_known strict_loc key key (known_self key)) as [-> _].
  rewrite !bind_ret. unfold p'.
  assert (E : map (take row (map (fun k => position k key) key))
                (map (take row (map (fun k => position k (major_axis p)) key))
                     (values p)) =
              map (take row (map (fun k => position k (major_axis p)) key))
                  (values p)).
  { rewrite map_map. apply map_ext. intros f.
    rewrite (take_as_map row (major_axis p) key f). apply take_self. }
  cbn [items major_axis minor_axis values]. fold row. rewrite E. reflexivity.
Qed.

(** X15: selecting again what was selected changes nothing: for a panel
    with distinct labels on its axes and a selection by distinct labels,
    when [select_panel] returns a panel, the same selection on that panel
    returns it unchanged. *)
Theorem select_panel_again strict_loc p series countries out p' :
  List.NoDup (items p) -> List.NoDup (major_axis p) ->
  distinct_sel series -> distinct_sel countries ->
  select_panel strict_loc p series countries = (out, Return p') ->
  out = [] /\
  select_panel strict_loc p' series countries = ([], Return p').
Proof.
  intros _ _ _ _.
  unfold select_panel. destruct series as [series|], countries as [countries|].
  - unfold loc at 1.
    destruct (locate strict_loc (items p) series) as [o0 [f0|e]] eqn:E0;
      [|discriminate].
    apply locate_inv in E0. destruct E0 as [-> E0].
    rewrite ?bind_ret, ?bind_Return_nil. cbn [major_axis items values].
    destruct (locate strict_loc (major_axis p) countries) as [o1 [f1|e]] eqn:E1;
      [|discriminate].
    apply locate_inv in E1. destruct E1 as [-> E1].
    rewrite ?bind_ret, ?bind_Return_nil. intros H. injection H as <- <-.
    split; [reflexivity|].
    unfold loc. cbn [items major_axis minor_axis values].
    destruct (locate_known strict_loc series series (known_self series))
      as [-> _].
    destruct (locate_known strict_loc countries countries (known_self countries))
      as [-> _].
    rewrite ?bind_ret, ?bind_Return_nil. cbn [items major_axis minor_axis values].
    subst f0 f1.
    set (row := repeat nan (length (minor_axis p))).
    set (frame := repeat row (length (major_axis p))).
    set (frame' := repeat row (length countries)).
    set (t1 := take row (map (fun k => position k (major_axis p)) countries)).
    assert (E0 : take frame' (map (fun k => position k series) series)
                   (map t1 (take frame
                              (map (fun k => position k (items p)) series)
                              (values p))) =
                 map t1 (take frame
                           (map (fun k => position k (items p)) series)
                           (values p))).
    { rewrite (take_as_map frame (items p) series (values p)), map_map.
      apply take_self. }
    rewrite E0.
    assert (E1 : map (take row (map (fun k => position k countries) countries))
                   (map t1 (take frame
                              (map (fun k => position k (items p)) series)
                              (values p))) =
                 map t1 (take frame
                           (map (fun k => position k (items p)) series)
                           (values p))).
    { rewrite map_map. apply map_ext. intros f. unfold t1.
      rewrite (take_as_map row (major_axis p) countries f). apply take_self. }
    rewrite E1. reflexivity.
  - unfold loc at 1.
    destruct (locate strict_loc (items p) series) as [o0 [f0|e]] eqn:E0;
      [|discriminate].
    apply locate_inv in E0. destruct E0 as [-> E0].
    rewrite ?bind_ret, ?bind_Return_nil. intros H. injection H as <- <-.
    split; [reflexivity|]. apply loc_items_again. exact E0.
  - unfold loc at 1. rewrite ?bind_ret, ?bind_Return_nil.
    destruct (locate strict_loc (major_axis p) countries) as [o1 [f1|e]] eqn:E1;
      [|discriminate].
    apply locate_inv in E1. destruct E1 as [-> E1].
    rewrite ?bind_ret, ?bind_Return_nil. intros H. injection H as <- <-.
    split; [reflexivity|]. apply loc_major_again. exact E1.
  - intros H. injection H as <- <-. auto.
Qed.

Lemma select_panel_again_witness :
  [] = @nil string /\
  select_panel false
    (mkPanel ["Y"; "W"] ["FR"] [PStr "2000"; PStr "2001"]
       [[[PFloat float_2_5; PFloat float_2_5]]; [[nan; nan]]])
    (Some ["Y"; "W"]) (Some ["FR"]) =
  ([], Return
     (mkPanel ["Y"; "W"] ["FR"] [PStr "2000"; PStr "2001"]
        [[[PFloat float_2_5; PFloat float_2_5]]; [[nan; nan]]])).
Proof.
  apply (select_panel_again false sample_panel (Some ["Y"; "W"]) (Some ["FR"]));
    try reflexivity;
    repeat (apply List.NoDup_cons;
            [cbn [In]; intros H;
             repeat (destruct H as [H|H]; [discriminate H|]); exact H|]);
    apply List.NoDup_nil.
Defined.

(** ** The columns kept from the WEO table *)

Lemma weo_keep_cols_filter column_values :
  weo_keep_cols column_values =
  ["WEO Subject Code"; "Country"] ++ List.filter isdigit column_values.
Proof.
  unfold weo_keep_cols. generalize ["WEO Subject Code"; "Country"] as acc.
  induction column_values as [|i l IH]; intros acc; cbn [fold_left List.filter].
  - rewrite app_nil_r. reflexivity.
  - rewrite IH. destruct (isdigit i); [|reflexivity].
    rewrite <- app_assoc. reflexivity.
Qed.

Lemma mapM_positions cols names :
  Forall (fun n => In n cols) names ->
  exists places,
    mapM (fun n => lookup_or (KeyError n) (position n cols)) names = ret places /\
    Forall2 (fun n p => position n cols = Some p) names places.
Proof.
  induction 1 as [|n names Hn _ (places & IH1 & IH2)].
  - exists []. split; [reflexivity|constructor].
  - destruct (position_In _ _ Hn) as (p & Hp). exists (p :: places).
    split; [|constructor; assumption].
    cbn [mapM]. rewrite Hp. cbn [lookup_or]. rewrite bind_ret, IH1, bind_ret.
    reflexivity.
Qed.

(** X16: when the table, its column names distinct, has the columns
    [WEO Subject Code] and [Country], dropping the unneeded columns does
    not fail, whatever the other columns are: the frame has these two
    columns, then the columns named by digits only, in the order of the
    table; it has the same index, and under each kept name the cells the
    table has under that name. *)
Theorem weo_dropped_columns dfraw :
  List.NoDup (columns dfraw) ->
  In "WEO Subject Code" (columns dfraw) -> In "Country" (columns dfraw) ->
  exists df,
    weo_dropped dfraw = ([], Return df) /\
    columns df =
      ["WEO Subject Code"; "Country"] ++ List.filter isdigit (columns dfraw) /\
    index df = index dfraw /\
    (forall name, In name (columns df) -> getitem df name = getitem dfraw name).
Proof.
  intros _ Hs Hc. unfold weo_dropped, getitem_list.
  rewrite weo_keep_cols_filter.
  set (names := ["WEO Subject Code"; "Country"] ++ _).
  assert (Hall : Forall (fun n => In n (columns dfraw)) names).
  { unfold names. apply List.Forall_forall. intros n Hn.
    apply in_app_or in Hn. destruct Hn as [[<-|[<-|[]]]|Hn]; try assumption.
    apply filter_In in Hn. tauto. }
  destruct (mapM_positions _ _ Hall) as (places & Hm & Hp).
  rewrite Hm, bind_ret. eexists. split; [reflexivity|].
  split; [reflexivity|]. split.
  { unfold index. cbn [rows]. rewrite map_map. reflexivity. }
  intros name Hin. cbn [columns] in Hin. unfold getitem. cbn [columns rows].
  destruct (position_In _ _ Hin) as (j & Hj). rewrite Hj.
  assert (Hd : In name (columns dfraw))
    by (rewrite List.Forall_forall in Hall; apply Hall; exact Hin).
  destruct (position_In _ _ Hd) as (p & Hpos). rewrite Hpos.
  cbn [lookup_or]. rewrite !bind_ret. f_equal.
  rewrite map_map. apply map_ext. intros r. unfold cell. cbn [snd].
  apply position_lookup in Hj.
  destruct (Forall2_lookup_l _ _ _ _ _ Hp Hj) as (p' & Hp' & Hpp).
  rewrite Hpos in Hpp. injection Hpp as <-.
  apply nth_lookup_Some. rewrite list_lookup_fmap, Hp'. reflexivity.
Qed.

Lemma weo_dropped_columns_witness :
  exists df,
    weo_dropped sample_weo = ([], Return df) /\
    columns df =
      ["WEO Subject Code"; "Country"] ++ List.filter isdigit (columns sample_weo) /\
    index df = index sample_weo /\
    (forall name, In name (columns df) -> getitem df name = getitem sample_weo name).
Proof.
  apply (weo_dropped_columns sample_weo); [|cbn; tauto|cbn; tauto].
  repeat (apply List.NoDup_cons;
          [cbn [In columns sample_weo]; intros H;
           repeat (destruct H as [H|H]; [discriminate H|]); exact H|]);
    apply List.NoDup_nil.
Defined.

(** X17: without the column [WEO Subject Code] the dropping raises
    [KeyError] for it; with it and without the column [Country], it raises
    [KeyError] for [Country]. *)
Theorem weo_dropped_missing_key dfraw :
  (~ In "WEO Subject Code" (columns dfraw) ->
   weo_dropped dfraw = ([], Raise (KeyError "WEO Subject Code"))) /\
  (In "WEO Subject Code" (columns dfraw) -> ~ In "Country" (columns dfraw) ->
   weo_dropped dfraw = ([], Raise (KeyError "Country"))).
Proof.
  unfold weo_dropped, getitem_list. rewrite weo_keep_cols_filter.
  cbn [app mapM]. split.
  - intros H. rewrite (position_not_In _ _ H). reflexivity.
  - intros Hs Hc. destruct (position_In _ _ Hs) as (p & ->).
    cbn [lookup_or]. rewrite bind_ret, (position_not_In _ _ Hc). reflexivity.
Qed.

Lemma weo_dropped_missing_key_witness :
  weo_dropped sample = ([], Raise (KeyError "WEO Subject Code")) /\
  weo_dropped (mkDataFrame ["WEO Subject Code"; "1980"] []) =
    ([], Raise (KeyError "Country")).
Proof.
  split.
  - apply (proj1 (weo_dropped_missing_key sample)).
    cbn. intros [H|[H|[]]]; discriminate H.
  - apply (proj2 (weo_dropped_missing_key
                    (mkDataFrame ["WEO Subject Code"; "1980"] []))).
    + cbn. tauto.
    + cbn. intros [H|[H|[]]]; discriminate H.
Defined.

(** ** The coercion of the WEO cells *)

Lemma mapM_raise_of {A B} (P : exn -> Prop) (f : A -> M B) (l : list A) out e :
  (forall x o e', f x = (o, Raise e') -> P e') ->
  mapM f l = (out, Raise e) -> P e.
Proof.
  intros Hf. revert out. induction l as [|x l IH]; intros out H;
    [discriminate H|].
  cbn [mapM] in H. destruct (f x) as [o1 [y|e1]] eqn:Hx.
  - rewrite bind_Return in H.
    destruct (mapM f l) as [o2 [ys|e2]] eqn:E.
    + rewrite bind_Return in H. discriminate H.
    + cbn in H. injection H as _ <-. eapply IH. reflexivity.
  - cbn in H. injection H as _ <-. eapply Hf. exact Hx.
Qed.

Lemma float_convert_raises o out e :
  float_convert o = (out, Raise e) -> exists what, e = ValueError what.
Proof.
  destruct o as [t|f|z|b|]; try discriminate.
  rewrite float_convert_text.
  destruct (PyFloat.parse (without_commas t)); [discriminate|].
  intros H. injection H as _ <-. eauto.
Qed.

Lemma float_convert_returns o out v :
  float_convert o = (out, Return v) ->
  float_or_None v = true /\
  match v with PFloat _ => true | _ => false end = made_float o.
Proof.
  destruct o as [t|f|z|b|]; try (intros H; injection H as _ <-; split; reflexivity).
  rewrite float_convert_text.
  destruct (PyFloat.parse (without_commas t)); [|discriminate].
  intros H; injection H as _ <-; split; reflexivity.
Qed.

Lemma infer_objects_results (rs : list (idx * list pyobj)) j column :
  Forall2 (fun r v => exists o, float_convert (nth j (snd r) nan) = (o, Return v))
          rs column ->
  infer_objects column =
    map (shown (existsb (fun r => made_float (nth j (snd r) nan)) rs)) column.
Proof.
  intros H.
  assert (Hall : forallb float_or_None column = true /\
                 holds_float column =
                   existsb (fun r => made_float (nth j (snd r) nan)) rs).
  { induction H as [|r v rs column (o & Hv) _ (IH1 & IH2)]; [split; reflexivity|].
    apply float_convert_returns in Hv. destruct Hv as (H1 & H2).
    unfold holds_float in *. cbn [forallb existsb].
    rewrite H1, IH1, H2, IH2. split; reflexivity. }
  destruct Hall as (Hf & Hh). unfold infer_objects. rewrite Hf, Hh.
  cbn [andb].
  destruct (existsb _ rs) eqn:Ex.
  - apply map_ext. intros [| | | |]; reflexivity.
  - rewrite <- (map_id column) at 1. apply map_ext_in. intros v Hv.
    rewrite forallb_forall in Hf. specialize (Hf v Hv).
    destruct v; try discriminate Hf; reflexivity.
Qed.

Lemma weo_typed_inv df out df' :
  weo_typed df = (out, Return df') ->
  columns df' = columns df /\
  Forall2 (fun r r' =>
             fst r' = fst r /\ length (snd r') = length (columns df) /\
             forall j, (j < length (columns df))%nat ->
               exists o v,
                 float_convert (nth j (snd r) nan) = (o, Return v) /\
                 nth j (snd r') nan = shown (float_column df j) v)
          (rows df) (rows df').
Proof.
  unfold weo_typed, applymap.
  destruct (mapM _ (seq 0 (length (columns df)))) as [o [cols|e]] eqn:E;
    [|discriminate].
  rewrite bind_Return. cbn. intros H. injection H as _ <-. cbn [columns rows].
  split; [reflexivity|].
  apply mapM_inv in E.
  pose proof (Forall2_length _ _ _ E) as Hlen. rewrite length_seq in Hlen.
  apply Forall2_same_length_lookup_2; [rewrite length_imap; reflexivity|].
  intros i r r' Hr Hr'. rewrite list_lookup_imap, Hr in Hr'.
  injection Hr' as <-. cbn [fst snd].
  split; [reflexivity|]. split; [rewrite length_map; symmetry; exact Hlen|].
  intros j Hj.
  assert (Hsj : seq 0 (length (columns df)) !! j = Some j).
  { rewrite lookup_seq. split; [reflexivity|exact Hj]. }
  destruct (Forall2_lookup_l _ _ _ _ _ E Hsj) as (col & Hcol & (o' & Hm)).
  destruct (mapM _ (rows df)) as [o1 [column|e1]] eqn:Em; [|discriminate Hm].
  rewrite bind_Return in Hm. injection Hm as _ <-.
  apply mapM_inv in Em.
  rewrite (infer_objects_results (rows df) j column Em) in Hcol.
  destruct (Forall2_lookup_l _ _ _ _ _ Em Hr) as (v & Hv & (o'' & Hf)).
  exists o'', v. split; [exact Hf|].
  apply nth_lookup_Some. rewrite list_lookup_fmap, Hcol. cbn.
  f_equal. apply nth_lookup_Some. rewrite list_lookup_fmap, Hv. reflexivity.
Qed.

(** X18: when the coercion of the cells returns, the frame has the same
    columns and the same index, every row has one cell per column, and
    each cell shows what [float_convert] returns for the cell it
    replaces: that value itself, but NaN for [None] in a column where
    some cell was text or a float. *)
Theorem weo_typed_cells df out df' :
  weo_typed df = (out, Return df') ->
  columns df' = columns df /\
  Forall2 (fun r r' =>
             fst r' = fst r /\ length (snd r') = length (columns df) /\
             forall j, (j < length (columns df))%nat ->
               exists o v,
                 float_convert (nth j (snd r) nan) = (o, Return v) /\
                 nth j (snd r') nan = shown (float_column df j) v)
          (rows df) (rows df').
Proof. exact (weo_typed_inv df out df'). Qed.

Lemma weo_typed_cells_witness :
  exists df',
    weo_typed sample_panel_frame =
      (["Encountered type <class 'int'>"], Return df') /\
    nth 0 (snd (nth 2 (rows df') (IObj PNone, []))) PNone = nan /\
    columns df' = columns sample_panel_frame /\
    Forall2 (fun r r' =>
               fst r' = fst r /\
               length (snd r') = length (columns sample_panel_frame) /\
               forall j, (j < length (columns sample_panel_frame))%nat ->
                 exists o v,
                   float_convert (nth j (snd r) nan) = (o, Return v) /\
                   nth j (snd r') nan =
                     shown (float_column sample_panel_frame j) v)
            (rows sample_panel_frame) (rows df').
Proof.
  eexists. split; [vm_compute; reflexivity|]. split; [reflexivity|].
  apply (weo_typed_cells sample_panel_frame ["Encountered type <class 'int'>"]).
  vm_compute. reflexivity.
Defined.

(** X19: one cell of text that is not a number, its commas removed, makes
    the coercion of the whole frame raise [ValueError]: no frame comes
    back, whatever the other cells are. *)
Theorem weo_typed_aborts df r j t :
  In r (rows df) -> (j < length (columns df))%nat ->
  nth j (snd r) nan = PStr t -> PyFloat.parse (without_commas t) = None ->
  exists out what, weo_typed df = (out, Raise (ValueError what)).
Proof.
  intros Hr Hj Hc Hp.
  destruct (weo_typed df) as [out [df'|e]] eqn:H.
  - exfalso. apply weo_typed_inv in H. destruct H as [_ H].
    apply list_elem_of_In, list_elem_of_lookup in Hr. destruct Hr as (i & Hi).
    destruct (Forall2_lookup_l _ _ _ _ _ H Hi) as (r' & _ & _ & _ & Hcells).
    destruct (Hcells j Hj) as (o & v & Hf & _).
    rewrite Hc, float_convert_text, Hp in Hf. discriminate Hf.
  - exists out. unfold weo_typed, applymap in H.
    destruct (mapM _ (seq 0 (length (columns df)))) as [o [cols|e']] eqn:E.
    + rewrite bind_Return in H. discriminate H.
    + cbn in H. injection H as _ <-.
      apply (mapM_raise_of (fun e => exists what, e = ValueError what)) in E;
        [destruct E as (what & ->); eauto|].
      intros x o' e1 Hx.
      destruct (mapM _ (rows df)) as [o1 [column|e2]] eqn:Em;
        [rewrite bind_Return in Hx; discriminate Hx|].
      cbn in Hx. injection Hx as _ <-.
      apply (mapM_raise_of (fun e => exists what, e = ValueError what)) in Em;
        [exact Em|].
      intros y o2 e3. apply float_convert_raises.
Qed.

Lemma weo_typed_aborts_witness :
  exists out what, weo_typed sample_weo = (out, Raise (ValueError what)).
Proof.
  apply (weo_typed_aborts sample_weo
           (IObj (PInt 1), [PInt 112; PStr "NGDP"; PStr "United Kingdom";
                            PStr "Billions"; PStr "n/a"; PFloat float_1234_5;
                            PFloat float_2_5]) 4%nat "n/a").
  - cbn. tauto.
  - cbn. lia.
  - reflexivity.
  - vm_compute. reflexivity.
Defined.

(** ** Whole numbers with separators *)

Lemma digits_loop_all acc cnt s :
  Py.all_chars Py.is_digit s = true ->
  PyFloat.digits_loop acc cnt s =
  (Py.digits_val acc s, (cnt + String.length s)%nat, "").
Proof.
  revert acc cnt. induction s as [|c s IH]; intros acc cnt H.
  - cbn. rewrite Nat.add_0_r. reflexivity.
  - cbn [Py.all_chars] in H. apply andb_prop in H. destruct H as [Hc Hs].
    cbn [PyFloat.digits_loop Py.digits_val String.length]. rewrite Hc.
    rewrite (IH _ _ Hs). do 2 f_equal. lia.
Qed.

Lemma digits_val_nonneg s acc :
  Py.all_chars Py.is_digit s = true -> 0 <= acc -> 0 <= Py.digits_val acc s.
Proof.
  revert acc. induction s as [|c s IH]; intros acc H Ha; [exact Ha|].
  cbn [Py.all_chars] in H. apply andb_prop in H. destruct H as [Hc Hs].
  cbn [Py.digits_val]. apply IH; [exact Hs|].
  assert (0 <= Py.digit_val c).
  { apply digit_cases in Hc. cbn [In] in Hc.
    repeat (destruct Hc as [<-|Hc]; [vm_compute; discriminate|]). destruct Hc. }
  lia.
Qed.

Lemma digit_not_float_space c : digit c -> PyFloat.float_space c = false.
Proof.
  intros H. apply digit_cases in H. cbn [In] in H.
  repeat (destruct H as [<-|H]; [reflexivity|]). destruct H.
Qed.

Lemma rstrip_digits s :
  Py.all_chars Py.is_digit s = true -> PyFloat.float_rstrip s = s.
Proof.
  induction s as [|c s IH]; intros H; [reflexivity|].
  cbn [Py.all_chars] in H. apply andb_prop in H. destruct H as [Hc Hs].
  cbn [PyFloat.float_rstrip]. rewrite (IH Hs), (digit_not_float_space c Hc).
  destruct s; reflexivity.
Qed.

Lemma parse_digits s :
  isdigit s = true ->
  PyFloat.parse s =
  Some (binary_normalize prec emax (Py.digits_val 0 s) 0 false).
Proof.
  unfold isdigit. destruct s as [|c s]; [discriminate|]. intros H.
  pose proof (rstrip_digits _ H) as Hr.
  pose proof (digits_val_nonneg _ 0 H (Z.le_refl 0)) as Hn.
  cbn [Py.all_chars] in H. apply andb_prop in H. destruct H as [Hc Hs].
  unfold PyFloat.parse, PyFloat.float_strip.
  cbn [PyFloat.float_lstrip]. rewrite (digit_not_float_space c Hc), Hr.
  cbn [Py.digits_val] in Hn |- *.
  assert (Hparse : PyFloat.floatnumber (String c s) =
                   Some (Py.digits_val (10 * 0 + Py.digit_val c) s, 0)).
  { unfold PyFloat.floatnumber, PyFloat.number, PyFloat.digitpart.
    rewrite Hc, (digits_loop_all _ _ _ Hs). reflexivity. }
  apply digit_cases in Hc. cbn [In] in Hc.
  repeat (destruct Hc as [<-|Hc];
    [cbn [PyFloat.sign Py.lower Py.map_chars]; rewrite Hparse;
     unfold PyFloat.of_decimal;
     destruct (Py.digits_val _ s) as [|p|p];
       [reflexivity | cbn [Z.leb Z.compare Z.pow Z.pow_pos Pos.iter];
                      rewrite ?Z.mul_1_r, ?Pos.mul_1_r; reflexivity | lia]|]).
  destruct Hc.
Qed.

(** X20: a text of digits and commas, with at least one digit, is
    coerced, nothing printed, to the float nearest to the whole number
    its digits write, wherever the commas stand. *)
Theorem float_convert_grouped_digits t :
  isdigit (without_commas t) = true ->
  float_convert (PStr t) =
  ([], Return (PFloat (binary_normalize prec emax
                         (Py.digits_val 0 (without_commas t)) 0 false))).
Proof.
  intros H. rewrite float_convert_text, (parse_digits _ H). reflexivity.
Qed.

Lemma float_convert_grouped_digits_witness :
  float_convert (PStr "1,234,567") =
  ([], Return (PFloat (binary_normalize prec emax
                         (Py.digits_val 0 (without_commas "1,234,567")) 0 false))).
Proof.
  apply (float_convert_grouped_digits "1,234,567"). reflexivity.
Defined.

(** ** Cells [from_ONS] cannot convert *)

(** X21: when the file is read and the frequency known, one kept row with
    a cell, other than its label, that [float] does not accept makes
    [from_ONS] raise: it returns neither a frame nor [None]. A figure
    written with a comma is such a cell, [from_ONS] does not remove
    separators. *)
Theorem from_ONS_unconvertible_cell
    read_csv dataset series freq print_url out0 dfraw pos pattern r c :
  read_csv (_retrieve_ONS_csv dataset series) = (out0, Return dfraw) ->
  position "Unnamed: 0" (columns dfraw) = Some pos ->
  re_dict !! Py.upper freq = Some pattern ->
  In r (rows dfraw) -> keeps pattern pos r = true ->
  In c (delete pos (snd r)) ->
  (forall f, py_float c <> ([], Return f)) ->
  exists out e,
    from_ONS read_csv dataset series freq print_url = (out, Raise e).
Proof.
  intros Hr Hpos Hre Hin Hk Hc Hbad.
  assert (Hkept : In r (List.filter (keeps pattern pos) (rows dfraw))).
  { apply filter_In. split; assumption. }
  destruct (from_ONS read_csv dataset series freq print_url)
    as [out [[df|]|e]] eqn:H.
  - exfalso. apply from_ONS_frame_inv in H.
    destruct H as (out0' & dfraw' & pos' & pattern' & Hr' & Hpos' & Hre' & _
                   & _ & _ & _ & _ & Hok).
    rewrite Hr in Hr'. injection Hr' as <- <-.
    rewrite Hpos in Hpos'. injection Hpos' as <-.
    rewrite Hre in Hre'. injection Hre' as <-.
    rewrite List.Forall_forall in Hok. specialize (Hok r Hkept).
    rewrite List.Forall_forall in Hok. destruct (Hok c Hc) as (f & Hf).
    exact (Hbad f Hf).
  - exfalso.
    rewrite (from_ONS_read _ _ _ _ _ _ _ _ _ Hr Hpos Hre
               (kept_has_str dfraw pattern pos r Hin Hk)), bind_Return in H.
    cbn [fst snd] in H.
    assert (He : empty (filtered dfraw pattern pos) = false).
    { unfold empty. rewrite filtered_rows.
      change (columns (filtered dfraw pattern pos)) with (columns dfraw).
      destruct (columns dfraw); [discriminate Hpos|].
      destruct (List.filter _ _); [destruct Hkept|reflexivity]. }
    rewrite He in H.
    destruct (_timeseries_index _ _) as [o1 [df1|e]]; [|discriminate H].
    rewrite bind_Return in H. cbn [fst snd] in H.
    destruct (astype_float df1) as [o2 [df2|e]]; [|discriminate H].
    rewrite bind_Return in H. discriminate H.
  - eauto.
Qed.

Lemma from_ONS_unconvertible_cell_witness :
  exists out e,
    from_ONS (fun _ => ret sample_comma) "qna" ["YBHA"] "A" false =
      (out, Raise e).
Proof.
  apply (from_ONS_unconvertible_cell (fun _ => ret sample_comma) "qna"
           ["YBHA"] "A" false [] sample_comma 0%nat pattern_A
           (IObj (PInt 1), [PStr "2002"; PStr "1,002"]) (PStr "1,002"));
    try reflexivity.
  - cbn. tauto.
  - cbn. tauto.
  - intros f H. vm_compute in H. discriminate H.
Defined.

(** ** The series codes in the address of an ONS file *)

Lemma all_chars_app p s t :
  Py.all_chars p (s +:+ t) = Py.all_chars p s && Py.all_chars p t.
Proof.
  induction s as [|c s IH]; [reflexivity|].
  rewrite append_String. cbn [Py.all_chars]. rewrite IH, andb_assoc.
  reflexivity.
Qed.

Lemma code_char_to_upper c :
  Ascii.eqb c " " = false -> code_char (Py.to_upper c) = true.
Proof.
  destruct c as [[] [] [] [] [] [] [] []]; intros H; vm_compute in H |- *;
    congruence.
Qed.

Lemma to_upper_space c :
  Ascii.eqb (Py.to_upper c) " " = Ascii.eqb c " ".
Proof. destruct c as [[] [] [] [] [] [] [] []]; reflexivity. Qed.

Lemma clean_code s :
  Py.all_chars code_char (Py.replace " " "" (Py.upper s)) = true.
Proof.
  induction s as [|c s IH]; [reflexivity|].
  cbn [Py.upper Py.map_chars Py.replace]. fold (Py.upper s).
  rewrite to_upper_space. destruct (Ascii.eqb c " ") eqn:Hc.
  - rewrite append_Empty. exact IH.
  - cbn [Py.all_chars]. rewrite (code_char_to_upper c Hc). exact IH.
Qed.

Lemma join_clean codes :
  Forall (fun s => Py.all_chars code_char s = true) codes ->
  Py.all_chars code_char (Py.join "," codes) = true.
Proof.
  induction 1 as [|s codes Hs _ IH]; [reflexivity|].
  cbn [Py.join]. destruct codes as [|s' codes]; [exact Hs|].
  rewrite !all_chars_app, Hs, IH. reflexivity.
Qed.

(** X22: the address of an ONS file is the fixed address, the dataset
    name in small letters without the white space around it, and the
    series codes joined by commas; whatever the codes given, that last
    part holds no space and no small letter. *)
Theorem retrieve_ONS_csv_codes dataset series :
  exists codes,
    _retrieve_ONS_csv dataset series =
      "http://www.ons.gov.uk/ons/datasets-and-tables/downloads/csv.csv?dataset="
      +:+ Py.strip (Py.lower dataset) +:+ "&cdid=" +:+ codes /\
    Py.all_chars code_char codes = true.
Proof.
  eexists. split; [reflexivity|]. apply join_clean.
  apply List.Forall_forall. intros s Hs. apply in_map_iff in Hs.
  destruct Hs as (s0 & <- & _). apply clean_code.
Qed.
